(** * Sleep tracker: activity aggregation and gap inference

    A shallow embedding of the decision logic of [scripts/sleep_tracker.py]:
    the merge / sort / de-duplication pass of [main], the gap scan of
    [find_sleep_periods] with its night-time label, and the "last night"
    summary selection at the end of [main].

    Python [float] is IEEE binary64; it is modelled with the executable
    specification of the Standard Library ([SpecFloat], precision 53,
    [emax] 1024), so that [timedelta.total_seconds()], the division by
    [3600] and the comparisons are the operations the interpreter runs.

    A function that can raise returns an [option]: [None] stands for the
    [IndexError] of a subscript out of range, the only exception the
    modelled code could raise.  The timestamp sources (files, browser
    history, prefetch) and the printing are outside the model: [main]
    starts from the four lists the sources return. *)

From Stdlib Require Import ZArith Lia.
From Stdlib Require Import Floats.SpecFloat.
From stdpp Require Import base option list sorting.

Local Open Scope Z_scope.

(** ** Python floats *)

Module PyFloat.

Definition prec : Z := 53.
Definition emax : Z := 1024.

Definition float : Type := spec_float.

(** [float(n)] for an integer [n]. *)
Definition of_int (n : Z) : float := binary_normalize prec emax n 0 false.

(** [a / b] on two [int]s, [b] positive: the correctly rounded quotient. *)
Definition int_truediv (a : Z) (b : positive) : float :=
  match a with
  | Z0 => S754_zero false
  | Zpos p => SFdiv prec emax (S754_finite false p 0) (S754_finite false b 0)
  | Zneg p => SFdiv prec emax (S754_finite true p 0) (S754_finite false b 0)
  end.

(** [x / y] on two floats ([y] is never zero where the program divides). *)
Definition truediv (x y : float) : float := SFdiv prec emax x y.

(** [x >= y] and [x > y]; both are [False] as soon as one side is NaN. *)
Definition ge (x y : float) : bool := SFleb y x.
Definition gt (x y : float) : bool := SFltb y x.

Definition zero : float := S754_zero false.

End PyFloat.

Abbreviation float := PyFloat.float.

(** ** Naive datetimes and timedeltas

    A naive [datetime] has microsecond resolution; it is represented by
    the number of microseconds elapsed since [datetime.min]
    (0001-01-01 00:00:00).  Comparison, subtraction and the [hour] field
    are functions of that number only. *)

Record datetime : Type := DateTime { ordinal_us : Z }.
Record timedelta : Type := TimeDelta { delta_us : Z }.

Definition us_per_second : positive := 1000000.
Definition us_per_hour : Z := 3600000000.

(** [datetime(.., hh, mm, ss)] on day number [day] (days since 0001-01-01). *)
Definition at_time (day hh mm ss : Z) : datetime :=
  DateTime ((((day * 24 + hh) * 60 + mm) * 60 + ss) * 1000000).

(** [t.hour] *)
Definition hour (t : datetime) : Z := (ordinal_us t / us_per_hour) mod 24.

(** [a - b] on datetimes *)
Definition dt_sub (a b : datetime) : timedelta :=
  TimeDelta (ordinal_us a - ordinal_us b).

(** [d.total_seconds()] *)
Definition total_seconds (d : timedelta) : float :=
  PyFloat.int_truediv (delta_us d) us_per_second.

(** [a <= b] on datetimes, the order [list.sort] uses. *)
Definition dt_le (a b : datetime) : Prop := ordinal_us a <= ordinal_us b.
Definition dt_lt (a b : datetime) : Prop := ordinal_us a < ordinal_us b.

(** ** Periods *)

(** The dict built by [find_sleep_periods], one field per key. *)
Record Period : Type := mkPeriod {
  sleep_at : datetime;
  wake_at : datetime;
  duration_hours : float;
  is_likely_sleep : bool
}.

(** ** Loops *)

(** [for i in iter: s = body(s, i)], where the body may raise. *)
Fixpoint for_each {S I : Type} (body : S -> I -> option S)
    (iter : list I) (s : S) : option S :=
  match iter with
  | [] => Some s
  | i :: rest => s' ← body s i; for_each body rest s'
  end.

(** [range(a, b)] *)
Definition range (a b : nat) : list nat := seq a (b - a).

(** ** [find_sleep_periods] *)

(** [gap.total_seconds() / 3600] for [gap = cur - prev]. *)
Definition gap_hours_of (prev cur : datetime) : float :=
  PyFloat.truediv (total_seconds (dt_sub cur prev)) (PyFloat.of_int 3600).

(** [start_hour >= 20 or start_hour < 4] *)
Definition is_night (sleep_start : datetime) : bool :=
  (20 <=? hour sleep_start) || (hour sleep_start <? 4).

(** One iteration of the scan.  [None] stands for the [IndexError] an
    out-of-range subscript would raise. *)
Definition scan_step (all_timestamps : list datetime) (min_gap_hours : float)
    (periods : list Period) (i : nat) : option (list Period) :=
  cur ← all_timestamps !! i;
  prev ← all_timestamps !! (i - 1)%nat;
  let gap_hours := gap_hours_of prev cur in
  if PyFloat.ge gap_hours min_gap_hours then
    let sleep_start := prev in
    let wake_time := cur in
    Some (periods ++ [mkPeriod sleep_start wake_time gap_hours (is_night sleep_start)])
  else Some periods.

(** [min_gap_hours] is a float, as [main] passes it ([args.gap]); the
    default [3] of the signature is [PyFloat.of_int 3]. *)
Definition find_sleep_periods (all_timestamps : list datetime)
    (min_gap_hours : float) : option (list Period) :=
  if decide (length all_timestamps < 2)%nat then Some []
  else for_each (scan_step all_timestamps min_gap_hours)
         (range 1 (length all_timestamps)) [].

(** ** The aggregation and summary steps of [main] *)

Global Instance dt_le_dec : RelDecision dt_le.
Proof. intros a b. unfold dt_le. apply _. Defined.

(** [all_timestamps.sort()].  Datetimes that compare equal are the same
    value, so the sorted list is determined by the order alone. *)
Definition sort_timestamps (l : list datetime) : list datetime :=
  merge_sort dt_le l.

(** [(ts - deduped[-1]).total_seconds() > 60] *)
Definition far_apart (kept ts : datetime) : bool :=
  PyFloat.gt (total_seconds (dt_sub ts kept)) (PyFloat.of_int 60).

(** Body of the de-duplication loop; [deduped[-1]] raises on an empty list. *)
Definition dedup_step (deduped : list datetime) (ts : datetime)
    : option (list datetime) :=
  kept ← last deduped;
  if far_apart kept ts then Some (deduped ++ [ts]) else Some deduped.

(** [deduped = [all_timestamps[0]]; for ts in all_timestamps[1:]: ...] *)
Definition deduplicate (all_timestamps : list datetime)
    : option (list datetime) :=
  first ← all_timestamps !! 0%nat;
  for_each dedup_step (drop 1 all_timestamps) [first].

Inductive Summary : Type :=
  | LastSleep (last_sleep : Period)   (* "You stopped using your PC at: ..." *)
  | LastIdle (last : Period)          (* "Last significant idle period: ..." *)
  | Undetermined.                     (* "Could not determine sleep pattern." *)

(** The "Last Night Summary" ladder; [xs[-1]] raises on an empty list. *)
Definition select_summary (periods : list Period) : option Summary :=
  let night_periods := filter (λ p, is_likely_sleep p) periods in
  if bool_decide (night_periods ≠ []) then
    last_sleep ← last night_periods; Some (LastSleep last_sleep)
  else if bool_decide (periods ≠ []) then
    l ← last periods; Some (LastIdle l)
  else Some Undetermined.

Inductive Outcome : Type :=
  | NoActivityData   (* "No activity data found!", then [return] *)
  | Analysed (timeline : list datetime) (periods : list Period)
             (summary : Summary).

(** [main], from the four adapter results and [args.gap] on. *)
Definition main (recent chrome prefetch user_files : list datetime)
    (gap : float) : option Outcome :=
  let all_timestamps := [] ++ recent ++ chrome ++ prefetch ++ user_files in
  if bool_decide (all_timestamps = []) then Some NoActivityData
  else
    let all_timestamps := sort_timestamps all_timestamps in
    all_timestamps ← deduplicate all_timestamps;
    periods ← find_sleep_periods all_timestamps gap;
    summary ← select_summary periods;
    Some (Analysed all_timestamps periods summary).

(** * Definitions used to state the properties *)

(** ** Signs of floats *)

(** A float that is not NaN and does not compare below zero. *)
Definition nonneg_float (x : float) : Prop :=
  match x with
  | S754_zero _ | S754_finite false _ _ | S754_infinity false => True
  | _ => False
  end.

(** A float that is NaN or does not compare above zero. *)
Definition not_positive (x : float) : Prop :=
  match x with
  | S754_finite false _ _ | S754_infinity false => False
  | _ => True
  end.

(** ** Rounding *)

(** What a shift record knows of the quotient [N / Dn] it truncates. *)
Definition truncates (mrs : shr_record) (N Dn : Z) : Prop :=
  0 < Dn /\ 0 <= N /\ shr_m mrs = N / Dn /\
  (shr_r mrs = true \/ shr_s mrs = true -> N mod Dn <> 0).

(** The float that rounding builds from a mantissa [M1] of at most 54
    bits at exponent [E1]. *)
Definition pack (sx : bool) (M1 E1 : Z) : spec_float :=
  if M1 <? 2 ^ 53 then
    if E1 <=? 971 then S754_finite sx (Z.to_pos M1) E1 else S754_infinity sx
  else
    if E1 + 1 <=? 971 then S754_finite sx (2 ^ 52)%positive (E1 + 1)
    else S754_infinity sx.

(** ** The gap scan, read off the consecutive pairs of the timeline *)

(** The pairs [(timeline[i-1], timeline[i])], in timeline order. *)
Definition consecutive_pairs (timeline : list datetime)
    : list (datetime * datetime) :=
  zip timeline (drop 1 timeline).

(** The separation of the pair, in hours, is at least [G]. *)
Definition separation_at_least (G : float) (pr : datetime * datetime) : bool :=
  PyFloat.ge (gap_hours_of pr.1 pr.2) G.

(** The Period of a pair: start, end, duration and label. *)
Definition period_of (pr : datetime * datetime) : Period :=
  mkPeriod pr.1 pr.2 (gap_hours_of pr.1 pr.2) (is_night pr.1).

Definition gap_periods (timeline : list datetime) (G : float) : list Period :=
  period_of <$> filter (λ pr, separation_at_least G pr) (consecutive_pairs timeline).

(** The start and end of a Period, as a pair. *)
Definition endpoints (p : Period) : datetime * datetime :=
  (sleep_at p, wake_at p).

(** ** De-duplication, in the words of the specification *)

(** "More than 60 seconds after", counted in microseconds. *)
Definition more_than_60s_after (last_kept ts : datetime) : bool :=
  60000000 <? ordinal_us ts - ordinal_us last_kept.

(** The pass as the specification words it: walk the list with the last
    kept timestamp in hand, and keep a timestamp only if it lies more than
    60 seconds after that one. *)
Fixpoint keep_after (last_kept : datetime) (rest : list datetime)
    : list datetime :=
  match rest with
  | [] => []
  | ts :: rest' =>
      if more_than_60s_after last_kept ts then ts :: keep_after ts rest'
      else keep_after last_kept rest'
  end.

Definition greedy_dedup (sorted_ts : list datetime) : list datetime :=
  match sorted_ts with
  | [] => []
  | first :: rest => first :: keep_after first rest
  end.

(** ** The single-source scenario *)

(** Events at 08:00, 08:00:30 and 23:00 of day [d], and 06:00 of the next. *)
Definition e_0800 (d : Z) : datetime := at_time d 8 0 0.
Definition e_080030 (d : Z) : datetime := at_time d 8 0 30.
Definition e_2300 (d : Z) : datetime := at_time d 23 0 0.
Definition e_0600_next (d : Z) : datetime := at_time (d + 1) 6 0 0.

Definition scenario_events (d : Z) : list datetime :=
  [e_0800 d; e_080030 d; e_2300 d; e_0600_next d].

Definition scenario_timeline (d : Z) : list datetime :=
  [e_0800 d; e_2300 d; e_0600_next d].

(** The 15-hour daytime gap and the 7-hour night gap. *)
Definition away_period (d : Z) : Period :=
  mkPeriod (e_0800 d) (e_2300 d) (PyFloat.of_int 15) false.
Definition sleep_period (d : Z) : Period :=
  mkPeriod (e_2300 d) (e_0600_next d) (PyFloat.of_int 7) true.

(** 2024-01-01, counted in days from 0001-01-01. *)
Definition day_2024_01_01 : Z := 738885.

(** ** The fallback-ladder example *)

(** Three Periods in the shape of the fallback-ladder example: an away
    Period starting 08:00, a sleep Period starting 23:00 (eight hours, the
    longest), and a sleep Period starting 23:30 the day after. *)
Definition ladder_P1 : Period :=
  mkPeriod (at_time day_2024_01_01 8 0 0) (at_time day_2024_01_01 12 0 0)
           (PyFloat.of_int 4) false.
Definition ladder_P2 : Period :=
  mkPeriod (at_time day_2024_01_01 23 0 0) (at_time (day_2024_01_01 + 1) 7 0 0)
           (PyFloat.of_int 8) true.
Definition ladder_P3 : Period :=
  mkPeriod (at_time (day_2024_01_01 + 1) 23 30 0)
           (at_time (day_2024_01_01 + 2) 4 30 0)
           (PyFloat.of_int 5) true.

(** * The code around the analysis *)

(** ** Exceptions of the code around the analysis *)

(** The exceptions the modelled calls can raise.  [OSError] stands for any
    [OSError] that is not a [PermissionError]. *)
Inductive exn : Type :=
  | KeyError | PermissionError | OSError | OverflowError | ValueError
  | IndexError.

Inductive result (A : Type) : Type :=
  | Ok (a : A)
  | Raise (e : exn).
Arguments Ok {A} a.
Arguments Raise {A} e.

Global Instance result_bind : MBind result :=
  λ A B f m, match m with Ok a => f a | Raise e => Raise e end.

(** [except (OSError, PermissionError)] *)
Definition caught_as_OSError (e : exn) : bool :=
  match e with PermissionError | OSError => true | _ => false end.

(** [except PermissionError] *)
Definition caught_as_PermissionError (e : exn) : bool :=
  match e with PermissionError => true | _ => false end.

(** ** [get_idle_time] *)

(** [(tick - lii.dwTime) & 0xFFFFFFFF], from the value [GetTickCount]
    returned and the [dwTime] that [GetLastInputInfo] filled in. *)
Definition idle_millis (tick dwTime : Z) : Z :=
  Z.land (tick - dwTime) 0xFFFFFFFF.

(** [millis / 1000.0] *)
Definition get_idle_time (tick dwTime : Z) : float :=
  PyFloat.truediv (PyFloat.of_int (idle_millis tick dwTime)) (PyFloat.of_int 1000).

(** A 32-bit value read as a C [int], the default result type of a
    [ctypes] call. *)
Definition as_c_int (x : Z) : Z := if x <? 2 ^ 31 then x else x - 2 ^ 32.

(** ** The lookback cutoff *)

Definition us_per_day : Z := 86400000000.

(** One past [datetime.max] (9999-12-31 23:59:59.999999). *)
Definition max_ordinal_us : Z := 3652059 * us_per_day.

(** [timedelta(days=days)] *)
Definition timedelta_days (days : Z) : result timedelta :=
  if Z.abs days <=? 999999999 then Ok (TimeDelta (days * us_per_day))
  else Raise OverflowError.

(** [t + d] on a datetime and a timedelta: "date value out of range"
    outside years 1 to 9999. *)
Definition dt_add (t : datetime) (d : timedelta) : result datetime :=
  let r := ordinal_us t + delta_us d in
  if (0 <=? r) && (r <? max_ordinal_us) then Ok (DateTime r)
  else Raise OverflowError.

(** [t - d] *)
Definition dt_minus (t : datetime) (d : timedelta) : result datetime :=
  dt_add t (TimeDelta (- delta_us d)).

(** [datetime.now() - timedelta(days=days)] *)
Definition lookback_cutoff (now : datetime) (days : Z) : result datetime :=
  d ← timedelta_days days; dt_minus now d.

(** ** The file adapters *)

Global Instance dt_lt_dec : RelDecision dt_lt.
Proof. intros a b. unfold dt_lt. apply _. Defined.

(** A directory as the adapters see it: what [d.exists()] gives, and what
    iterating over it gives: an exception, or for each file what
    [datetime.fromtimestamp(f.stat().st_mtime)] gives. *)
Record Directory : Type := {
  dir_exists : result bool;
  iterdir : result (list (result datetime))
}.

(** The loop over the files of one directory, on the list [timestamps]
    it appends to: the list when the loop ends, and the exception that
    left it, if any.
    [[
    for f in d.iterdir():
        try:
            mtime = datetime.fromtimestamp(f.stat().st_mtime)
            if mtime > cutoff: timestamps.append(mtime)
        except (OSError, PermissionError): pass
    ]] *)
Fixpoint scan_files (cutoff : datetime) (files : list (result datetime))
    (timestamps : list datetime) : list datetime * option exn :=
  match files with
  | [] => (timestamps, None)
  | Ok mtime :: rest =>
      scan_files cutoff rest
        (if bool_decide (dt_lt cutoff mtime) then timestamps ++ [mtime]
         else timestamps)
  | Raise e :: rest =>
      if caught_as_OSError e then scan_files cutoff rest timestamps
      else (timestamps, Some e)
  end.

(** The same loop with [d.iterdir()] evaluated first. *)
Definition scan_dir (cutoff : datetime) (d : Directory)
    (timestamps : list datetime) : list datetime * option exn :=
  match iterdir d with
  | Ok files => scan_files cutoff files timestamps
  | Raise e => (timestamps, Some e)
  end.

(** [try: <scan_dir> except PermissionError: pass] *)
Definition scan_dir_guarded (cutoff : datetime) (d : Directory)
    (timestamps : list datetime) : list datetime * option exn :=
  match scan_dir cutoff d timestamps with
  | (ts, Some e) => (ts, if caught_as_PermissionError e then None else Some e)
  | (ts, None) => (ts, None)
  end.

(** [return sorted(timestamps)], unless an exception left the function. *)
Definition return_sorted (st : list datetime * option exn)
    : result (list datetime) :=
  match st with
  | (timestamps, None) => Ok (sort_timestamps timestamps)
  | (_, Some e) => Raise e
  end.

(** [recent_dir] is [None] when [os.environ["APPDATA"]] is not set. *)
Definition get_recent_files_activity (recent_dir : option Directory)
    (now : datetime) (days : Z) : result (list datetime) :=
  match recent_dir with
  | None => Raise KeyError
  | Some recent_dir =>
      cutoff ← lookback_cutoff now days;
      found ← dir_exists recent_dir;
      return_sorted
        (if found : bool then scan_dir cutoff recent_dir [] else ([], None))
  end.

(** [prefetch_dir] is [C:/Windows/Prefetch]. *)
Definition get_prefetch_activity (prefetch_dir : Directory)
    (now : datetime) (days : Z) : result (list datetime) :=
  cutoff ← lookback_cutoff now days;
  found ← dir_exists prefetch_dir;
  return_sorted
    (if found : bool then scan_dir_guarded cutoff prefetch_dir []
     else ([], None)).

(** [for d in check_dirs: if d.exists(): try: ... except PermissionError: pass] *)
Fixpoint scan_check_dirs (cutoff : datetime) (check_dirs : list Directory)
    (timestamps : list datetime) : list datetime * option exn :=
  match check_dirs with
  | [] => (timestamps, None)
  | d :: rest =>
      match dir_exists d with
      | Raise e => (timestamps, Some e)
      | Ok true =>
          match scan_dir_guarded cutoff d timestamps with
          | (ts, None) => scan_check_dirs cutoff rest ts
          | (ts, Some e) => (ts, Some e)
          end
      | Ok false => scan_check_dirs cutoff rest timestamps
      end
  end.

(** [check_dirs] holds Downloads, Documents and Desktop of the home
    directory; it is [None] when [os.environ["USERPROFILE"]] is not set. *)
Definition get_user_dir_activity (check_dirs : option (list Directory))
    (now : datetime) (days : Z) : result (list datetime) :=
  cutoff ← lookback_cutoff now days;
  match check_dirs with
  | None => Raise KeyError
  | Some check_dirs => return_sorted (scan_check_dirs cutoff check_dirs [])
  end.

(** ** The rows of the heatmap *)

(** [t.replace(minute=0, second=0, microsecond=0)] *)
Definition floor_hour (t : datetime) : datetime :=
  DateTime (ordinal_us t - ordinal_us t mod us_per_hour).

(** [while current <= now: <row for current>; current += timedelta(hours=1)],
    returning the hours a row is printed for.  [None] is for a loop cut
    short by [fuel]; [heatmap_hours] gives it enough for every input. *)
Fixpoint heatmap_loop (fuel : nat) (now current : datetime)
    (rows : list datetime) : option (result (list datetime)) :=
  match fuel with
  | O => None
  | S fuel' =>
      if bool_decide (dt_le current now) then
        match dt_add current (TimeDelta us_per_hour) with
        | Ok next => heatmap_loop fuel' now next (rows ++ [current])
        | Raise e => Some (Raise e)
        end
      else Some (Ok rows)
  end.

(** The hours [print_heatmap] prints a row for. *)
Definition heatmap_hours (all_timestamps : list datetime) (now : datetime)
    (days : Z) : option (result (list datetime)) :=
  if bool_decide (all_timestamps = []) then Some (Ok [])
  else
    match lookback_cutoff now days with
    | Raise e => Some (Raise e)
    | Ok start =>
        let current := floor_hour start in
        heatmap_loop
          (S (S (Z.to_nat ((ordinal_us now - ordinal_us current) / us_per_hour))))
          now current []
    end.

(** [hour >= 22 or hour < 7], the night colour of a heatmap row. *)
Definition heatmap_is_night (current : datetime) : bool :=
  (22 <=? hour current) || (hour current <? 7).

(** ** The bars of the heatmap *)

(** [x * y] on two floats. *)
Definition float_mul (x y : float) : float :=
  SFmul PyFloat.prec PyFloat.emax x y.

(** [int(x)] on a float: the integer part, [OverflowError] for an
    infinity and [ValueError] for NaN. *)
Definition float_to_int (x : float) : result Z :=
  match x with
  | S754_zero _ => Ok 0
  | S754_finite false m e => Ok (Z.shiftl (Zpos m) e)
  | S754_finite true m e => Ok (- Z.shiftl (Zpos m) e)
  | S754_infinity _ => Raise OverflowError
  | S754_nan => Raise ValueError
  end.

(** [int((count / max_count) * 40) if max_count > 0 else 0] *)
Definition bar_len (count max_count : Z) : result Z :=
  if 0 <? max_count then
    float_to_int
      (float_mul (PyFloat.int_truediv count (Z.to_pos max_count))
                 (PyFloat.of_int 40))
  else Ok 0.

(** ** The idle time line of [main] *)

(** The line [main] prints for the idle time, with the number it
    formats: seconds, minutes or hours. *)
Inductive IdleLine : Type :=
  | IdleSeconds (idle_secs : float)
  | IdleMinutes (idle_mins : float)
  | IdleHours (idle_hours : float).

(** [[
    idle_mins = idle_secs / 60
    if idle_mins < 1: ... idle_secs
    elif idle_mins < 60: ... idle_mins
    else: ... idle_mins/60
    ]] *)
Definition idle_line (idle_secs : float) : IdleLine :=
  let idle_mins := PyFloat.truediv idle_secs (PyFloat.of_int 60) in
  if SFltb idle_mins (PyFloat.of_int 1) then IdleSeconds idle_secs
  else if SFltb idle_mins (PyFloat.of_int 60) then IdleMinutes idle_mins
  else IdleHours (PyFloat.truediv idle_mins (PyFloat.of_int 60)).

(** ** The duration of a Period as [main] prints it *)

(** [x - y] on two floats. *)
Definition float_sub (x y : float) : float :=
  SFsub PyFloat.prec PyFloat.emax x y.

(** [[
    hours = int(p['duration_hours'])
    mins = int((p['duration_hours'] - hours) * 60)
    ]] *)
Definition duration_display (duration_hours : float) : result (Z * Z) :=
  hours ← float_to_int duration_hours;
  mins ← float_to_int
           (float_mul (float_sub duration_hours (PyFloat.of_int hours))
                      (PyFloat.of_int 60));
  Ok (hours, mins).

(** ** The calls of [main] *)


(** ** Further definitions used to state the properties *)

(** The modification times an adapter is meant to report from the files
    of a directory: those it can read that are later than the cutoff. *)
Definition readable_after (cutoff : datetime) (files : list (result datetime))
    : list datetime :=
  omap (λ f, match f with
             | Ok mtime => if bool_decide (dt_lt cutoff mtime) then Some mtime else None
             | Raise _ => None
             end) files.

(** A file is harmless when reading its modification time gives a
    time, or raises what the handler around it catches. *)
Definition file_harmless (f : result datetime) : Prop :=
  match f with Ok _ => True | Raise e => caught_as_OSError e = true end.

(** A directory can be listed when the existence test answers and, if
    it says yes, the listing succeeds with harmless files. *)
Definition dir_listable (d : Directory) : Prop :=
  match dir_exists d with
  | Ok true =>
      match iterdir d with
      | Ok files => Forall file_harmless files
      | Raise _ => False
      end
  | Ok false => True
  | Raise _ => False
  end.

(** A directory is harmless when it can be listed, or exists and the
    listing raises [PermissionError]. *)
Definition dir_harmless (d : Directory) : Prop :=
  dir_listable d \/
  (dir_exists d = Ok true /\ iterdir d = Raise PermissionError).

(** What a directory has to contribute: the modification times later
    than the cutoff of its readable files, when it exists and can be
    listed. *)
Definition dir_contribution (cutoff : datetime) (d : Directory) : list datetime :=
  match dir_exists d, iterdir d with
  | Ok true, Ok files => readable_after cutoff files
  | _, _ => []
  end.

(** No file of the directory was modified later than [now]. *)
Definition no_file_after (now : datetime) (d : Directory) : Prop :=
  match iterdir d with
  | Ok files => forall t, Ok t ∈ files -> dt_le t now
  | Raise _ => True
  end.

(** The separation of the pair, counted exactly in microseconds, is at
    least [G] hours: [G]'s value [m * 2 ^ e] is compared with
    [d / 3 600 000 000], both sides multiplied by the denominators. *)
Definition exactly_at_least (G : float) (pr : datetime * datetime) : bool :=
  let d := ordinal_us pr.2 - ordinal_us pr.1 in
  match G with
  | S754_nan => false
  | S754_infinity negative => negative
  | S754_zero _ => 0 <=? d
  | S754_finite negative m e =>
      (if negative then - Zpos m else Zpos m) * us_per_hour * 2 ^ Z.max e 0
      <=? d * 2 ^ Z.max (- e) 0
  end.

(** [float("1.5343")] and [float("1.1")], the thresholds that
    [--gap 1.5343] and [--gap 1.1] give. *)
Definition gap_1_5343 : float := S754_finite false 6909872908274552 (-52).
Definition gap_1_1 : float := S754_finite false 4953959590107546 (-52).

(** The end of one pair is not after the start of a later pair. *)
Definition pair_before (pr pr' : datetime * datetime) : Prop := dt_le pr.2 pr'.1.


(** ** Rounding to nearest, stated on integers *)

(** [N / Dn] rounded to the nearest integer, a tie to the even one. *)
Definition rne (N Dn : Z) : Z :=
  match 2 * (N mod Dn) ?= Dn with
  | Lt => N / Dn
  | Eq => if Z.even (N / Dn) then N / Dn else N / Dn + 1
  | Gt => N / Dn + 1
  end.

(** The shift record holds the integer part of [N / Dn], and its round
    and sticky bits say where the remainder lies: at or above the half,
    and off both zero and the half. *)
Definition locates (mrs : shr_record) (N Dn : Z) : Prop :=
  0 < Dn /\ 0 <= N /\ shr_m mrs = N / Dn /\
  (shr_r mrs = true <-> Dn <= 2 * (N mod Dn)) /\
  (shr_s mrs = true <-> N mod Dn <> 0 /\ 2 * (N mod Dn) <> Dn).

(** The order of [m * 2 ^ e] and [m' * 2 ^ e']. *)
Definition dyadic_le (m e m' e' : Z) : Prop :=
  m * 2 ^ (e - Z.min e e') <= m' * 2 ^ (e' - Z.min e e').

(** A float that is [+0], [+inf], or positive with a full 53-bit
    mantissa and an exponent of at least [L]. *)
Definition ordinary (L : Z) (x : float) : Prop :=
  match x with
  | S754_zero false | S754_infinity false => True
  | S754_finite false m e => 2 ^ 52 <= Zpos m < 2 ^ 53 /\ L <= e
  | _ => False
  end.

(** * Facts about the float layer *)

(** ** Signs *)

Lemma shr_1_nonneg mrs : 0 <= shr_m mrs -> 0 <= shr_m (shr_1 mrs).
Proof.
  destruct mrs as [m r s]; simpl.
  destruct m as [|[p|p|]|[p|p|]]; simpl; lia.
Qed.

Lemma iter_shr_1_nonneg p :
  forall mrs, 0 <= shr_m mrs -> 0 <= shr_m (SpecFloat.iter_pos shr_1 p mrs).
Proof.
  induction p as [p IH|p IH|]; intros mrs Hm; simpl.
  - apply IH, IH, shr_1_nonneg, Hm.
  - apply IH, IH, Hm.
  - apply shr_1_nonneg, Hm.
Qed.

Lemma shr_fexp_nonneg m e l :
  0 <= m -> 0 <= shr_m (fst (shr_fexp PyFloat.prec PyFloat.emax m e l)).
Proof.
  intros Hm. unfold shr_fexp, shr.
  assert (Hrec : 0 <= shr_m (shr_record_of_loc m l))
    by (destruct l as [|[]]; simpl; exact Hm).
  destruct (fexp PyFloat.prec PyFloat.emax (Zdigits2 m + e) - e); simpl; trivial.
  apply iter_shr_1_nonneg, Hrec.
Qed.

Lemma round_nearest_even_nonneg m l : 0 <= m -> 0 <= round_nearest_even m l.
Proof.
  intros Hm. destruct l as [|[]]; simpl; try lia.
  destruct (Z.even m); lia.
Qed.

(** Rounding a non-negative mantissa keeps the sign it is given and
    never yields NaN. *)
Lemma binary_round_aux_signed sx mx ex lx :
  0 <= mx ->
  match binary_round_aux PyFloat.prec PyFloat.emax sx mx ex lx with
  | S754_zero s | S754_infinity s | S754_finite s _ _ => s = sx
  | S754_nan => False
  end.
Proof.
  intros Hm. unfold binary_round_aux.
  pose proof (shr_fexp_nonneg mx ex lx Hm) as H1.
  destruct (shr_fexp PyFloat.prec PyFloat.emax mx ex lx) as [mrs' e']; simpl in H1.
  pose proof (round_nearest_even_nonneg _ (loc_of_shr_record mrs') H1) as H2.
  pose proof (shr_fexp_nonneg _ e' loc_Exact H2) as H3.
  destruct (shr_fexp PyFloat.prec PyFloat.emax _ e' loc_Exact) as [mrs'' e'']; simpl in H3.
  destruct (shr_m mrs'') as [|m|m]; [reflexivity| |lia].
  destruct (e'' <=? PyFloat.emax - PyFloat.prec); reflexivity.
Qed.

Lemma SFdiv_core_binary_nonneg m1 e1 m2 e2 :
  0 <= fst (fst (SFdiv_core_binary PyFloat.prec PyFloat.emax (Zpos m1) e1 (Zpos m2) e2)).
Proof.
  unfold SFdiv_core_binary.
  set (s := _ - _ - Z.min _ _).
  set (m' := match s with Z0 => _ | Zpos _ => _ | Zneg _ => _ end).
  assert (Hm' : 0 <= m').
  { subst m'. destruct s; try lia. apply Z.shiftl_nonneg. lia. }
  pose proof (Z.div_pos m' (Zpos m2) Hm' ltac:(lia)) as Hq.
  unfold Z.div in Hq.
  destruct (Z.div_eucl m' (Zpos m2)) as [q r]; simpl in *. exact Hq.
Qed.

(** The quotient of two finite floats carries the exclusive-or of the
    signs and is not NaN. *)
Lemma SFdiv_finite_signed sx mx ex sy my ey :
  match SFdiv PyFloat.prec PyFloat.emax (S754_finite sx mx ex) (S754_finite sy my ey) with
  | S754_zero s | S754_infinity s | S754_finite s _ _ => s = xorb sx sy
  | S754_nan => False
  end.
Proof.
  unfold SFdiv.
  pose proof (SFdiv_core_binary_nonneg mx ex my ey) as Hq.
  destruct (SFdiv_core_binary PyFloat.prec PyFloat.emax (Zpos mx) ex (Zpos my) ey)
    as [[mz ez] lz]; simpl in Hq.
  apply binary_round_aux_signed, Hq.
Qed.

Lemma int_truediv_nonneg a b : 0 <= a -> nonneg_float (PyFloat.int_truediv a b).
Proof.
  intros Ha. destruct a as [|p|p]; [exact I| |lia].
  unfold PyFloat.int_truediv.
  pose proof (SFdiv_finite_signed false p 0 false b 0) as H.
  destruct (SFdiv PyFloat.prec PyFloat.emax _ _) as [s|s| |s m e]; simpl in *; subst; tauto.
Qed.

Lemma int_truediv_not_positive a b :
  a <= 0 -> not_positive (PyFloat.int_truediv a b).
Proof.
  intros Ha. destruct a as [|p|p]; [exact I|lia|].
  unfold PyFloat.int_truediv.
  pose proof (SFdiv_finite_signed true p 0 false b 0) as H.
  destruct (SFdiv PyFloat.prec PyFloat.emax _ _) as [s|s| |s m e]; simpl in *; subst; tauto.
Qed.

Lemma truediv_pos_finite_nonneg x sy_m sy_e :
  nonneg_float x ->
  nonneg_float (PyFloat.truediv x (S754_finite false sy_m sy_e)).
Proof.
  destruct x as [s|[]| |[] m e]; try (simpl; tauto); intros _.
  pose proof (SFdiv_finite_signed false m e false sy_m sy_e) as H.
  unfold PyFloat.truediv.
  destruct (SFdiv PyFloat.prec PyFloat.emax _ _) as [s|s| |s m' e']; simpl in *; subst; tauto.
Qed.

Lemma truediv_pos_finite_not_positive x sy_m sy_e :
  not_positive x ->
  not_positive (PyFloat.truediv x (S754_finite false sy_m sy_e)).
Proof.
  destruct x as [s|[]| |[] m e]; try (simpl; tauto); intros _.
  pose proof (SFdiv_finite_signed true m e false sy_m sy_e) as H.
  unfold PyFloat.truediv.
  destruct (SFdiv PyFloat.prec PyFloat.emax _ _) as [s|s| |s m' e']; simpl in *; subst; tauto.
Qed.

(** [x >= g] holds whenever [x] is non-negative and [g <= 0]. *)
Lemma ge_nonneg_nonpos x g :
  nonneg_float x -> PyFloat.ge PyFloat.zero g = true -> PyFloat.ge x g = true.
Proof.
  unfold PyFloat.ge, PyFloat.zero, SFleb.
  destruct x as [s|[]| |[] m e]; simpl; try tauto; intros _;
    destruct g as [s'|[]| |[] m' e']; simpl; try discriminate; reflexivity.
Qed.

(** [x >= g] fails whenever [g > 0] and [x] is not positive. *)
Lemma ge_not_positive_pos x g :
  not_positive x -> PyFloat.gt g PyFloat.zero = true -> PyFloat.ge x g = false.
Proof.
  unfold PyFloat.ge, PyFloat.gt, PyFloat.zero, SFleb, SFltb.
  destruct x as [s|[]| |[] m e]; simpl; try tauto; intros _;
    destruct g as [s'|[]| |[] m' e']; simpl; try discriminate; reflexivity.
Qed.

Lemma gap_hours_nonneg prev cur :
  dt_le prev cur -> nonneg_float (gap_hours_of prev cur).
Proof.
  intros Hle. unfold gap_hours_of.
  change (PyFloat.of_int 3600)
    with (S754_finite false 7916483719987200 (-41)).
  apply truediv_pos_finite_nonneg, int_truediv_nonneg.
  unfold dt_le in Hle. simpl. lia.
Qed.

Lemma gap_hours_not_positive prev cur :
  dt_le cur prev -> not_positive (gap_hours_of prev cur).
Proof.
  intros Hle. unfold gap_hours_of.
  change (PyFloat.of_int 3600)
    with (S754_finite false 7916483719987200 (-41)).
  apply truediv_pos_finite_not_positive, int_truediv_not_positive.
  unfold dt_le in Hle. simpl. lia.
Qed.

(** ** The division of two positive integers, up to rounding *)

Lemma digits2_pos_bounds p :
  2 ^ (Zpos (digits2_pos p) - 1) <= Zpos p < 2 ^ Zpos (digits2_pos p).
Proof.
  induction p as [p IH|p IH|]; cbn [digits2_pos].
  - rewrite Pos2Z.inj_succ.
    replace (Z.succ (Zpos (digits2_pos p)) - 1) with (Z.succ (Zpos (digits2_pos p) - 1)) by lia.
    rewrite !Z.pow_succ_r by lia. lia.
  - rewrite Pos2Z.inj_succ.
    replace (Z.succ (Zpos (digits2_pos p)) - 1) with (Z.succ (Zpos (digits2_pos p) - 1)) by lia.
    rewrite !Z.pow_succ_r by lia. lia.
  - simpl. lia.
Qed.

(** The number of binary digits of a positive integer is determined by
    the powers of two around it. *)
Lemma Zdigits2_unique m d :
  0 < d -> 2 ^ (d - 1) <= m < 2 ^ d -> Zdigits2 m = d.
Proof.
  intros Hd [Hlo Hhi].
  assert (0 < m) as Hm by (pose proof (Z.pow_pos_nonneg 2 (d - 1)); lia).
  destruct m as [|p|p]; try lia. cbn [Zdigits2].
  pose proof (digits2_pos_bounds p) as [Hlo' Hhi'].
  set (d' := Zpos (digits2_pos p)) in *.
  destruct (Z.lt_trichotomy d' d) as [Hlt|[Heq|Hgt]]; [|done|].
  - assert (2 ^ d' <= 2 ^ (d - 1)) by (apply Z.pow_le_mono_r; lia). lia.
  - assert (2 ^ d <= 2 ^ (d' - 1)) by (apply Z.pow_le_mono_r; lia). lia.
Qed.

Lemma Zdigits2_bounds m :
  0 < m -> 0 < Zdigits2 m /\ 2 ^ (Zdigits2 m - 1) <= m < 2 ^ Zdigits2 m.
Proof.
  destruct m as [|p|p]; try lia. intros _. cbn [Zdigits2].
  split; [lia|apply digits2_pos_bounds].
Qed.

Lemma shr_1_truncates mrs N Dn :
  truncates mrs N Dn -> truncates (shr_1 mrs) N (2 * Dn).
Proof.
  intros (HD & HN & Hm & Hrs). destruct mrs as [m r s]. cbn [shr_m shr_r shr_s] in *.
  pose proof (Z.div_mod N Dn ltac:(lia)) as Hdm.
  pose proof (Z.mod_pos_bound N Dn HD) as Hmod.
  assert (N / (2 * Dn) = m / 2) as Hq.
  { rewrite Hm, Z.mul_comm. symmetry. apply Z.div_div; lia. }
  pose proof (Z.div_mod N (2 * Dn) ltac:(lia)) as Hdm2.
  pose proof (Z.mod_pos_bound N (2 * Dn) ltac:(lia)) as Hmod2.
  pose proof (Z.div_mod m 2 ltac:(lia)) as Hm2.
  pose proof (Z.mod_pos_bound m 2 ltac:(lia)) as Hmb.
  assert (N mod (2 * Dn) = (m mod 2) * Dn + N mod Dn) as Hr by nia.
  assert (0 <= m) as Hm0 by (rewrite Hm; apply Z.div_pos; lia).
  unfold truncates. split; [lia|]. split; [done|].
  destruct m as [|[p|p|]|p]; try lia; cbn [shr_1 shr_m shr_r shr_s].
  - split; [by rewrite Hq|]. intros [Hf|Hf]; [done|].
    rewrite Hr. simpl (0 mod 2). apply orb_true_iff in Hf. specialize (Hrs Hf). lia.
  - split.
    + rewrite Hq. change (Zpos p~1) with (2 * Zpos p + 1).
      apply (Z.div_unique _ _ _ 1); lia.
    + intros _. rewrite Hr.
      change (Zpos p~1) with (2 * Zpos p + 1) in *.
      assert ((2 * Zpos p + 1) mod 2 = 1) as ->; [|lia].
      symmetry. apply (Z.mod_unique _ _ (Zpos p)); lia.
  - split.
    + rewrite Hq. change (Zpos p~0) with (2 * Zpos p).
      apply (Z.div_unique _ _ _ 0); lia.
    + intros [Hf|Hf]; [done|]. rewrite Hr.
      change (Zpos p~0) with (2 * Zpos p) in *.
      assert ((2 * Zpos p) mod 2 = 0) as ->.
      { symmetry. apply (Z.mod_unique _ _ (Zpos p)); lia. }
      apply orb_true_iff in Hf. specialize (Hrs Hf). lia.
  - split; [by rewrite Hq|]. intros _. rewrite Hr. simpl (1 mod 2). lia.
Qed.

Lemma iter_shr_1_truncates k :
  forall mrs N Dn,
    truncates mrs N Dn ->
    truncates (SpecFloat.iter_pos shr_1 k mrs) N (Dn * 2 ^ Zpos k).
Proof.
  induction k as [k IH|k IH|]; intros mrs N Dn H; cbn [SpecFloat.iter_pos].
  - replace (Dn * 2 ^ Zpos k~1) with (2 * Dn * 2 ^ Zpos k * 2 ^ Zpos k).
    + apply IH, IH, shr_1_truncates, H.
    + replace (Zpos k~1) with (Zpos k + Zpos k + 1) by lia.
      rewrite !Z.pow_add_r by lia. change (2 ^ 1) with 2. ring.
  - replace (Dn * 2 ^ Zpos k~0) with (Dn * 2 ^ Zpos k * 2 ^ Zpos k).
    + apply IH, IH, H.
    + replace (Zpos k~0) with (Zpos k + Zpos k) by lia.
      rewrite !Z.pow_add_r by lia. ring.
  - change (2 ^ 1) with 2. rewrite Z.mul_comm. by apply shr_1_truncates.
Qed.

Lemma shr_m_of_loc m l : shr_m (shr_record_of_loc m l) = m.
Proof. by destruct l as [|[]]. Qed.

Lemma shr_truncates mrs e k N Dn :
  0 <= k -> truncates mrs N Dn ->
  truncates (fst (shr mrs e k)) N (Dn * 2 ^ k) /\ snd (shr mrs e k) = e + k.
Proof.
  intros Hk H. destruct k as [|k|k]; try lia; cbn [shr fst snd].
  - split; [|lia]. by rewrite Z.pow_0_r, Z.mul_1_r.
  - split; [|done]. by apply iter_shr_1_truncates.
Qed.

Lemma round_nearest_even_cases mrs N Dn :
  truncates mrs N Dn ->
  let M := round_nearest_even (shr_m mrs) (loc_of_shr_record mrs) in
  M = N / Dn \/ (M = N / Dn + 1 /\ N mod Dn <> 0).
Proof.
  intros (HD & HN & Hm & Hrs). destruct mrs as [m [] []];
    cbn [shr_m shr_r shr_s loc_of_shr_record round_nearest_even] in *;
    try (left; exact Hm);
    try (right; split; [lia|apply Hrs; by left]).
  destruct (Z.even m); [by left|].
  right. split; [lia|apply Hrs; by left].
Qed.

Lemma round_normal sx q e' loc N Dn :
  truncates (shr_record_of_loc q loc) N Dn ->
  53 <= Zdigits2 q -> -1074 <= e' + Zdigits2 q - 53 ->
  let k := Zdigits2 q - 53 in
  let M0 := N / (Dn * 2 ^ k) in
  2 ^ 52 <= M0 < 2 ^ 53 /\
  exists M1,
    (M1 = M0 \/ (M1 = M0 + 1 /\ N mod (Dn * 2 ^ k) <> 0)) /\
    binary_round_aux 53 1024 sx q e' loc = pack sx M1 (e' + k).
Proof.
  intros Htr Hdq Hnorm k M0.
  assert (0 < q) as Hq.
  { destruct q as [|p|p]; [simpl in Hdq; lia|lia|].
    destruct Htr as (HD & HN & Hm & _). rewrite shr_m_of_loc in Hm.
    pose proof (Z.div_pos N Dn HN HD). lia. }
  destruct (Zdigits2_bounds q Hq) as [_ [Hqlo Hqhi]].
  assert (0 <= k) as Hk by (unfold k; lia).
  assert (M0 = q / 2 ^ k) as HM0.
  { unfold M0. destruct Htr as (HD & HN & Hm & _). rewrite shr_m_of_loc in Hm.
    rewrite Hm. symmetry. apply Z.div_div; [lia|]. apply Z.pow_pos_nonneg; lia. }
  assert (0 < 2 ^ k) as Hpk by (apply Z.pow_pos_nonneg; lia).
  assert (2 ^ (Zdigits2 q - 1) = 2 ^ 52 * 2 ^ k) as Hlo.
  { rewrite <- Z.pow_add_r by lia. f_equal. unfold k. lia. }
  assert (2 ^ Zdigits2 q = 2 ^ 53 * 2 ^ k) as Hhi.
  { rewrite <- Z.pow_add_r by lia. f_equal. unfold k. lia. }
  assert (2 ^ 52 <= M0 < 2 ^ 53) as HM0b.
  { rewrite HM0. split.
    - apply Z.div_le_lower_bound; lia.
    - apply Z.div_lt_upper_bound; lia. }
  split; [exact HM0b|].
  unfold binary_round_aux.
  assert (shr_fexp 53 1024 q e' loc = shr (shr_record_of_loc q loc) e' k) as ->.
  { unfold shr_fexp, fexp, emin. f_equal. unfold k. lia. }
  destruct (shr_truncates _ e' k N Dn Hk Htr) as [Htr1 He1].
  destruct (shr (shr_record_of_loc q loc) e' k) as [mrs1 E1].
  cbn [fst snd] in Htr1, He1. subst E1.
  pose proof (round_nearest_even_cases mrs1 N _ Htr1) as HM1.
  cbn zeta in HM1. fold M0 in HM1.
  set (M1 := round_nearest_even (shr_m mrs1) (loc_of_shr_record mrs1)) in *.
  exists M1. split; [exact HM1|].
  unfold pack. destruct (Z.ltb_spec M1 (2 ^ 53)) as [Hlt|Hge].
  - assert (Zdigits2 M1 = 53) as Hd by (apply Zdigits2_unique; lia).
    assert (shr_fexp 53 1024 M1 (e' + k) loc_Exact =
            (shr_record_of_loc M1 loc_Exact, e' + k)) as ->.
    { unfold shr_fexp, fexp, emin. rewrite Hd.
      replace (Z.max (53 + (e' + k) - 53) (3 - 1024 - 53) - (e' + k)) with 0
        by (unfold k; lia).
      reflexivity. }
    cbn [shr_record_of_loc shr_m].
    destruct M1 as [|m|m]; try lia. reflexivity.
  - assert (M1 = 2 ^ 53) as -> by lia.
    assert (shr_fexp 53 1024 (2 ^ 53) (e' + k) loc_Exact =
            (shr_1 (shr_record_of_loc (2 ^ 53) loc_Exact), e' + k + 1)) as ->.
    { unfold shr_fexp, fexp, emin.
      change (Zdigits2 (2 ^ 53)) with 54.
      replace (Z.max (54 + (e' + k) - 53) (3 - 1024 - 53) - (e' + k)) with 1
        by (unfold k; lia).
      reflexivity. }
    reflexivity.
Qed.

Lemma new_location_exact m r : r = 0 -> new_location m r = loc_Exact.
Proof.
  intros ->. unfold new_location, new_location_even, new_location_odd.
  by destruct (Z.even m).
Qed.

Lemma SFdiv_core_binary_eq m1 e1 m2 e2 :
  let e' :=
    Z.min (fexp 53 1024 (Zdigits2 (Zpos m1) + e1 - (Zdigits2 (Zpos m2) + e2)))
          (e1 - e2) in
  let N := Zpos m1 * 2 ^ (e1 - e2 - e') in
  SFdiv_core_binary 53 1024 (Zpos m1) e1 (Zpos m2) e2 =
    (N / Zpos m2, e', new_location (Zpos m2) (N mod Zpos m2)).
Proof.
  intros e' N. unfold SFdiv_core_binary. cbv zeta. fold e'.
  set (s := e1 - e2 - e').
  assert (0 <= s) as Hs by (unfold s, e'; lia).
  assert (match s with
          | 0 => Zpos m1
          | Zpos _ => Z.shiftl (Zpos m1) s
          | Zneg _ => 0
          end = N) as ->.
  { unfold N. fold s. destruct s as [|p|p]; [lia| |lia].
    apply Z.shiftl_mul_pow2. lia. }
  unfold Z.div, Z.modulo. by destruct (Z.div_eucl N (Zpos m2)).
Qed.

Lemma division_truncates N D :
  0 <= N -> 0 < D ->
  truncates (shr_record_of_loc (N / D) (new_location D (N mod D))) N D.
Proof.
  intros HN HD. unfold truncates. split; [done|]. split; [done|].
  split; [apply shr_m_of_loc|].
  intros Hflags Hr. rewrite (new_location_exact _ _ Hr) in Hflags.
  by destruct Hflags.
Qed.

(** [n / D] on positive integers, a divisor below [2 ^ 1000]: the result
    is built from a 53-bit truncation [M0] of the quotient at the scale
    [2 ^ (k - s)], moved up by one at most, and only when inexact. *)
Lemma int_truediv_rounds n D :
  Zdigits2 (Zpos D) <= 1000 ->
  exists s k M0 M1,
    0 <= s /\ 0 <= k /\
    2 ^ 52 <= M0 < 2 ^ 53 /\
    Zpos D * 2 ^ k * M0 <= Zpos n * 2 ^ s < Zpos D * 2 ^ k * (M0 + 1) /\
    (M1 = M0 \/ (M1 = M0 + 1 /\ Zpos n * 2 ^ s <> Zpos D * 2 ^ k * M0)) /\
    SFdiv 53 1024 (S754_finite false n 0) (S754_finite false D 0) =
      pack false M1 (k - s).
Proof.
  intros HD. unfold SFdiv.
  rewrite SFdiv_core_binary_eq. cbv zeta. cbn [xorb].
  destruct (Zdigits2_bounds (Zpos n) ltac:(lia)) as [Hd1 [Hnlo Hnhi]].
  destruct (Zdigits2_bounds (Zpos D) ltac:(lia)) as [Hd2 [HDlo HDhi]].
  set (d1 := Zdigits2 (Zpos n)) in *. set (d2 := Zdigits2 (Zpos D)) in *.
  set (e' := Z.min _ (0 - 0)).
  assert (e' = Z.min (d1 - d2 - 53) 0) as He.
  { unfold e', fexp, emin. lia. }
  set (s := - e').
  assert (0 <= s) as Hs by (unfold s; lia).
  replace (0 - 0 - e') with s by (unfold s; lia).
  assert (0 < 2 ^ s) as Hps by (apply Z.pow_pos_nonneg; lia).
  pose proof (division_truncates (Zpos n * 2 ^ s) (Zpos D)
                ltac:(lia) ltac:(lia)) as Htr.
  set (q := Zpos n * 2 ^ s / Zpos D) in *.
  set (loc := new_location (Zpos D) _) in *.
  (* the scaled numerator has at least [d2 + 53] bits *)
  assert (2 ^ (d2 + 52) <= Zpos n * 2 ^ s) as HN.
  { assert (2 ^ (d2 + 52) <= 2 ^ (d1 - 1 + s)) as H1.
    { apply Z.pow_le_mono_r; unfold s; lia. }
    rewrite (Z.pow_add_r 2 (d1 - 1) s) in H1 by lia. nia. }
  assert (2 ^ 52 <= q) as Hq.
  { unfold q. apply Z.div_le_lower_bound; [lia|].
    rewrite (Z.pow_add_r 2 d2 52) in HN by lia. nia. }
  destruct (Zdigits2_bounds q ltac:(lia)) as [Hdq [Hqlo Hqhi]].
  assert (53 <= Zdigits2 q) as Hdq53.
  { destruct (Z.le_gt_cases 53 (Zdigits2 q)) as [|Hlt]; [done|].
    assert (2 ^ Zdigits2 q <= 2 ^ 52) by (apply Z.pow_le_mono_r; lia). lia. }
  destruct (round_normal false q e' loc _ _ Htr Hdq53 ltac:(lia))
    as [HM0 (M1 & HM1 & Hres)].
  set (k := Zdigits2 q - 53) in *.
  set (M0 := Zpos n * 2 ^ s / (Zpos D * 2 ^ k)) in *.
  assert (0 <= k) as Hk by (unfold k; lia).
  assert (0 < 2 ^ k) as Hpk by (apply Z.pow_pos_nonneg; lia).
  pose proof (Z.div_mod (Zpos n * 2 ^ s) (Zpos D * 2 ^ k) ltac:(lia)) as Hdm.
  pose proof (Z.mod_pos_bound (Zpos n * 2 ^ s) (Zpos D * 2 ^ k) ltac:(lia)) as Hmb.
  fold M0 in Hdm.
  exists s, k, M0, M1.
  split; [done|]. split; [done|]. split; [done|]. split; [nia|].
  split.
  - destruct HM1 as [->|[-> Hne]]; [by left|right]. split; [done|]. nia.
  - rewrite Hres. f_equal. unfold s. lia.
Qed.

(** Cancelling the common power of two in the bounds of
    [int_truediv_rounds], by the sign of the exponent. *)
Lemma scale_low n D s k M0 j :
  0 < n -> 0 < D -> 0 <= k -> 0 <= j -> s = k + j ->
  n * 2 ^ s < D * 2 ^ k * (M0 + 1) -> n * 2 ^ j < D * (M0 + 1).
Proof.
  intros Hn HD Hk Hj -> H. rewrite Z.pow_add_r in H by lia.
  assert (0 < 2 ^ k) by (apply Z.pow_pos_nonneg; lia).
  apply (Z.mul_lt_mono_pos_l (2 ^ k)); [done|]. lia.
Qed.

Lemma scale_high n D s k M0 j :
  0 < n -> 0 < D -> 0 <= k -> 0 <= j -> s = k + j ->
  D * 2 ^ k * M0 <= n * 2 ^ s -> D * M0 <= n * 2 ^ j.
Proof.
  intros Hn HD Hk Hj -> H. rewrite Z.pow_add_r in H by lia.
  assert (0 < 2 ^ k) by (apply Z.pow_pos_nonneg; lia).
  apply (Z.mul_le_mono_pos_l _ _ (2 ^ k)); [done|]. lia.
Qed.

Lemma scale_high_pos n D s k M0 j :
  0 < n -> 0 < D -> 0 <= s -> 0 <= j -> k = s + j ->
  D * 2 ^ k * M0 <= n * 2 ^ s -> D * 2 ^ j * M0 <= n.
Proof.
  intros Hn HD Hs Hj -> H. rewrite Z.pow_add_r in H by lia.
  assert (0 < 2 ^ s) by (apply Z.pow_pos_nonneg; lia).
  apply (Z.mul_le_mono_pos_l _ _ (2 ^ s)); [done|]. lia.
Qed.

(** ** The 60-second test of the de-duplication, in microseconds *)

Lemma gt_sixty_pack M1 E1 :
  0 < M1 ->
  PyFloat.gt (pack false M1 E1) (PyFloat.of_int 60) = true <->
  (M1 < 2 ^ 53 /\ (-47 < E1 \/ (E1 = -47 /\ 8444249301319680 < M1))) \/
  (2 ^ 53 <= M1 /\ -47 <= E1).
Proof.
  intros HM.
  change (PyFloat.of_int 60) with (S754_finite false 8444249301319680 (-47)).
  unfold PyFloat.gt, pack, SFltb, SFcompare.
  destruct (Z.ltb_spec M1 (2 ^ 53)) as [Hlt|Hge].
  - destruct (Z.leb_spec E1 971) as [HE|HE].
    + destruct (Z.compare_spec (-47) E1) as [Heq|Hl|Hg].
      * subst E1.
        change (Pos.compare_cont Eq 8444249301319680 (Z.to_pos M1))
          with (Pos.compare 8444249301319680 (Z.to_pos M1)).
        rewrite <- (Z2Pos.id M1 HM) at 2 3.
        destruct (Pos.compare_spec 8444249301319680 (Z.to_pos M1)) as [He|Hl|Hg];
          split; try done; try lia.
      * split; [intros _; left; lia|done].
      * split; [done|lia].
    + split; [intros _; left; lia|done].
  - destruct (Z.leb_spec (E1 + 1) 971) as [HE|HE].
    + destruct (Z.compare_spec (-47) (E1 + 1)) as [Heq|Hl|Hg].
      * simpl. split; [done|lia].
      * split; [intros _; right; lia|done].
      * split; [done|lia].
    + split; [intros _; right; lia|done].
Qed.

Lemma seconds_gt_sixty (n : positive) :
  PyFloat.gt (PyFloat.int_truediv (Zpos n) us_per_second) (PyFloat.of_int 60)
    = true
  <-> 60000000 < Zpos n.
Proof.
  destruct (int_truediv_rounds n 1000000 ltac:(by vm_compute))
    as (s & k & M0 & M1 & Hs & Hk & HM0 & Hb & HM1 & Hres).
  change (PyFloat.int_truediv (Zpos n) us_per_second)
    with (SFdiv 53 1024 (S754_finite false n 0) (S754_finite false 1000000 0)).
  rewrite Hres.
  assert (0 < M1) as HM1pos by lia.
  rewrite (gt_sixty_pack M1 (k - s) HM1pos).
  assert (0 < 2 ^ 52) as H52 by lia.
  destruct (Z.lt_trichotomy (k - s) (-47)) as [Hlo|[Hmid|Hhi]].
  - (* below 32 seconds *)
    assert (Zpos n * 2 ^ 48 < 1000000 * 2 ^ 53) as H.
    { pose proof (scale_low (Zpos n) 1000000 s k M0 (s - k)
                    ltac:(lia) ltac:(lia) Hk ltac:(lia) ltac:(lia) (proj2 Hb)) as H.
      assert (2 ^ 48 <= 2 ^ (s - k)) by (apply Z.pow_le_mono_r; lia).
      nia. }
    split; [|lia]. intros [[_ [?|[? _]]]|[HM ?]]; try lia.
  - (* between 32 and 64 seconds *)
    pose proof (scale_low (Zpos n) 1000000 s k M0 47
                  ltac:(lia) ltac:(lia) Hk ltac:(lia) ltac:(lia) (proj2 Hb)) as Hup.
    pose proof (scale_high (Zpos n) 1000000 s k M0 47
                  ltac:(lia) ltac:(lia) Hk ltac:(lia) ltac:(lia) (proj1 Hb)) as Hdn.
    assert (M1 = M0 + 1 -> Zpos n * 2 ^ 47 <> 1000000 * M0) as Hne.
    { intros HM Heq. destruct HM1 as [?|[_ Hne]]; [lia|]. apply Hne.
      replace s with (k + 47) by lia. rewrite Z.pow_add_r by lia. nia. }
    split.
    + intros [[_ [?|[_ Hm]]]|[HM _]]; [lia| |].
      * destruct HM1 as [->|[-> _]]; [lia|].
        assert (Zpos n * 2 ^ 47 <> 1000000 * M0) by (by apply Hne). lia.
      * lia.
    + intros Hn. destruct (Z.lt_ge_cases M1 (2 ^ 53)); [left|right]; lia.
  - (* 64 seconds and more *)
    assert (1000000 * 2 ^ 52 <= Zpos n * 2 ^ 46) as H.
    { destruct (Z.le_ge_cases s k) as [Hsk|Hsk].
      - pose proof (scale_high_pos (Zpos n) 1000000 s k M0 (k - s)
                      ltac:(lia) ltac:(lia) Hs ltac:(lia) ltac:(lia) (proj1 Hb)) as H.
        assert (0 < 2 ^ (k - s)) by (apply Z.pow_pos_nonneg; lia). nia.
      - pose proof (scale_high (Zpos n) 1000000 s k M0 (s - k)
                      ltac:(lia) ltac:(lia) Hk ltac:(lia) ltac:(lia) (proj1 Hb)) as H.
        assert (2 ^ (s - k) <= 2 ^ 46) by (apply Z.pow_le_mono_r; lia). nia. }
    split; [lia|]. intros _.
    destruct (Z.lt_ge_cases M1 (2 ^ 53)); [left|right]; lia.
Qed.

(** The test of the de-duplication loop, [total_seconds() > 60], holds
    exactly when the two datetimes are more than 60 000 000 microseconds
    apart: rounding to binary64 does not move the threshold. *)
Lemma far_apart_iff kept ts :
  far_apart kept ts = true <-> 60000000 < ordinal_us ts - ordinal_us kept.
Proof.
  unfold far_apart, total_seconds, dt_sub. cbn [delta_us].
  destruct (ordinal_us ts - ordinal_us kept) as [|n|n] eqn:Hd.
  - split; [by vm_compute|lia].
  - apply seconds_gt_sixty.
  - split; [|lia]. intros H. exfalso.
    pose proof (int_truediv_not_positive (Zneg n) us_per_second ltac:(lia)) as Hnp.
    change (PyFloat.of_int 60)
      with (S754_finite false 8444249301319680 (-47)) in H.
    unfold PyFloat.gt, SFltb in H.
    by destruct (PyFloat.int_truediv (Zneg n) us_per_second) as [?|[]| |[] ? ?].
Qed.

Lemma far_apart_exact kept ts :
  far_apart kept ts = more_than_60s_after kept ts.
Proof.
  unfold more_than_60s_after.
  destruct (Z.ltb_spec 60000000 (ordinal_us ts - ordinal_us kept)) as [H|H].
  - by apply far_apart_iff.
  - destruct (far_apart kept ts) eqn:Hf; [|done].
    apply far_apart_iff in Hf. lia.
Qed.

(** * The gap scan, read off the consecutive pairs of the timeline *)

Lemma scan_step_at ts G pre prev cur rest acc :
  ts = pre ++ prev :: cur :: rest ->
  scan_step ts G acc (S (length pre)) =
    Some (if separation_at_least G (prev, cur)
          then acc ++ [period_of (prev, cur)] else acc).
Proof.
  intros ->. unfold scan_step.
  replace ((pre ++ prev :: cur :: rest) !! S (length pre)) with (Some cur).
  2:{ rewrite lookup_app_r by lia.
      replace (S (length pre) - length pre)%nat with 1%nat by lia. done. }
  replace ((pre ++ prev :: cur :: rest) !! (S (length pre) - 1)%nat)
    with (Some prev).
  2:{ rewrite lookup_app_r by lia.
      replace (S (length pre) - 1 - length pre)%nat with 0%nat by lia. done. }
  simpl. unfold separation_at_least, period_of. simpl.
  by destruct (PyFloat.ge _ _).
Qed.

Lemma scan_suffix ts G rest :
  forall pre prev acc,
    ts = pre ++ prev :: rest ->
    for_each (scan_step ts G) (seq (S (length pre)) (length rest)) acc =
      Some (acc ++ (period_of <$>
              filter (λ pr, separation_at_least G pr) (zip (prev :: rest) rest))).
Proof.
  induction rest as [|cur rest IH]; intros pre prev acc Hts.
  - simpl. by rewrite app_nil_r.
  - cbn [length seq for_each].
    rewrite (scan_step_at ts G pre prev cur rest acc Hts).
    cbn [mbind option_bind].
    specialize (IH (pre ++ [prev]) cur).
    rewrite length_app in IH. cbn [length] in IH. rewrite Nat.add_1_r in IH.
    rewrite IH by (by rewrite <- app_assoc).
    change (zip (prev :: cur :: rest) (cur :: rest))
      with ((prev, cur) :: zip (cur :: rest) rest).
    rewrite filter_cons.
    destruct (separation_at_least G (prev, cur)) eqn:Hsep.
    + rewrite decide_True by done.
      by rewrite fmap_cons, <- app_assoc.
    + by rewrite decide_False by (by intros []).
Qed.

(** The scan never raises, and returns the Periods of the qualifying pairs. *)
Lemma find_sleep_periods_spec ts G :
  find_sleep_periods ts G = Some (gap_periods ts G).
Proof.
  unfold find_sleep_periods, gap_periods, consecutive_pairs.
  destruct ts as [|a [|b rest]]; try done.
  rewrite decide_False by (simpl; lia).
  change (range 1 (length (a :: b :: rest)))
    with (seq (S (length (@nil datetime))) (length (b :: rest))).
  by rewrite (scan_suffix (a :: b :: rest) G (b :: rest) [] a []).
Qed.

Lemma endpoints_gap_periods ts G :
  endpoints <$> gap_periods ts G =
    filter (λ pr, separation_at_least G pr) (consecutive_pairs ts).
Proof.
  unfold gap_periods. rewrite <- list_fmap_compose.
  rewrite <- (list_fmap_id (filter _ _)) at 2.
  apply list_fmap_ext. by intros i [a b] _.
Qed.

Lemma elem_of_gap_periods p ts G :
  p ∈ gap_periods ts G ->
  exists pr, p = period_of pr /\ pr ∈ consecutive_pairs ts /\
             separation_at_least G pr = true.
Proof.
  unfold gap_periods. intros (pr & -> & Hin)%list_elem_of_fmap.
  apply list_elem_of_filter in Hin as [Hsep Hin].
  exists pr. split; [done|]. split; [done|]. by apply Is_true_true.
Qed.

(** Consecutive entries of a list the relation [R] chains ([Sorted R]). *)
Lemma Sorted_consecutive {A} (R : relation A) (l : list A) :
  Sorted R l ->
  forall i a b, l !! i = Some a -> l !! S i = Some b -> R a b.
Proof.
  induction 1 as [|x l Hl IH Hhd]; intros i a b Ha Hb; [done|].
  destruct i as [|i]; simpl in *.
  - injection Ha as ->. destruct Hhd as [|y l' Hxy]; [done|].
    simpl in Hb. by injection Hb as ->.
  - by eapply IH.
Qed.

(** * De-duplication *)

Lemma dedup_step_snoc acc kept ts :
  dedup_step (acc ++ [kept]) ts =
    Some (if far_apart kept ts then (acc ++ [kept]) ++ [ts] else acc ++ [kept]).
Proof.
  unfold dedup_step. rewrite last_snoc. cbn [mbind option_bind].
  by destruct (far_apart kept ts).
Qed.

Lemma dedup_loop rest :
  forall acc kept,
    for_each dedup_step rest (acc ++ [kept]) =
      Some (acc ++ kept :: keep_after kept rest).
Proof.
  induction rest as [|ts rest IH]; intros acc kept; [done|].
  cbn [for_each keep_after]. rewrite dedup_step_snoc, far_apart_exact.
  cbn [mbind option_bind].
  destruct (more_than_60s_after kept ts).
  - rewrite IH. by rewrite <- app_assoc.
  - apply IH.
Qed.

Lemma deduplicate_spec first rest :
  deduplicate (first :: rest) = Some (greedy_dedup (first :: rest)).
Proof.
  unfold deduplicate. cbn [lookup list_lookup mbind option_bind drop greedy_dedup].
  apply (dedup_loop rest [] first).
Qed.

Lemma keep_after_chain rest :
  forall kept,
    Sorted (λ a b, more_than_60s_after a b = true) (kept :: keep_after kept rest).
Proof.
  induction rest as [|ts rest IH]; intros kept; cbn [keep_after].
  - repeat constructor.
  - destruct (more_than_60s_after kept ts) eqn:Hfar.
    + constructor; [apply IH|]. by constructor.
    + apply IH.
Qed.

(** Every kept timestamp is one of the input. *)
Lemma keep_after_sublist rest :
  forall kept, sublist (keep_after kept rest) rest.
Proof.
  induction rest as [|ts rest IH]; intros kept; cbn [keep_after].
  - constructor.
  - destruct (more_than_60s_after kept ts).
    + apply sublist_skip, IH.
    + apply sublist_cons, IH.
Qed.

(** * Sorting *)

Global Instance dt_le_trans : Transitive dt_le.
Proof. unfold dt_le. intros a b c. lia. Qed.

Global Instance dt_le_total : Total dt_le.
Proof. unfold dt_le. intros a b. lia. Qed.

Global Instance dt_le_antisymm : AntiSymm (=) dt_le.
Proof.
  unfold dt_le. intros [a] [b]; simpl. intros H1 H2. f_equal. lia.
Qed.

Lemma sort_timestamps_sorted l : Sorted dt_le (sort_timestamps l).
Proof. apply (Sorted_merge_sort dt_le). Qed.

Lemma sort_timestamps_perm l : sort_timestamps l ≡ₚ l.
Proof. apply (merge_sort_Permutation dt_le). Qed.

(** Two lists with the same elements sort to the same list. *)
Lemma sort_timestamps_unique l1 l2 :
  l1 ≡ₚ l2 -> sort_timestamps l1 = sort_timestamps l2.
Proof.
  intros Hp. apply (Sorted_unique dt_le); try apply sort_timestamps_sorted.
  by rewrite !sort_timestamps_perm.
Qed.

Lemma sort_timestamps_nonempty l : l ≠ [] -> sort_timestamps l ≠ [].
Proof.
  intros Hl Hs. apply Hl, Permutation_nil_r.
  rewrite <- Hs. symmetry. apply sort_timestamps_perm.
Qed.

(** * Summary selection *)

Lemma select_summary_sleep periods pre p post :
  periods = pre ++ p :: post ->
  is_likely_sleep p = true ->
  Forall (λ q, is_likely_sleep q = false) post ->
  select_summary periods = Some (LastSleep p).
Proof.
  intros -> Hp Hpost. unfold select_summary.
  assert (Hf : filter (λ q, is_likely_sleep q) (pre ++ p :: post) =
               filter (λ q, is_likely_sleep q) pre ++ [p]).
  { rewrite filter_app, filter_cons, decide_True by (by rewrite Hp).
    f_equal. f_equal. clear Hp.
    induction Hpost as [|q post Hq _ IH]; [done|].
    by rewrite filter_cons_False by (rewrite Hq; intros []). }
  rewrite Hf. rewrite bool_decide_true by (by destruct (filter _ pre)).
  by rewrite last_snoc.
Qed.

Lemma select_summary_idle periods pre p :
  periods = pre ++ [p] ->
  Forall (λ q, is_likely_sleep q = false) periods ->
  select_summary periods = Some (LastIdle p).
Proof.
  intros -> Hall. unfold select_summary.
  assert (Hf : filter (λ q, is_likely_sleep q) (pre ++ [p]) = []).
  { induction Hall as [|q l Hq _ IH]; [done|].
    by rewrite filter_cons_False by (rewrite Hq; intros []). }
  rewrite Hf. rewrite bool_decide_false by (by intros []).
  rewrite bool_decide_true by (by destruct pre).
  by rewrite last_snoc.
Qed.

Lemma select_summary_nil : select_summary [] = Some Undetermined.
Proof. reflexivity. Qed.

Lemma select_summary_total periods : is_Some (select_summary periods).
Proof.
  unfold select_summary.
  repeat case_bool_decide.
  - destruct (proj2 (last_is_Some _) H) as [p ->]. by eexists.
  - destruct (proj2 (last_is_Some _) H0) as [p ->]. by eexists.
  - by eexists.
Qed.

Lemma select_summary_undetermined periods :
  select_summary periods = Some Undetermined <-> periods = [].
Proof.
  split; [|by intros ->].
  unfold select_summary. repeat case_bool_decide.
  - destruct (last _); simpl; [discriminate|done].
  - destruct (last _); simpl; [discriminate|done].
  - intros _. destruct periods; naive_solver.
Qed.

(** * Order of the Periods *)

Lemma StronglySorted_sublist {A} (R : relation A) (k l : list A) :
  sublist k l -> StronglySorted R l -> StronglySorted R k.
Proof.
  induction 1 as [|x k l Hkl IH|x k l Hkl IH]; intros Hl.
  - constructor.
  - apply StronglySorted_inv in Hl as [Hl Hx]. constructor; [by apply IH|].
    rewrite Forall_forall in *. intros y Hy.
    apply Hx. by eapply elem_of_sublist.
  - apply StronglySorted_inv in Hl as [Hl _]. by apply IH.
Qed.

Lemma starts_sublist (P : datetime * datetime -> Prop)
    `{!forall pr, Decision (P pr)} rest :
  forall prev, sublist ((filter P (zip (prev :: rest) rest)).*1) (prev :: rest).
Proof.
  induction rest as [|cur rest IH]; intros prev.
  - apply sublist_nil_l.
  - change (zip (prev :: cur :: rest) (cur :: rest))
      with ((prev, cur) :: zip (cur :: rest) rest).
    rewrite filter_cons. destruct (decide (P (prev, cur))).
    + rewrite fmap_cons. apply sublist_skip, IH.
    + apply sublist_cons, IH.
Qed.

Lemma gap_periods_starts_sublist ts G :
  sublist (sleep_at <$> gap_periods ts G) ts.
Proof.
  unfold gap_periods, consecutive_pairs. rewrite <- list_fmap_compose.
  destruct ts as [|a rest]; [constructor|].
  apply (starts_sublist (λ pr, separation_at_least G pr) rest a).
Qed.

Lemma gap_periods_ascending ts G :
  Sorted dt_le ts -> Sorted dt_le (sleep_at <$> gap_periods ts G).
Proof.
  intros Hs. apply StronglySorted_Sorted.
  eapply StronglySorted_sublist; [apply gap_periods_starts_sublist|].
  by apply Sorted_StronglySorted; [apply _|].
Qed.

(** * Facts about [hour] and the label *)

Lemma hour_range t : 0 <= hour t < 24.
Proof. unfold hour. apply Z.mod_pos_bound. lia. Qed.

Lemma is_night_iff t :
  is_night t = true <-> 20 <= hour t < 24 \/ 0 <= hour t < 4.
Proof.
  unfold is_night. pose proof (hour_range t).
  rewrite orb_true_iff, Z.leb_le, Z.ltb_lt. lia.
Qed.

(** * [main] on non-empty input *)

Lemma main_analysed recent chrome prefetch user_files gap :
  recent ++ chrome ++ prefetch ++ user_files ≠ [] ->
  exists summary,
    let timeline :=
      greedy_dedup (sort_timestamps (recent ++ chrome ++ prefetch ++ user_files)) in
    select_summary (gap_periods timeline gap) = Some summary /\
    main recent chrome prefetch user_files gap =
      Some (Analysed timeline (gap_periods timeline gap) summary).
Proof.
  intros Hne. unfold main. cbn [app].
  rewrite bool_decide_false by done.
  pose proof (sort_timestamps_nonempty _ Hne) as Hs.
  destruct (sort_timestamps _) as [|first rest] eqn:Hsort; [done|].
  rewrite deduplicate_spec. cbn [mbind option_bind].
  rewrite find_sleep_periods_spec. cbn [mbind option_bind].
  destruct (select_summary_total (gap_periods (greedy_dedup (first :: rest)) gap))
    as [summary Hsum].
  exists summary. cbn zeta. by rewrite Hsum.
Qed.

Lemma main_total recent chrome prefetch user_files gap :
  is_Some (main recent chrome prefetch user_files gap).
Proof.
  destruct (decide (recent ++ chrome ++ prefetch ++ user_files = [])) as [He|Hne].
  - unfold main. cbn [app]. rewrite bool_decide_true by done. by eexists.
  - destruct (main_analysed _ _ _ _ gap Hne) as (s & _ & ->). by eexists.
Qed.

Lemma main_permutation r1 c1 p1 u1 r2 c2 p2 u2 gap :
  r1 ++ c1 ++ p1 ++ u1 ≡ₚ r2 ++ c2 ++ p2 ++ u2 ->
  main r1 c1 p1 u1 gap = main r2 c2 p2 u2 gap.
Proof.
  intros Hp. unfold main. cbn [app].
  rewrite (sort_timestamps_unique _ _ Hp).
  destruct (decide (r1 ++ c1 ++ p1 ++ u1 = [])) as [He|Hne].
  - assert (r2 ++ c2 ++ p2 ++ u2 = []) as He2.
    { rewrite He in Hp. by apply Permutation_nil_l in Hp. }
    by rewrite !bool_decide_true by done.
  - assert (r2 ++ c2 ++ p2 ++ u2 ≠ []) as Hne2.
    { intros He. rewrite He in Hp. by apply Permutation_nil_r in Hp. }
    by rewrite !bool_decide_false by done.
Qed.

(** * The summary of a run is the most recent Period of its kind *)

Lemma greedy_dedup_sorted l : Sorted dt_le l -> StronglySorted dt_le (greedy_dedup l).
Proof.
  intros Hl. apply (Sorted_StronglySorted dt_le) in Hl.
  eapply StronglySorted_sublist; [|exact Hl].
  destruct l as [|first rest]; [constructor|].
  apply sublist_skip, keep_after_sublist.
Qed.

Lemma last_of_sorted_is_latest {A} (f : A -> datetime) (l pre : list A) (q q' : A) :
  StronglySorted dt_le (f <$> l) -> l = pre ++ [q] -> q' ∈ l ->
  dt_le (f q') (f q).
Proof.
  intros Hs -> Hin. rewrite fmap_app in Hs.
  apply elem_of_app in Hin as [Hin|Hin].
  - eapply (StronglySorted_app_1_elem_of dt_le); [exact Hs| |].
    + by apply list_elem_of_fmap_2.
    + cbn. by left.
  - apply list_elem_of_singleton in Hin as ->. unfold dt_le. lia.
Qed.

Lemma select_summary_last_sleep periods q :
  select_summary periods = Some (LastSleep q) ->
  exists pre, filter (λ p, is_likely_sleep p) periods = pre ++ [q].
Proof.
  unfold select_summary. repeat case_bool_decide.
  - destruct (last _) as [p|] eqn:Hlast; [|done]. cbn.
    intros [= ->]. by apply last_Some.
  - by destruct (last _).
  - done.
Qed.

Lemma main_outcome recent chrome prefetch user_files gap timeline periods summary :
  main recent chrome prefetch user_files gap =
    Some (Analysed timeline periods summary) ->
  StronglySorted dt_le timeline /\
  periods = gap_periods timeline gap /\
  select_summary periods = Some summary.
Proof.
  intros Hmain.
  destruct (decide (recent ++ chrome ++ prefetch ++ user_files = [])) as [He|Hne].
  - unfold main in Hmain. cbn [app] in Hmain.
    by rewrite bool_decide_true in Hmain by done.
  - destruct (main_analysed _ _ _ _ gap Hne) as (s' & Hsel & Hm).
    cbn zeta in Hsel, Hm. rewrite Hm in Hmain.
    injection Hmain as <- <- <-.
    split; [|done]. apply greedy_dedup_sorted, sort_timestamps_sorted.
Qed.

Lemma main_last_sleep_latest r c p u gap timeline periods q :
  main r c p u gap = Some (Analysed timeline periods (LastSleep q)) ->
  is_likely_sleep q = true /\ q ∈ periods /\
  forall q', q' ∈ periods -> is_likely_sleep q' = true ->
             dt_le (sleep_at q') (sleep_at q).
Proof.
  intros (Hs & -> & Hsel)%main_outcome.
  destruct (select_summary_last_sleep _ _ Hsel) as [pre Hf].
  assert (q ∈ filter (λ p, is_likely_sleep p) (gap_periods timeline gap)) as Hq.
  { rewrite Hf. apply elem_of_app. right. by left. }
  apply list_elem_of_filter in Hq as [Hq1 Hq2].
  split; [by apply Is_true_true|]. split; [done|].
  intros q' Hin Hlik.
  apply (last_of_sorted_is_latest sleep_at
           (filter (λ p, is_likely_sleep p) (gap_periods timeline gap)) pre q q');
    [|exact Hf|].
  - eapply StronglySorted_sublist;
      [apply fmap_sublist, sublist_filter; apply _|].
    apply (Sorted_StronglySorted dt_le), gap_periods_ascending.
    by apply StronglySorted_Sorted.
  - apply list_elem_of_filter. split; [by apply Is_true_true|done].
Qed.

(** * Further facts about floats, pairs and sorting *)

Lemma ge_refl x : x ≠ S754_nan -> PyFloat.ge x x = true.
Proof.
  unfold PyFloat.ge, SFleb. destruct x as [s|[]| |[] m e]; simpl; try done.
  - intros _. rewrite Z.compare_refl.
    change (Pos.compare_cont Eq m m) with (Pos.compare m m).
    by rewrite Pos.compare_refl.
  - intros _. rewrite Z.compare_refl.
    change (Pos.compare_cont Eq m m) with (Pos.compare m m).
    by rewrite Pos.compare_refl.
Qed.

Lemma int_truediv_not_nan a b : PyFloat.int_truediv a b ≠ S754_nan.
Proof.
  destruct (Z.le_ge_cases 0 a) as [Ha|Ha].
  - pose proof (int_truediv_nonneg a b Ha) as H. by destruct (PyFloat.int_truediv a b).
  - destruct a as [|p|p]; [done|lia|].
    unfold PyFloat.int_truediv.
    pose proof (SFdiv_finite_signed true p 0 false b 0) as H.
    by destruct (SFdiv _ _ _ _).
Qed.

Lemma truediv_finite_not_nan x sy my ey :
  x ≠ S754_nan -> PyFloat.truediv x (S754_finite sy my ey) ≠ S754_nan.
Proof.
  destruct x as [s|s| |s m e]; try done; intros _.
  unfold PyFloat.truediv.
  pose proof (SFdiv_finite_signed s m e sy my ey) as H.
  by destruct (SFdiv _ _ _ _).
Qed.

Lemma gap_hours_not_nan prev cur : gap_hours_of prev cur ≠ S754_nan.
Proof.
  unfold gap_hours_of.
  change (PyFloat.of_int 3600)
    with (S754_finite false 7916483719987200 (-41)).
  apply truediv_finite_not_nan, int_truediv_not_nan.
Qed.

Lemma filter_all {A} (P : A -> Prop) `{!forall x, Decision (P x)} (l : list A) :
  Forall P l -> filter P l = l.
Proof.
  induction 1 as [|x l Hx _ IH]; [done|].
  by rewrite filter_cons_True, IH.
Qed.

Lemma consecutive_pairs_sorted ts :
  Sorted dt_le ts -> Forall (λ pr, dt_le pr.1 pr.2) (consecutive_pairs ts).
Proof.
  unfold consecutive_pairs.
  induction 1 as [|a rest Hrest IH Hhd]; [constructor|].
  destruct Hhd as [|b rest' Hab]; [constructor|].
  change (zip (a :: b :: rest') (drop 1 (a :: b :: rest')))
    with ((a, b) :: zip (b :: rest') (drop 1 (b :: rest'))).
  by constructor.
Qed.

Lemma length_consecutive_pairs ts :
  length (consecutive_pairs ts) = (length ts - 1)%nat.
Proof.
  unfold consecutive_pairs. rewrite length_zip, length_drop. lia.
Qed.

Lemma elem_of_consecutive_pairs ts i a b :
  ts !! i = Some a -> ts !! S i = Some b -> (a, b) ∈ consecutive_pairs ts.
Proof.
  intros Ha Hb. unfold consecutive_pairs.
  apply list_elem_of_lookup. exists i.
  apply lookup_zip_with_Some. exists a, b.
  split; [done|]. split; [done|]. by rewrite lookup_drop.
Qed.

Lemma sort_timestamps_sorted_id l : Sorted dt_le l -> sort_timestamps l = l.
Proof.
  intros Hl. apply (Sorted_unique dt_le);
    [apply sort_timestamps_sorted|done|apply sort_timestamps_perm].
Qed.

(** * Datetimes built from a day and a time of day *)

Lemma hour_at_time d hh mm ss :
  0 <= hh < 24 -> 0 <= mm < 60 -> 0 <= ss < 60 ->
  hour (at_time d hh mm ss) = hh.
Proof.
  intros Hh Hm Hs. unfold hour, at_time, us_per_hour. cbn [ordinal_us].
  assert ((((d * 24 + hh) * 60 + mm) * 60 + ss) * 1000000 / 3600000000
          = d * 24 + hh) as ->.
  { symmetry. apply (Z.div_unique_pos _ _ _ ((mm * 60 + ss) * 1000000)); lia. }
  symmetry. apply (Z.mod_unique_pos _ _ d); lia.
Qed.

Lemma more_than_60s_delta kept ts n :
  ordinal_us ts - ordinal_us kept = n ->
  more_than_60s_after kept ts = (60000000 <? n).
Proof. intros <-. reflexivity. Qed.

Lemma gap_hours_delta prev cur n :
  ordinal_us cur - ordinal_us prev = n ->
  gap_hours_of prev cur =
    PyFloat.truediv (PyFloat.int_truediv n us_per_second) (PyFloat.of_int 3600).
Proof. intros <-. reflexivity. Qed.

(** * Two boundary examples *)

(** The loop compares with the last kept timestamp: 80 seconds after a
    kept one is kept, although it is only 40 seconds after the dropped
    one in between. *)
Lemma dedup_compares_with_last_kept d :
  deduplicate [at_time d 9 0 0; at_time d 9 0 40; at_time d 9 1 20] =
    Some [at_time d 9 0 0; at_time d 9 1 20].
Proof.
  rewrite deduplicate_spec. unfold greedy_dedup. cbn [keep_after].
  rewrite (more_than_60s_delta (at_time d 9 0 0) (at_time d 9 0 40) 40000000)
    by (unfold at_time; cbn [ordinal_us]; lia).
  rewrite (more_than_60s_delta (at_time d 9 0 0) (at_time d 9 1 20) 80000000)
    by (unfold at_time; cbn [ordinal_us]; lia).
  reflexivity.
Qed.

(** With the default threshold of 3 hours, a gap of exactly 3 hours
    qualifies and a gap one microsecond shorter does not. *)
Lemma default_threshold_boundary t :
  separation_at_least (PyFloat.of_int 3)
    (t, DateTime (ordinal_us t + 3 * us_per_hour)) = true /\
  separation_at_least (PyFloat.of_int 3)
    (t, DateTime (ordinal_us t + 3 * us_per_hour - 1)) = false.
Proof.
  unfold separation_at_least. cbn [fst snd]. split.
  - rewrite (gap_hours_delta _ _ 10800000000); [by vm_compute|].
    unfold us_per_hour. cbn [ordinal_us]. lia.
  - rewrite (gap_hours_delta _ _ 10799999999); [by vm_compute|].
    unfold us_per_hour. cbn [ordinal_us]. lia.
Qed.

(** * The single-source scenario *)

Lemma scenario_sorted d : Sorted dt_le (scenario_events d).
Proof.
  unfold scenario_events, e_0800, e_080030, e_2300, e_0600_next.
  repeat constructor; unfold dt_le, at_time; cbn [ordinal_us]; lia.
Qed.

Lemma scenario_dedup d :
  deduplicate (sort_timestamps (scenario_events d)) = Some (scenario_timeline d).
Proof.
  rewrite (sort_timestamps_sorted_id _ (scenario_sorted d)).
  unfold scenario_events. rewrite deduplicate_spec.
  unfold greedy_dedup, scenario_timeline. cbn [keep_after].
  rewrite (more_than_60s_delta (e_0800 d) (e_080030 d) 30000000)
    by (unfold e_0800, e_080030, at_time; cbn [ordinal_us]; lia).
  rewrite (more_than_60s_delta (e_0800 d) (e_2300 d) 54000000000)
    by (unfold e_0800, e_2300, at_time; cbn [ordinal_us]; lia).
  rewrite (more_than_60s_delta (e_2300 d) (e_0600_next d) 25200000000)
    by (unfold e_0600_next, e_2300, at_time; cbn [ordinal_us]; lia).
  reflexivity.
Qed.

Lemma scenario_periods d :
  find_sleep_periods (scenario_timeline d) (PyFloat.of_int 3) =
    Some [away_period d; sleep_period d].
Proof.
  rewrite find_sleep_periods_spec.
  unfold gap_periods, scenario_timeline, consecutive_pairs. cbn [drop zip zip_with].
  assert (gap_hours_of (e_0800 d) (e_2300 d) = PyFloat.of_int 15) as H1.
  { rewrite (gap_hours_delta _ _ 54000000000); [by vm_compute|].
    unfold e_0800, e_2300, at_time; cbn [ordinal_us]; lia. }
  assert (gap_hours_of (e_2300 d) (e_0600_next d) = PyFloat.of_int 7) as H2.
  { rewrite (gap_hours_delta _ _ 25200000000); [by vm_compute|].
    unfold e_0600_next, e_2300, at_time; cbn [ordinal_us]; lia. }
  assert (is_night (e_0800 d) = false) as N1.
  { unfold is_night, e_0800. by rewrite hour_at_time by lia. }
  assert (is_night (e_2300 d) = true) as N2.
  { unfold is_night, e_2300. by rewrite hour_at_time by lia. }
  rewrite !filter_cons, filter_nil. unfold separation_at_least. cbn [fst snd].
  rewrite H1, H2.
  rewrite !decide_True by (by vm_compute).
  unfold period_of, away_period, sleep_period. cbn [fmap list_fmap fst snd].
  by rewrite H1, H2, N1, N2.
Qed.

Lemma scenario_main d :
  main (scenario_events d) [] [] [] (PyFloat.of_int 3) =
    Some (Analysed (scenario_timeline d) [away_period d; sleep_period d]
            (LastSleep (sleep_period d))).
Proof.
  unfold main. rewrite !app_nil_r. cbn [app].
  rewrite bool_decide_false by done.
  rewrite scenario_dedup. cbn [mbind option_bind].
  rewrite scenario_periods. reflexivity.
Qed.

(** C1, as the code has it: the de-duplication pass collapses 08:00:30
    into 08:00 and leaves the Timeline [08:00, 23:00, 06:00+1d]; with a
    minimum gap of 3 hours the Gap Detector then produces two Periods, the
    15-hour daytime gap (08:00 to 23:00, not likely sleep) and the 7-hour
    night gap (23:00 to 06:00 of the next day, likely sleep); the night gap
    is the only likely-sleep Period and is the one the summary selects. *)
Theorem C1_single_source_scenario (d : Z) :
  deduplicate (sort_timestamps (scenario_events d)) = Some (scenario_timeline d) /\
  find_sleep_periods (scenario_timeline d) (PyFloat.of_int 3) =
    Some [away_period d; sleep_period d] /\
  filter (λ p, is_likely_sleep p) [away_period d; sleep_period d] =
    [sleep_period d] /\
  main (scenario_events d) [] [] [] (PyFloat.of_int 3) =
    Some (Analysed (scenario_timeline d) [away_period d; sleep_period d]
            (LastSleep (sleep_period d))).
Proof.
  split; [apply scenario_dedup|]. split; [apply scenario_periods|].
  split; [done|]. apply scenario_main.
Qed.

(** The Gap Detector does not stop at one Period in the scenario of C1:
    on 2024-01-01 the Timeline is as claimed, but the Period sequence is
    not the single night Period. *)
Lemma C1_counterexample :
  ~ (deduplicate (sort_timestamps (scenario_events day_2024_01_01)) =
       Some (scenario_timeline day_2024_01_01) /\
     find_sleep_periods (scenario_timeline day_2024_01_01) (PyFloat.of_int 3) =
       Some [sleep_period day_2024_01_01]).
Proof. intros [_ H]. vm_compute in H. discriminate H. Qed.

(** * De-duplication, classification and invariants *)

(** C3: on every sorted, non-empty input the de-duplication pass returns;
    it keeps the first timestamp and then each timestamp that lies more
    than 60 seconds after the last kept one, and any two consecutive
    entries of the resulting Timeline are more than 60 seconds apart, both
    by the loop's own test on [total_seconds()] and counted exactly, in
    microseconds. *)
Theorem C3_dedup_invariant (sorted_ts : list datetime) :
  Sorted dt_le sorted_ts -> sorted_ts ≠ [] ->
  exists timeline,
    deduplicate sorted_ts = Some timeline /\
    timeline = greedy_dedup sorted_ts /\
    head timeline = head sorted_ts /\
    forall i a b,
      timeline !! i = Some a -> timeline !! S i = Some b ->
      PyFloat.gt (total_seconds (dt_sub b a)) (PyFloat.of_int 60) = true /\
      60000000 < ordinal_us b - ordinal_us a.
Proof.
  intros _ Hne. destruct sorted_ts as [|first rest]; [done|].
  exists (greedy_dedup (first :: rest)).
  split; [apply deduplicate_spec|]. split; [done|]. split; [done|].
  intros i a b Ha Hb.
  pose proof (Sorted_consecutive _ _ (keep_after_chain rest first) i a b Ha Hb)
    as Hfar.
  cbv beta in Hfar. rewrite <- far_apart_exact in Hfar.
  split; [exact Hfar|]. by apply far_apart_iff.
Qed.

Lemma C3_witness :
  exists timeline,
    deduplicate (scenario_events day_2024_01_01) = Some timeline /\
    timeline = scenario_timeline day_2024_01_01 /\
    head timeline = Some (e_0800 day_2024_01_01) /\
    PyFloat.gt (total_seconds (dt_sub (e_2300 day_2024_01_01)
                                      (e_0800 day_2024_01_01)))
               (PyFloat.of_int 60) = true /\
    60000000 < ordinal_us (e_2300 day_2024_01_01)
               - ordinal_us (e_0800 day_2024_01_01).
Proof.
  assert (Sorted dt_le (scenario_events day_2024_01_01)) as Hs.
  { repeat constructor; vm_compute; discriminate. }
  assert (scenario_events day_2024_01_01 ≠ []) as Hne by discriminate.
  destruct (C3_dedup_invariant (scenario_events day_2024_01_01) Hs Hne)
    as (timeline & Hdedup & Hgreedy & Hhead & Hfar).
  exists timeline. split; [exact Hdedup|].
  assert (timeline = scenario_timeline day_2024_01_01) as Htl.
  { rewrite Hgreedy. vm_compute. reflexivity. }
  split; [exact Htl|]. split; [rewrite Hhead; reflexivity|].
  apply (Hfar 0%nat); rewrite Htl; reflexivity.
Defined.

(** C4: every Period the Gap Detector produces is labelled likely-sleep
    exactly when the hour of its start lies in [20,24) or in [0,4); the
    label is the value of [is_night] at the Period's own start. *)
Theorem C4_classification_rule (timeline : list datetime) (G : float) :
  exists periods,
    find_sleep_periods timeline G = Some periods /\
    Forall (λ p,
        (is_likely_sleep p = true <->
           20 <= hour (sleep_at p) < 24 \/ 0 <= hour (sleep_at p) < 4) /\
        (is_likely_sleep p = false <-> 4 <= hour (sleep_at p) < 20) /\
        is_likely_sleep p = is_night (sleep_at p))
      periods.
Proof.
  exists (gap_periods timeline G). split; [apply find_sleep_periods_spec|].
  apply Forall_forall. intros p (pr & -> & _ & _)%elem_of_gap_periods.
  cbn [period_of is_likely_sleep sleep_at].
  pose proof (is_night_iff pr.1) as Hn. pose proof (hour_range pr.1) as Hr.
  split; [exact Hn|]. split; [|done].
  destruct (is_night pr.1); split; intros H; try done; lia.
Qed.

(** * Summary selection and the run as a whole *)

(** C5: the summary ladder.  When some Period is likely sleep, the
    summary is the last such Period of the sequence, whatever comes before
    it and however long the others are; when none is and the sequence is
    not empty, it is the last Period overall; on [P1 (away); P2 (sleep);
    P3 (sleep)] it is P3.  In a run of [main], where the Periods come in
    ascending start order, the selected sleep Period is a likely-sleep
    Period of the run and no likely-sleep Period starts later. *)
Theorem C5_summary_ladder :
  (forall pre p post,
      is_likely_sleep p = true ->
      Forall (λ q, is_likely_sleep q = false) post ->
      select_summary (pre ++ p :: post) = Some (LastSleep p)) /\
  (forall pre p,
      Forall (λ q, is_likely_sleep q = false) (pre ++ [p]) ->
      select_summary (pre ++ [p]) = Some (LastIdle p)) /\
  (forall P1 P2 P3,
      is_likely_sleep P1 = false -> is_likely_sleep P2 = true ->
      is_likely_sleep P3 = true ->
      select_summary [P1; P2; P3] = Some (LastSleep P3)) /\
  (forall recent chrome prefetch user_files gap timeline periods last_sleep,
      main recent chrome prefetch user_files gap =
        Some (Analysed timeline periods (LastSleep last_sleep)) ->
      is_likely_sleep last_sleep = true /\ last_sleep ∈ periods /\
      forall q, q ∈ periods -> is_likely_sleep q = true ->
                dt_le (sleep_at q) (sleep_at last_sleep)).
Proof.
  split; [|split; [|split]].
  - intros pre p post Hp Hpost. by eapply select_summary_sleep.
  - intros pre p Hall. by eapply select_summary_idle.
  - intros P1 P2 P3 _ _ H3.
    by apply (select_summary_sleep _ [P1; P2] P3 []).
  - intros r c p u gap timeline periods q. apply main_last_sleep_latest.
Qed.

Lemma C5_witness :
  select_summary ([ladder_P1] ++ ladder_P2 :: [ladder_P1]) =
    Some (LastSleep ladder_P2) /\
  select_summary ([ladder_P1] ++ [ladder_P1]) = Some (LastIdle ladder_P1) /\
  select_summary [ladder_P1; ladder_P2; ladder_P3] = Some (LastSleep ladder_P3) /\
  (is_likely_sleep (sleep_period day_2024_01_01) = true /\
   sleep_period day_2024_01_01 ∈
     [away_period day_2024_01_01; sleep_period day_2024_01_01] /\
   forall q,
     q ∈ [away_period day_2024_01_01; sleep_period day_2024_01_01] ->
     is_likely_sleep q = true ->
     dt_le (sleep_at q) (sleep_at (sleep_period day_2024_01_01))).
Proof.
  destruct C5_summary_ladder as (Hsleep & Hidle & Hladder & Hrun).
  split; [|split; [|split]].
  - apply Hsleep; [reflexivity|]. repeat constructor.
  - apply Hidle. repeat constructor.
  - apply Hladder; reflexivity.
  - apply (Hrun (scenario_events day_2024_01_01) [] [] [] (PyFloat.of_int 3)
             (scenario_timeline day_2024_01_01)).
    apply scenario_main.
Defined.

(** With no timestamp at all, [main] stops at "No activity data found!"
    and reports no summary, so the run on an empty Timeline does not end
    in the "pattern undetermined" summary. *)
Lemma C6_counterexample :
  main [] [] [] [] (PyFloat.of_int 3) ≠ Some (Analysed [] [] Undetermined).
Proof. vm_compute. discriminate. Qed.

(** C6, as the code has it: on an empty Timeline the Gap Detector returns
    the empty Period sequence, and the summary selection on an empty
    Period sequence is "pattern undetermined"; [main] itself, given no
    timestamp, reports "No activity data found!" and stops before both,
    and the Timeline of a run that reaches the summary is never empty. *)
Theorem C6_empty_input (G : float) :
  find_sleep_periods [] G = Some [] /\
  select_summary [] = Some Undetermined /\
  main [] [] [] [] G = Some NoActivityData /\
  (forall recent chrome prefetch user_files timeline periods summary,
      main recent chrome prefetch user_files G =
        Some (Analysed timeline periods summary) ->
      timeline ≠ [] /\ (summary = Undetermined <-> periods = [])).
Proof.
  split; [done|]. split; [done|]. split; [done|].
  intros r c p u tl ps s Hmain.
  destruct (decide (r ++ c ++ p ++ u = [])) as [He|Hne].
  - unfold main in Hmain. cbn [app] in Hmain.
    by rewrite bool_decide_true in Hmain by done.
  - destruct (main_analysed r c p u G Hne) as (s' & Hsel & Hm).
    cbn zeta in Hsel, Hm. rewrite Hm in Hmain.
    injection Hmain as <- <- <-. split.
    + pose proof (sort_timestamps_nonempty _ Hne) as Hs.
      by destruct (sort_timestamps _).
    + rewrite <- select_summary_undetermined, Hsel. split; congruence.
Qed.

Lemma C6_witness :
  scenario_timeline day_2024_01_01 ≠ [] /\
  (LastSleep (sleep_period day_2024_01_01) = Undetermined <->
   [away_period day_2024_01_01; sleep_period day_2024_01_01] = []).
Proof.
  apply (proj2 (proj2 (proj2 (C6_empty_input (PyFloat.of_int 3))))
           (scenario_events day_2024_01_01) [] [] []).
  apply (scenario_main day_2024_01_01).
Defined.

(** C7: on a Timeline with fewer than two entries the Gap Detector
    returns the empty Period sequence, and raises nothing. *)
Theorem C7_short_timeline (timeline : list datetime) (G : float) :
  (length timeline < 2)%nat -> find_sleep_periods timeline G = Some [].
Proof.
  intros Hlen. unfold find_sleep_periods. by rewrite decide_True.
Qed.

Lemma C7_witness :
  find_sleep_periods [e_2300 day_2024_01_01] (PyFloat.of_int 3) = Some [].
Proof.
  apply (C7_short_timeline [e_2300 day_2024_01_01] (PyFloat.of_int 3)).
  simpl. lia.
Defined.

(** C8: two runs with the same threshold whose sources hold, taken
    together, the same multiset of timestamps both complete and give the
    same outcome: the same Timeline, the same Periods with the same
    labels, and the same summary. *)
Theorem C8_determinism (r1 c1 p1 u1 r2 c2 p2 u2 : list datetime) (G : float) :
  r1 ++ c1 ++ p1 ++ u1 ≡ₚ r2 ++ c2 ++ p2 ++ u2 ->
  exists outcome,
    main r1 c1 p1 u1 G = Some outcome /\ main r2 c2 p2 u2 G = Some outcome.
Proof.
  intros Hp. destruct (main_total r1 c1 p1 u1 G) as [outcome Ho].
  exists outcome. split; [done|].
  by rewrite <- (main_permutation _ _ _ _ _ _ _ _ G Hp).
Qed.

Lemma C8_witness :
  exists outcome,
    main (scenario_events day_2024_01_01) [] [] [] (PyFloat.of_int 3)
      = Some outcome /\
    main [e_2300 day_2024_01_01; e_0600_next day_2024_01_01] []
         [e_080030 day_2024_01_01; e_0800 day_2024_01_01] [] (PyFloat.of_int 3)
      = Some outcome.
Proof.
  apply C8_determinism. simpl. unfold scenario_events.
  apply Permutation_cons_app
    with (l1 := [e_2300 day_2024_01_01; e_0600_next day_2024_01_01;
                 e_080030 day_2024_01_01]) (l2 := []).
  apply Permutation_cons_app
    with (l1 := [e_2300 day_2024_01_01; e_0600_next day_2024_01_01]) (l2 := []).
  simpl. reflexivity.
Defined.



(** C10: on a sorted list of at least two timestamps and with a minimum
    gap that is zero or negative, [find_sleep_periods] returns one Period
    for each consecutive pair, [len - 1] Periods in all. *)
Theorem C10_nonpositive_gap (all_timestamps : list datetime) (min_gap_hours : float) :
  Sorted dt_le all_timestamps ->
  (2 <= length all_timestamps)%nat ->
  PyFloat.ge PyFloat.zero min_gap_hours = true ->
  exists periods,
    find_sleep_periods all_timestamps min_gap_hours = Some periods /\
    endpoints <$> periods = consecutive_pairs all_timestamps /\
    length periods = (length all_timestamps - 1)%nat.
Proof.
  intros Hs Hlen HG. exists (gap_periods all_timestamps min_gap_hours).
  split; [apply find_sleep_periods_spec|].
  assert (endpoints <$> gap_periods all_timestamps min_gap_hours =
          consecutive_pairs all_timestamps) as Hall.
  { rewrite endpoints_gap_periods. apply filter_all.
    eapply Forall_impl; [apply (consecutive_pairs_sorted _ Hs)|].
    intros pr Hle. apply Is_true_true. unfold separation_at_least.
    apply ge_nonneg_nonpos; [by apply gap_hours_nonneg|done]. }
  split; [done|].
  by rewrite <- (length_fmap endpoints), Hall, length_consecutive_pairs.
Qed.

Lemma C10_witness :
  exists periods,
    find_sleep_periods (scenario_events day_2024_01_01) (PyFloat.of_int (-1))
      = Some periods /\
    endpoints <$> periods = consecutive_pairs (scenario_events day_2024_01_01) /\
    length periods = (length (scenario_events day_2024_01_01) - 1)%nat.
Proof.
  apply (C10_nonpositive_gap (scenario_events day_2024_01_01)
           (PyFloat.of_int (-1))).
  - repeat constructor; vm_compute; discriminate.
  - simpl. lia.
  - vm_compute. reflexivity.
Defined.

(** * Further properties of the analysis *)



Lemma zip_tail_chain rest :
  forall a, StronglySorted dt_le (a :: rest) ->
    StronglySorted pair_before (zip (a :: rest) rest) /\
    Forall (λ pr, dt_le a pr.1 /\ dt_le pr.1 pr.2) (zip (a :: rest) rest).
Proof.
  induction rest as [|b rest IH]; intros a Hs.
  - split; constructor.
  - apply StronglySorted_inv in Hs as [Hs Ha].
    destruct (IH b Hs) as [IH1 IH2].
    change (zip (a :: b :: rest) (b :: rest))
      with ((a, b) :: zip (b :: rest) rest).
    assert (dt_le a b) as Hab by (by inversion Ha).
    split.
    + constructor; [exact IH1|].
      eapply Forall_impl; [exact IH2|]. by intros pr [H _].
    + constructor; [split; [unfold dt_le; simpl; lia|exact Hab]|].
      eapply Forall_impl; [exact IH2|]. intros pr [H1 H2]. split; [|done].
      unfold dt_le in *. simpl in *. lia.
Qed.

Lemma gap_periods_chain ts G :
  Sorted dt_le ts ->
  StronglySorted (λ p q, dt_le (wake_at p) (sleep_at q)) (gap_periods ts G).
Proof.
  intros Hs. apply (Sorted_StronglySorted dt_le) in Hs.
  unfold gap_periods, consecutive_pairs.
  apply (StronglySorted_fmap _ pair_before); [by intros [a b] [c d]|].
  eapply StronglySorted_sublist; [apply sublist_filter|].
  destruct ts as [|a rest]; [constructor|].
  apply (zip_tail_chain rest a Hs).
Qed.

Lemma StronglySorted_lookup {A} (R : relation A) (l : list A) i j x y :
  StronglySorted R l -> (i < j)%nat -> l !! i = Some x -> l !! j = Some y -> R x y.
Proof.
  intros Hs. revert i j. induction Hs as [|a l Hs IH Ha]; intros i j Hij Hx Hy; [done|].
  destruct j as [|j]; [lia|]. destruct i as [|i]; simpl in *.
  - injection Hx as ->. rewrite Forall_forall in Ha. apply Ha.
    by eapply list_elem_of_lookup_2.
  - apply (IH i j); [lia|done|done].
Qed.

(** The Periods of an ascending Timeline do not overlap: each starts no
    later than it ends, and ends no later than any later Period starts. *)
Theorem periods_do_not_overlap (timeline : list datetime) (G : float) :
  Sorted dt_le timeline ->
  exists periods,
    find_sleep_periods timeline G = Some periods /\
    Forall (λ p, dt_le (sleep_at p) (wake_at p)) periods /\
    forall i j p q,
      (i < j)%nat -> periods !! i = Some p -> periods !! j = Some q ->
      dt_le (wake_at p) (sleep_at q).
Proof.
  intros Hs. exists (gap_periods timeline G).
  split; [apply find_sleep_periods_spec|]. split.
  - apply Forall_forall. intros p (pr & -> & Hin & _)%elem_of_gap_periods.
    pose proof (consecutive_pairs_sorted timeline Hs) as Hall.
    rewrite Forall_forall in Hall. by apply Hall.
  - intros i j p q Hij Hp Hq.
    exact (StronglySorted_lookup _ _ i j p q (gap_periods_chain timeline G Hs) Hij Hp Hq).
Qed.

(** Float order: [SFleb] is transitive. *)
Lemma SFleb_trans x y z : SFleb x y = true -> SFleb y z = true -> SFleb x z = true.
Proof.
  unfold SFleb, SFcompare.
  destruct x as [sx|[]| |[] mx ex], y as [sy|[]| |[] my ey], z as [sz|[]| |[] mz ez];
    try done.
  - (* all negative finite *)
    destruct (Z.compare_spec ex ey), (Z.compare_spec ey ez), (Z.compare_spec ex ez);
      try done; try lia; subst;
      change (Pos.compare_cont Eq ?a ?b) with (Pos.compare a b);
      destruct (Pos.compare_spec mx my), (Pos.compare_spec my mz),
        (Pos.compare_spec mx mz); try done; lia.
  - destruct (Z.compare_spec ex ey), (Z.compare_spec ey ez), (Z.compare_spec ex ez);
      try done; try lia; subst;
      change (Pos.compare_cont Eq ?a ?b) with (Pos.compare a b);
      destruct (Pos.compare_spec mx my), (Pos.compare_spec my mz),
        (Pos.compare_spec mx mz); try done; lia.
Qed.

Lemma sublist_filter_impl {A} (P Q : A -> Prop) `{!forall x, Decision (P x)}
    `{!forall x, Decision (Q x)} (l : list A) :
  (forall x, P x -> Q x) -> sublist (filter P l) (filter Q l).
Proof.
  intros HPQ. induction l as [|x l IH]; [done|].
  rewrite !filter_cons. destruct (decide (P x)) as [HP|HP].
  - rewrite decide_True by auto. by apply sublist_skip.
  - destruct (decide (Q x)); [by apply sublist_cons|done].
Qed.

(** A larger threshold never adds a Period: the Periods found with
    [G'] are among those found with any [G <= G'], in the same order. *)
Theorem larger_threshold_fewer_periods (timeline : list datetime) (G G' : float) :
  PyFloat.ge G' G = true ->
  exists periods periods',
    find_sleep_periods timeline G = Some periods /\
    find_sleep_periods timeline G' = Some periods' /\
    sublist periods' periods.
Proof.
  intros HG. exists (gap_periods timeline G), (gap_periods timeline G').
  split; [apply find_sleep_periods_spec|].
  split; [apply find_sleep_periods_spec|].
  unfold gap_periods. apply fmap_sublist, sublist_filter_impl.
  intros pr H. apply Is_true_true in H. apply Is_true_true.
  unfold separation_at_least, PyFloat.ge in *. by eapply SFleb_trans.
Qed.

(** ** De-duplication: coverage and idempotence *)

Lemma keep_after_covers rest :
  forall kept,
    StronglySorted dt_le (kept :: rest) ->
    forall t, t ∈ rest ->
      exists k, k ∈ kept :: keep_after kept rest /\
                ordinal_us k <= ordinal_us t <= ordinal_us k + 60000000.
Proof.
  induction rest as [|ts rest IH]; intros kept Hs t Hin; [by apply elem_of_nil in Hin|].
  apply StronglySorted_inv in Hs as [Hs Hk].
  apply StronglySorted_inv in Hs as [Hs Hts].
  inversion Hk as [|? ? Hkts Hkrest]; subst.
  cbn [keep_after]. unfold more_than_60s_after.
  destruct (Z.ltb_spec 60000000 (ordinal_us ts - ordinal_us kept)) as [Hfar|Hnear].
  - apply elem_of_cons in Hin as [->|Hin].
    + exists ts. split; [right; left|lia].
    + destruct (IH ts ltac:(by constructor) t Hin) as (k & Hk' & Hb).
      exists k. split; [by right|done].
  - apply elem_of_cons in Hin as [->|Hin].
    + exists kept. split; [left|]. unfold dt_le in Hkts. lia.
    + apply (IH kept); [|done]. by constructor.
Qed.

Lemma keep_after_fixed l :
  forall kept,
    Sorted (λ a b, more_than_60s_after a b = true) (kept :: l) ->
    keep_after kept l = l.
Proof.
  induction l as [|x l IH]; intros kept Hs; [done|].
  apply Sorted_inv in Hs as [Hs Hhd]. inversion Hhd as [|? ? Hkx]; subst.
  cbn [keep_after]. rewrite Hkx. f_equal. by apply IH.
Qed.

(** De-duplicating twice changes nothing. *)
Theorem deduplicate_idempotent (all_timestamps timeline : list datetime) :
  deduplicate all_timestamps = Some timeline ->
  deduplicate timeline = Some timeline.
Proof.
  destruct all_timestamps as [|first rest]; [done|].
  rewrite deduplicate_spec. intros [= <-]. cbn [greedy_dedup].
  rewrite deduplicate_spec. cbn [greedy_dedup]. do 2 f_equal.
  apply keep_after_fixed, keep_after_chain.
Qed.

Lemma greedy_dedup_covers sorted_ts :
  Sorted dt_le sorted_ts ->
  sublist (greedy_dedup sorted_ts) sorted_ts /\
  forall t, t ∈ sorted_ts ->
    exists k, k ∈ greedy_dedup sorted_ts /\
              ordinal_us k <= ordinal_us t <= ordinal_us k + 60000000.
Proof.
  intros Hs. destruct sorted_ts as [|first rest].
  { split; [done|]. by intros t ?%elem_of_nil. }
  cbn [greedy_dedup]. split.
  - apply sublist_skip, keep_after_sublist.
  - intros t [->|Hin]%elem_of_cons.
    + exists first. split; [left|lia].
    + apply keep_after_covers; [|done]. by apply (Sorted_StronglySorted dt_le).
Qed.

(** Every timestamp of a sorted input is at most 60 seconds after a kept
    timestamp that is not later than it; the kept timestamps are a
    sub-sequence of the input. *)
Theorem deduplicate_covers (sorted_ts : list datetime) :
  Sorted dt_le sorted_ts -> sorted_ts ≠ [] ->
  exists timeline,
    deduplicate sorted_ts = Some timeline /\
    sublist timeline sorted_ts /\
    forall t, t ∈ sorted_ts ->
      exists k, k ∈ timeline /\
                ordinal_us k <= ordinal_us t <= ordinal_us k + 60000000.
Proof.
  intros Hs Hne. exists (greedy_dedup sorted_ts).
  split; [|by apply greedy_dedup_covers].
  destruct sorted_ts; [done|apply deduplicate_spec].
Qed.

(** ** What a run reports comes from the sources *)

Lemma elem_of_period_endpoints p ts G :
  p ∈ gap_periods ts G -> sleep_at p ∈ ts /\ wake_at p ∈ ts.
Proof.
  intros (pr & -> & Hin & _)%elem_of_gap_periods.
  unfold consecutive_pairs in Hin.
  apply list_elem_of_lookup in Hin as [i Hi].
  apply lookup_zip_with_Some in Hi as (a & b & -> & Ha & Hb).
  cbn. split; [by eapply list_elem_of_lookup_2|].
  rewrite lookup_drop in Hb. by eapply list_elem_of_lookup_2.
Qed.

Lemma main_reports_sources recent chrome prefetch user_files gap
    timeline periods summary :
  main recent chrome prefetch user_files gap =
    Some (Analysed timeline periods summary) ->
  timeline = greedy_dedup
               (sort_timestamps (recent ++ chrome ++ prefetch ++ user_files)) /\
  (forall t, t ∈ timeline -> t ∈ recent ++ chrome ++ prefetch ++ user_files) /\
  (forall p, p ∈ periods -> sleep_at p ∈ timeline /\ wake_at p ∈ timeline).
Proof.
  intros Hmain. set (sources := recent ++ chrome ++ prefetch ++ user_files).
  destruct (decide (sources = [])) as [He|Hne].
  { unfold main in Hmain. cbn [app] in Hmain. fold sources in Hmain.
    by rewrite bool_decide_true in Hmain by done. }
  destruct (main_analysed recent chrome prefetch user_files gap Hne)
    as (s' & _ & Hm). cbn zeta in Hm. fold sources in Hm.
  rewrite Hm in Hmain. injection Hmain as <- <- <-.
  split; [done|]. split.
  - intros t Ht. rewrite <- (sort_timestamps_perm sources).
    eapply elem_of_sublist; [exact Ht|].
    apply greedy_dedup_covers, sort_timestamps_sorted.
  - intros p Hp. by apply elem_of_period_endpoints in Hp.
Qed.

(** In a run that reaches the analysis, every Timeline entry and every
    Period start and end is a timestamp one of the sources supplied, and
    every supplied timestamp lies at most 60 seconds after a Timeline
    entry that is not later than it. *)
Theorem run_reports_observed_activity
    (recent chrome prefetch user_files : list datetime) (gap : float)
    (timeline : list datetime) (periods : list Period) (summary : Summary) :
  main recent chrome prefetch user_files gap =
    Some (Analysed timeline periods summary) ->
  let sources := recent ++ chrome ++ prefetch ++ user_files in
  (forall t, t ∈ timeline -> t ∈ sources) /\
  (forall p, p ∈ periods -> sleep_at p ∈ sources /\ wake_at p ∈ sources) /\
  (forall t, t ∈ sources ->
     exists k, k ∈ timeline /\
               ordinal_us k <= ordinal_us t <= ordinal_us k + 60000000).
Proof.
  intros Hmain sources.
  destruct (main_reports_sources _ _ _ _ _ _ _ _ Hmain) as (Htl & Hin & Hp).
  split; [exact Hin|]. split.
  - intros p [H1 H2]%Hp. auto.
  - intros t Ht. rewrite Htl.
    apply (greedy_dedup_covers _ (sort_timestamps_sorted _)).
    by rewrite sort_timestamps_perm.
Qed.

Lemma select_summary_last_idle periods q :
  select_summary periods = Some (LastIdle q) ->
  filter (λ p, is_likely_sleep p) periods = [] /\
  exists pre, periods = pre ++ [q].
Proof.
  unfold select_summary. repeat case_bool_decide.
  - by destruct (last _).
  - destruct (last _) as [p|] eqn:Hlast; [|done]. cbn.
    intros [= ->]. split; [|by apply last_Some].
    by destruct (filter _ periods); [|exfalso; naive_solver].
  - done.
Qed.

(** When a run falls back to the "last significant idle period", no
    Period of the run is likely sleep, and the reported Period is the
    last one: no Period starts later. *)
Theorem run_idle_fallback
    (recent chrome prefetch user_files : list datetime) (gap : float)
    (timeline : list datetime) (periods : list Period) (last_period : Period) :
  main recent chrome prefetch user_files gap =
    Some (Analysed timeline periods (LastIdle last_period)) ->
  Forall (λ p, is_likely_sleep p = false) periods /\
  last periods = Some last_period /\
  forall p, p ∈ periods -> dt_le (sleep_at p) (sleep_at last_period).
Proof.
  intros (Hs & -> & Hsel)%main_outcome.
  destruct (select_summary_last_idle _ _ Hsel) as [Hnone [pre Hpre]].
  split; [|split].
  - apply Forall_forall. intros p Hp.
    destruct (is_likely_sleep p) eqn:Hl; [|done]. exfalso.
    assert (p ∈ filter (λ p, is_likely_sleep p) (gap_periods timeline gap)) as Hf
      by (apply list_elem_of_filter; split; [by apply Is_true_true|done]).
    rewrite Hnone in Hf. by apply elem_of_nil in Hf.
  - rewrite Hpre. apply last_snoc.
  - intros p Hp.
    apply (last_of_sorted_is_latest sleep_at (gap_periods timeline gap) pre last_period p);
      [|exact Hpre|exact Hp].
    apply (Sorted_StronglySorted dt_le), gap_periods_ascending.
    by apply StronglySorted_Sorted.
Qed.



(** * The idle time *)

Lemma idle_millis_mod tick dwTime :
  idle_millis tick dwTime = (tick - dwTime) mod 2 ^ 32.
Proof.
  unfold idle_millis. change 0xFFFFFFFF with (Z.ones 32).
  apply Z.land_ones. lia.
Qed.

(** The idle time survives the wrap-around of the 32-bit tick counter:
    if the last input was at [t_input] milliseconds and the call is at
    [t_now], less than 2^32 ms later, then whatever the counter wrapped
    to, and whether the tick is read unsigned or as a C [int], the result
    is [t_now - t_input] milliseconds, returned in seconds. *)
Theorem idle_time_wraparound (t_input t_now tick : Z) :
  0 <= t_input <= t_now -> t_now - t_input < 2 ^ 32 ->
  tick = t_now mod 2 ^ 32 \/ tick = as_c_int (t_now mod 2 ^ 32) ->
  idle_millis tick (t_input mod 2 ^ 32) = t_now - t_input /\
  get_idle_time tick (t_input mod 2 ^ 32) =
    PyFloat.truediv (PyFloat.of_int (t_now - t_input)) (PyFloat.of_int 1000).
Proof.
  intros Ht Hd Htick.
  assert (idle_millis tick (t_input mod 2 ^ 32) = t_now - t_input) as Hm.
  { rewrite idle_millis_mod.
    assert ((tick - t_input mod 2 ^ 32) mod 2 ^ 32
            = (t_now mod 2 ^ 32 - t_input mod 2 ^ 32) mod 2 ^ 32) as ->.
    { destruct Htick as [->| ->]; [done|]. unfold as_c_int.
      destruct (t_now mod 2 ^ 32 <? 2 ^ 31); [done|].
      replace (t_now mod 2 ^ 32 - 2 ^ 32 - t_input mod 2 ^ 32)
        with (t_now mod 2 ^ 32 - t_input mod 2 ^ 32 + (-1) * 2 ^ 32) by lia.
      apply Z_mod_plus_full. }
    rewrite <- Zminus_mod. apply Z.mod_small. lia. }
  split; [exact Hm|]. unfold get_idle_time. by rewrite Hm.
Qed.

(** * The file adapters *)

Lemma scan_files_harmless cutoff files :
  forall timestamps,
    Forall file_harmless files ->
    scan_files cutoff files timestamps =
      (timestamps ++ readable_after cutoff files, None).
Proof.
  induction files as [|f files IH]; intros ts Hall.
  - cbn. by rewrite app_nil_r.
  - apply Forall_cons in Hall as [Hf Hall]. destruct f as [mtime|e]; cbn.
    + rewrite (IH _ Hall). case_bool_decide; [|done].
      by rewrite <- app_assoc.
    + cbn in Hf. rewrite Hf. by apply IH.
Qed.

Lemma readable_after_elem cutoff files t :
  t ∈ readable_after cutoff files <-> Ok t ∈ files /\ dt_lt cutoff t.
Proof.
  unfold readable_after. rewrite list_elem_of_omap. split.
  - intros ([m|e] & Hin & Hm); [|done]. case_bool_decide; [|done].
    by injection Hm as ->.
  - intros [Hin Hlt]. exists (Ok t). split; [done|].
    by rewrite bool_decide_true.
Qed.

Lemma scan_dir_listable cutoff d timestamps :
  dir_exists d = Ok true -> dir_listable d ->
  scan_dir cutoff d timestamps =
    (timestamps ++ dir_contribution cutoff d, None).
Proof.
  intros Hex Hd. unfold dir_listable in Hd.
  unfold scan_dir, dir_contribution. rewrite Hex in *.
  destruct (iterdir d) as [files|e]; [|done].
  by rewrite scan_files_harmless.
Qed.

Lemma scan_dir_guarded_harmless cutoff d timestamps :
  dir_exists d = Ok true -> dir_harmless d ->
  scan_dir_guarded cutoff d timestamps =
    (timestamps ++ dir_contribution cutoff d, None).
Proof.
  intros Hex [Hd|[_ Hd]]; unfold scan_dir_guarded.
  - by rewrite scan_dir_listable.
  - unfold scan_dir, dir_contribution. rewrite Hex, Hd. cbn.
    by rewrite app_nil_r.
Qed.

Lemma dir_harmless_exists d :
  dir_harmless d -> exists found, dir_exists d = Ok found.
Proof.
  intros [Hd|[Hd _]]; [|by eexists].
  unfold dir_listable in Hd. destruct (dir_exists d); [by eexists|done].
Qed.

Lemma dir_contribution_missing cutoff d :
  dir_exists d = Ok false -> dir_contribution cutoff d = [].
Proof. unfold dir_contribution. by intros ->. Qed.

Lemma scan_check_dirs_harmless cutoff check_dirs :
  forall timestamps,
    Forall dir_harmless check_dirs ->
    scan_check_dirs cutoff check_dirs timestamps =
      (timestamps ++ concat (dir_contribution cutoff <$> check_dirs), None).
Proof.
  induction check_dirs as [|d rest IH]; intros ts Hall.
  - cbn. by rewrite app_nil_r.
  - apply Forall_cons in Hall as [Hd Hall]. cbn [scan_check_dirs].
    destruct (dir_harmless_exists d Hd) as [[|] Hex]; rewrite Hex.
    + rewrite (scan_dir_guarded_harmless cutoff d ts Hex Hd).
      rewrite (IH _ Hall). cbn. by rewrite <- app_assoc.
    + rewrite (IH _ Hall). cbn. by rewrite (dir_contribution_missing _ _ Hex).
Qed.

Lemma dir_contribution_after cutoff d t :
  t ∈ dir_contribution cutoff d -> dt_lt cutoff t.
Proof.
  unfold dir_contribution.
  destruct (dir_exists d) as [[|]|]; try by intros ?%elem_of_nil.
  destruct (iterdir d); [|by intros ?%elem_of_nil].
  by intros [_ H]%readable_after_elem.
Qed.

(** What the three adapters share once nothing escapes: the sorted
    list of what was collected. *)
Lemma sorted_window cutoff collected :
  (forall t, t ∈ collected -> dt_lt cutoff t) ->
  Sorted dt_le (sort_timestamps collected) /\
  sort_timestamps collected ≡ₚ collected /\
  Forall (dt_lt cutoff) (sort_timestamps collected).
Proof.
  intros Hc. split; [apply sort_timestamps_sorted|].
  split; [apply sort_timestamps_perm|].
  apply Forall_forall. intros t Ht. apply Hc.
  by rewrite <- (sort_timestamps_perm collected).
Qed.

Lemma get_prefetch_activity_harmless prefetch_dir now days cutoff :
  lookback_cutoff now days = Ok cutoff -> dir_harmless prefetch_dir ->
  get_prefetch_activity prefetch_dir now days =
    Ok (sort_timestamps (dir_contribution cutoff prefetch_dir)).
Proof.
  intros Hcut Hd. unfold get_prefetch_activity. rewrite Hcut. cbn.
  destruct (dir_harmless_exists _ Hd) as [found Hex]. rewrite Hex. cbn.
  destruct found.
  - by rewrite (scan_dir_guarded_harmless cutoff _ [] Hex Hd).
  - by rewrite (dir_contribution_missing _ _ Hex).
Qed.

Lemma get_recent_files_activity_listable recent_dir now days cutoff :
  lookback_cutoff now days = Ok cutoff -> dir_listable recent_dir ->
  get_recent_files_activity (Some recent_dir) now days =
    Ok (sort_timestamps (dir_contribution cutoff recent_dir)).
Proof.
  intros Hcut Hd. unfold get_recent_files_activity. rewrite Hcut. cbn.
  destruct (dir_harmless_exists recent_dir (or_introl Hd)) as [found Hex].
  rewrite Hex. cbn. destruct found.
  - by rewrite (scan_dir_listable cutoff _ [] Hex Hd).
  - by rewrite (dir_contribution_missing _ _ Hex).
Qed.

Lemma get_user_dir_activity_harmless check_dirs now days cutoff :
  lookback_cutoff now days = Ok cutoff -> Forall dir_harmless check_dirs ->
  get_user_dir_activity (Some check_dirs) now days =
    Ok (sort_timestamps (concat (dir_contribution cutoff <$> check_dirs))).
Proof.
  intros Hcut Hd. unfold get_user_dir_activity. rewrite Hcut. cbn.
  by rewrite (scan_check_dirs_harmless cutoff check_dirs [] Hd).
Qed.

Lemma concat_contribution_after cutoff check_dirs t :
  t ∈ concat (dir_contribution cutoff <$> check_dirs) -> dt_lt cutoff t.
Proof.
  intros Ht. apply list_elem_of_In, in_concat in Ht as (l & Hl & Ht).
  apply list_elem_of_In, list_elem_of_fmap in Hl as (d & -> & _).
  by eapply dir_contribution_after, list_elem_of_In.
Qed.

(** The Prefetch adapter, when the cutoff can be computed, the existence
    test answers, and the folder is missing, or its listing raises
    [PermissionError], or its listing succeeds and reading the
    modification time of each file gives a time or raises what the
    inner handler catches: the adapter does not raise, and returns,
    sorted, exactly the modification times later than the cutoff of the
    files it could read. *)
Theorem prefetch_activity_in_window (prefetch_dir : Directory)
    (now : datetime) (days : Z) (cutoff : datetime) :
  lookback_cutoff now days = Ok cutoff ->
  dir_harmless prefetch_dir ->
  exists timestamps,
    get_prefetch_activity prefetch_dir now days = Ok timestamps /\
    Sorted dt_le timestamps /\
    timestamps ≡ₚ dir_contribution cutoff prefetch_dir /\
    Forall (dt_lt cutoff) timestamps.
Proof.
  intros Hcut Hd. eexists.
  split; [by apply get_prefetch_activity_harmless|].
  apply sorted_window. intros t. apply dir_contribution_after.
Qed.

(** The Recent-files adapter, when [APPDATA] is set, the cutoff can be
    computed, the existence test answers, and the folder is missing, or
    its listing succeeds and reading the modification time of each file
    gives a time or raises what the inner handler catches: the adapter
    returns, sorted, exactly the modification times later than the
    cutoff of the files it could read.  It has no handler around the
    listing. *)
Theorem recent_files_activity_in_window (recent_dir : Directory)
    (now : datetime) (days : Z) (cutoff : datetime) :
  lookback_cutoff now days = Ok cutoff ->
  dir_listable recent_dir ->
  exists timestamps,
    get_recent_files_activity (Some recent_dir) now days = Ok timestamps /\
    Sorted dt_le timestamps /\
    timestamps ≡ₚ dir_contribution cutoff recent_dir /\
    Forall (dt_lt cutoff) timestamps.
Proof.
  intros Hcut Hd. eexists.
  split; [by apply get_recent_files_activity_listable|].
  apply sorted_window. intros t. apply dir_contribution_after.
Qed.

(** The user-directory adapter, when [USERPROFILE] is set, the cutoff
    can be computed, and each directory is harmless (its existence test
    answers, and it is missing, or its listing raises [PermissionError],
    or its listing succeeds and reading the modification time of each
    file gives a time or raises what the inner handler catches): the
    adapter merges what the directories contribute; a directory that is
    missing or whose listing is refused contributes nothing and does not
    stop the others. *)
Theorem user_dir_activity_in_window (check_dirs : list Directory)
    (now : datetime) (days : Z) (cutoff : datetime) :
  lookback_cutoff now days = Ok cutoff ->
  Forall dir_harmless check_dirs ->
  exists timestamps,
    get_user_dir_activity (Some check_dirs) now days = Ok timestamps /\
    Sorted dt_le timestamps /\
    timestamps ≡ₚ concat (dir_contribution cutoff <$> check_dirs) /\
    Forall (dt_lt cutoff) timestamps.
Proof.
  intros Hcut Hd. eexists.
  split; [by apply get_user_dir_activity_harmless|].
  apply sorted_window. intros t. apply concat_contribution_after.
Qed.

(** A folder that exists but whose listing raises: the Recent-files
    adapter lets every exception through; the Prefetch and
    user-directory adapters swallow a [PermissionError] (the folder then
    contributes nothing) and let any other exception through. *)
Theorem listing_failure (d : Directory) (rest : list Directory)
    (now : datetime) (days : Z) (cutoff : datetime) (e : exn) :
  lookback_cutoff now days = Ok cutoff ->
  dir_exists d = Ok true -> iterdir d = Raise e ->
  get_recent_files_activity (Some d) now days = Raise e /\
  get_prefetch_activity d now days =
    (if caught_as_PermissionError e then Ok [] else Raise e) /\
  get_user_dir_activity (Some (d :: rest)) now days =
    (if caught_as_PermissionError e
     then get_user_dir_activity (Some rest) now days else Raise e).
Proof.
  intros Hcut Hex Hit.
  unfold get_recent_files_activity, get_prefetch_activity, get_user_dir_activity.
  rewrite Hcut. cbn. unfold scan_dir_guarded, scan_dir. rewrite Hex, Hit. cbn.
  by destruct (caught_as_PermissionError e).
Qed.

Lemma scan_files_escape cutoff before e after :
  forall timestamps,
    Forall file_harmless before -> caught_as_OSError e = false ->
    (scan_files cutoff (before ++ Raise e :: after) timestamps).2 = Some e.
Proof.
  induction before as [|f before IH]; intros ts Hall He.
  - cbn. by rewrite He.
  - apply Forall_cons in Hall as [Hf Hall]. destruct f as [mtime|e']; cbn.
    + by apply IH.
    + cbn in Hf. rewrite Hf. by apply IH.
Qed.

Lemma caught_as_PermissionError_OSError e :
  caught_as_OSError e = false -> caught_as_PermissionError e = false.
Proof. by destruct e. Qed.

(** One file is enough to lose a whole source: when reading a file's
    modification time raises something other than an [OSError] (a
    [ValueError] or [OverflowError] of [fromtimestamp]), the exception
    leaves the adapter, whatever the other files hold. *)
Theorem unreadable_timestamp_escapes (d : Directory)
    (before after : list (result datetime)) (e : exn)
    (now : datetime) (days : Z) (cutoff : datetime) :
  lookback_cutoff now days = Ok cutoff ->
  dir_exists d = Ok true ->
  iterdir d = Ok (before ++ Raise e :: after) ->
  Forall file_harmless before -> caught_as_OSError e = false ->
  get_recent_files_activity (Some d) now days = Raise e /\
  get_prefetch_activity d now days = Raise e /\
  forall rest, get_user_dir_activity (Some (d :: rest)) now days = Raise e.
Proof.
  intros Hcut Hex Hit Hb He.
  pose proof (scan_files_escape cutoff before e after [] Hb He) as Hs.
  unfold get_recent_files_activity, get_prefetch_activity, get_user_dir_activity.
  rewrite Hcut. cbn. unfold scan_dir_guarded, scan_dir. rewrite Hex, Hit. cbn.
  destruct (scan_files cutoff (before ++ Raise e :: after) []) as [ts o].
  cbn in Hs. subst o. cbn.
  by rewrite (caught_as_PermissionError_OSError e He).
Qed.

(** * The rows of the heatmap *)

Lemma heatmap_loop_rows now (n : nat) :
  forall fuel current rows,
    0 <= ordinal_us current ->
    ordinal_us now + us_per_hour < max_ordinal_us ->
    ordinal_us current <= ordinal_us now ->
    Z.of_nat n = (ordinal_us now - ordinal_us current) / us_per_hour ->
    (n + 2 <= fuel)%nat ->
    heatmap_loop fuel now current rows =
      Some (Ok (rows ++
        ((λ i : nat, DateTime (ordinal_us current + Z.of_nat i * us_per_hour))
           <$> seq 0 (S n)))).
Proof.
  unfold us_per_hour.
  induction n as [|n IH]; intros fuel current rows H0 Hmax Hle Hn Hfuel.
  - destruct fuel as [|[|fuel]]; [lia|lia|]. cbn [heatmap_loop].
    rewrite bool_decide_true by done.
    unfold dt_add. cbn [delta_us ordinal_us]. unfold us_per_hour.
    assert (ordinal_us now - ordinal_us current < 3600000000) as Hlt.
    { pose proof (Z.mul_div_le (ordinal_us now - ordinal_us current)
                    3600000000 ltac:(lia)).
      pose proof (Z.mod_pos_bound (ordinal_us now - ordinal_us current)
                    3600000000 ltac:(lia)).
      pose proof (Z.div_mod (ordinal_us now - ordinal_us current)
                    3600000000 ltac:(lia)). lia. }
    replace ((0 <=? ordinal_us current + 3600000000)
             && (ordinal_us current + 3600000000 <? max_ordinal_us))
      with true by (symmetry; apply andb_true_intro; split; lia).
    rewrite bool_decide_false by (unfold dt_le; cbn; lia).
    cbn. by rewrite Z.add_0_r; destruct current.
  - destruct fuel as [|fuel]; [lia|]. cbn [heatmap_loop].
    rewrite bool_decide_true by done.
    unfold dt_add. cbn [delta_us ordinal_us]. unfold us_per_hour.
    assert (ordinal_us current + 3600000000 <= ordinal_us now
            /\ Z.of_nat n =
               (ordinal_us now - (ordinal_us current + 3600000000)) / 3600000000)
      as [Hnext Hn'].
    { replace (ordinal_us now - (ordinal_us current + 3600000000))
        with (ordinal_us now - ordinal_us current + (-1) * 3600000000) by lia.
      rewrite Z.div_add by lia.
      pose proof (Z.mul_div_le (ordinal_us now - ordinal_us current)
                    3600000000 ltac:(lia)). lia. }
    replace ((0 <=? ordinal_us current + 3600000000)
             && (ordinal_us current + 3600000000 <? max_ordinal_us))
      with true by (symmetry; apply andb_true_intro; split; lia).
    rewrite (IH fuel (DateTime (ordinal_us current + 3600000000))
               (rows ++ [current])); cbn [ordinal_us]; [|lia..].
    f_equal. f_equal. rewrite <- app_assoc. f_equal.
    rewrite (fmap_cons _ 0%nat (seq 1 (S n))). cbn [app]. f_equal.
    { rewrite Z.add_0_r. by destruct current. }
    rewrite <- (fmap_S_seq 0 (S n)), <- list_fmap_compose.
    apply list_fmap_ext. intros _ i _. cbn. f_equal. lia.
Qed.

Lemma floor_hour_shift_days now days :
  ordinal_us (floor_hour (DateTime (ordinal_us now - days * us_per_day)))
  = ordinal_us (floor_hour now) - days * us_per_day.
Proof.
  unfold floor_hour, us_per_day, us_per_hour. cbn [ordinal_us].
  replace (ordinal_us now - days * 86400000000)
    with (ordinal_us now + (- days * 24) * 3600000000) by lia.
  rewrite Z_mod_plus_full. lia.
Qed.

Lemma lookback_cutoff_ok now days :
  Z.abs days <= 999999999 ->
  0 <= ordinal_us now - days * us_per_day < max_ordinal_us ->
  lookback_cutoff now days = Ok (DateTime (ordinal_us now - days * us_per_day)).
Proof.
  intros Hd Hr. unfold lookback_cutoff, timedelta_days.
  rewrite (proj2 (Z.leb_le _ _)) by done. cbn.
  unfold dt_minus, dt_add. cbn [delta_us].
  replace (ordinal_us now + - (days * us_per_day))
    with (ordinal_us now - days * us_per_day) by lia.
  by replace ((0 <=? ordinal_us now - days * us_per_day)
              && (ordinal_us now - days * us_per_day <? max_ordinal_us))
    with true by (symmetry; apply andb_true_intro; split; lia).
Qed.

Lemma dt_add_hour current next :
  dt_add current (TimeDelta us_per_hour) = Ok next ->
  ordinal_us next = ordinal_us current + us_per_hour.
Proof.
  unfold dt_add. cbn [delta_us]. destruct (_ && _); [|done].
  by intros [= <-].
Qed.

(** The loop of the heatmap ends within the fuel it is given. *)
Lemma heatmap_loop_returns now (n : nat) :
  forall fuel current rows,
    Z.to_nat ((ordinal_us now - ordinal_us current) / us_per_hour) = n ->
    (n + 2 <= fuel)%nat ->
    exists r, heatmap_loop fuel now current rows = Some r.
Proof.
  induction n as [|n IH]; intros fuel current rows Hn Hfuel.
  - destruct fuel as [|[|fuel]]; [lia|lia|]. cbn [heatmap_loop].
    case_bool_decide as Hle; [|by eexists].
    destruct (dt_add current (TimeDelta us_per_hour)) as [next|e] eqn:Hadd;
      [|by eexists].
    apply dt_add_hour in Hadd.
    rewrite bool_decide_false; [by eexists|].
    unfold dt_le in *. rewrite Hadd. unfold us_per_hour in *.
    pose proof (Z.div_mod (ordinal_us now - ordinal_us current) 3600000000
                  ltac:(lia)).
    pose proof (Z.mod_pos_bound (ordinal_us now - ordinal_us current)
                  3600000000 ltac:(lia)).
    lia.
  - destruct fuel as [|fuel]; [lia|]. cbn [heatmap_loop].
    case_bool_decide as Hle; [|by eexists].
    destruct (dt_add current (TimeDelta us_per_hour)) as [next|e] eqn:Hadd;
      [|by eexists].
    apply dt_add_hour in Hadd. apply IH; [|lia].
    rewrite Hadd. unfold us_per_hour in *.
    replace (ordinal_us now - (ordinal_us current + 3600000000))
      with (ordinal_us now - ordinal_us current + (-1) * 3600000000) by lia.
    rewrite Z.div_add by lia. lia.
Qed.

Lemma heatmap_hours_returns all_timestamps now days :
  exists r, heatmap_hours all_timestamps now days = Some r.
Proof.
  unfold heatmap_hours. case_bool_decide; [by eexists|].
  destruct (lookback_cutoff now days) as [start|e]; [|by eexists].
  cbv zeta. eapply heatmap_loop_returns; [reflexivity|lia].
Qed.

(** With a negative number of days the window starts after [now]: the
    loop of the heatmap does not run, and no row is printed. *)
Theorem heatmap_no_row_for_negative_days (all_timestamps : list datetime)
    (now : datetime) (days : Z) (start : datetime) :
  days < 0 -> lookback_cutoff now days = Ok start ->
  heatmap_hours all_timestamps now days = Some (Ok []).
Proof.
  intros Hdays Hcut. unfold heatmap_hours. case_bool_decide; [done|].
  rewrite Hcut. cbv zeta. cbn [heatmap_loop].
  rewrite bool_decide_false; [done|].
  assert (ordinal_us start = ordinal_us now - days * us_per_day) as Hstart.
  { revert Hcut.
    unfold lookback_cutoff, timedelta_days, dt_minus, dt_add.
    destruct (Z.abs days <=? 999999999); [|done]. cbn.
    destruct (_ && _); [|done]. intros [= <-]. cbn. lia. }
  unfold dt_le, floor_hour. cbn [ordinal_us]. rewrite Hstart.
  pose proof (Z.mod_pos_bound (ordinal_us now - days * us_per_day)
                us_per_hour ltac:(done)).
  unfold us_per_day, us_per_hour in *. lia.
Qed.

(** The heatmap loop ends, and prints one row per hour from the hour of
    [now - days] to the hour of [now], both included: [24 * days + 1]
    rows for a window that lies within the years 1 to 9999. *)
Theorem heatmap_one_row_per_hour (all_timestamps : list datetime)
    (now : datetime) (days : Z) :
  all_timestamps ≠ [] -> 0 <= days ->
  days * us_per_day <= ordinal_us now ->
  ordinal_us now + us_per_hour < max_ordinal_us ->
  heatmap_hours all_timestamps now days =
    Some (Ok ((λ i : nat,
                 DateTime (ordinal_us (floor_hour now) - days * us_per_day
                           + Z.of_nat i * us_per_hour))
                <$> seq 0 (Z.to_nat (24 * days + 1)))).
Proof.
  intros Hne Hdays Hlo Hhi. unfold heatmap_hours.
  rewrite bool_decide_false by done.
  assert (days <= 3652059) as Hd.
  { unfold max_ordinal_us, us_per_day, us_per_hour in *. lia. }
  rewrite lookback_cutoff_ok
    by (unfold max_ordinal_us, us_per_day, us_per_hour in *; lia).
  assert (0 <= ordinal_us now mod us_per_hour < us_per_hour) as Hmod
    by (apply Z.mod_pos_bound; done).
  assert ((ordinal_us now
           - ordinal_us (floor_hour
               (DateTime (ordinal_us now - days * us_per_day)))) / us_per_hour
          = 24 * days) as Hn.
  { rewrite floor_hour_shift_days. unfold floor_hour. cbn [ordinal_us].
    replace (ordinal_us now
             - (ordinal_us now - ordinal_us now mod us_per_hour
                - days * us_per_day))
      with (ordinal_us now mod us_per_hour + (24 * days) * us_per_hour)
      by (unfold us_per_day, us_per_hour; lia).
    rewrite Z.div_add by done. rewrite Z.div_small by done. lia. }
  cbv zeta. rewrite Hn.
  rewrite (heatmap_loop_rows now (Z.to_nat (24 * days))).
  - cbn [app]. rewrite floor_hour_shift_days.
    replace (Z.to_nat (24 * days + 1)) with (S (Z.to_nat (24 * days))) by lia.
    done.
  - rewrite floor_hour_shift_days. unfold floor_hour. cbn [ordinal_us].
    pose proof (Z.div_le_lower_bound (ordinal_us now) us_per_hour (24 * days)
                  ltac:(done)
                  ltac:(unfold us_per_day, us_per_hour in *; lia)) as Hq.
    pose proof (Z.div_mod (ordinal_us now) us_per_hour ltac:(done)).
    unfold us_per_day, us_per_hour in *. lia.
  - done.
  - rewrite floor_hour_shift_days. unfold floor_hour. cbn [ordinal_us].
    unfold us_per_day in *. lia.
  - rewrite Hn. lia.
  - lia.
Qed.

(** * A window that is empty *)

Lemma lookback_cutoff_nonpositive now days cutoff :
  days <= 0 -> lookback_cutoff now days = Ok cutoff -> dt_le now cutoff.
Proof.
  unfold lookback_cutoff, timedelta_days, dt_minus, dt_add, dt_le, us_per_day.
  intros Hd. destruct (Z.abs days <=? 999999999); [|done]. cbn.
  destruct (_ && _); [|done]. intros [= <-]. cbn. lia.
Qed.

Lemma dir_contribution_empty now cutoff d :
  dt_le now cutoff -> no_file_after now d -> dir_contribution cutoff d = [].
Proof.
  unfold no_file_after, dir_contribution, dt_le. intros Hc Hd.
  destruct (dir_exists d) as [[|]|]; [|done..].
  destruct (iterdir d) as [files|]; [|done].
  apply elem_of_nil_inv. intros t [Hin Hlt]%readable_after_elem.
  specialize (Hd t Hin). unfold dt_lt, dt_le in *. lia.
Qed.

(** With [--days 0] or a negative number of days the cutoff, when it
    can be computed, is not before [now]: over a Recent folder that can
    be listed and Prefetch and user folders that are harmless, the file
    adapters report nothing as long as no file carries a modification
    time later than [now]. *)
Theorem nonpositive_days_no_file_activity
    (recent_dir prefetch_dir : Directory) (check_dirs : list Directory)
    (now : datetime) (days : Z) (cutoff : datetime) :
  days <= 0 -> lookback_cutoff now days = Ok cutoff ->
  dir_listable recent_dir -> dir_harmless prefetch_dir ->
  Forall dir_harmless check_dirs ->
  Forall (no_file_after now) (recent_dir :: prefetch_dir :: check_dirs) ->
  get_recent_files_activity (Some recent_dir) now days = Ok [] /\
  get_prefetch_activity prefetch_dir now days = Ok [] /\
  get_user_dir_activity (Some check_dirs) now days = Ok [].
Proof.
  intros Hdays Hcut Hr Hp Hu Hall.
  apply Forall_cons in Hall as [Hr' Hall].
  apply Forall_cons in Hall as [Hp' Hu'].
  pose proof (lookback_cutoff_nonpositive _ _ _ Hdays Hcut) as Hle.
  rewrite (get_recent_files_activity_listable _ _ _ _ Hcut Hr).
  rewrite (get_prefetch_activity_harmless _ _ _ _ Hcut Hp).
  rewrite (get_user_dir_activity_harmless _ _ _ _ Hcut Hu).
  rewrite !(dir_contribution_empty now) by done.
  assert (concat (dir_contribution cutoff <$> check_dirs) = []) as ->; [|done].
  clear Hu. induction Hu' as [|d rest Hd _ IH]; [done|].
  cbn. by rewrite (dir_contribution_empty now), IH.
Qed.

(** * A whole run *)




(** * Night in the heatmap and night for the classifier *)

(** The heatmap colours a row as night and the classifier labels a
    Period starting in that hour as sleep by different hours: they
    disagree exactly for the hours 4, 5, 6 (night colour, not sleep) and
    20, 21 (sleep, day colour). *)
Theorem night_colour_and_sleep_label (t : datetime) :
  (heatmap_is_night t = true /\ is_night t = false <-> 4 <= hour t <= 6) /\
  (heatmap_is_night t = false /\ is_night t = true <-> 20 <= hour t <= 21).
Proof.
  pose proof (hour_range t) as Hh.
  unfold heatmap_is_night, is_night.
  destruct (Z.leb_spec 22 (hour t)), (Z.ltb_spec (hour t) 7),
    (Z.leb_spec 20 (hour t)), (Z.ltb_spec (hour t) 4); cbn; split; split;
    try (intros [? ?]); try intros ?; try split; try done; try lia.
Qed.

(** * Division rounds to nearest and is monotone *)

Lemma locates_truncates mrs N Dn : locates mrs N Dn -> truncates mrs N Dn.
Proof.
  intros (HD & HN & Hm & Hr & Hs). split; [done|]. split; [done|]. split; [done|].
  intros [H|H]; [apply Hr in H; lia|apply Hs in H; tauto].
Qed.

Lemma shr_1_locates mrs N Dn :
  locates mrs N Dn -> locates (shr_1 mrs) N (2 * Dn).
Proof.
  intros (HD & HN & Hm & Hr & Hs). destruct mrs as [m r s].
  cbn [shr_m shr_r shr_s] in *.
  pose proof (Z.div_mod N Dn ltac:(lia)) as Hdm.
  pose proof (Z.mod_pos_bound N Dn HD) as Hmod.
  assert (N / (2 * Dn) = m / 2) as Hq.
  { rewrite Hm, Z.mul_comm. symmetry. apply Z.div_div; lia. }
  pose proof (Z.div_mod N (2 * Dn) ltac:(lia)) as Hdm2.
  pose proof (Z.mod_pos_bound N (2 * Dn) ltac:(lia)) as Hmod2.
  pose proof (Z.div_mod m 2 ltac:(lia)) as Hm2.
  pose proof (Z.mod_pos_bound m 2 ltac:(lia)) as Hmb.
  assert (N mod (2 * Dn) = (m mod 2) * Dn + N mod Dn) as Hrem by nia.
  assert (0 <= m) as Hm0 by (rewrite Hm; apply Z.div_pos; lia).
  assert (orb r s = true <-> N mod Dn <> 0) as Hrs.
  { rewrite orb_true_iff, Hr, Hs. lia. }
  split; [lia|]. split; [done|].
  rewrite Hrem, Hq.
  destruct m as [|[p|p|]|p]; try lia; cbn [shr_1 shr_m shr_r shr_s].
  - change (0 mod 2) with 0. change (0 / 2) with 0.
    split; [done|]. rewrite Hrs. split; [|lia]. split; [done|lia].
  - assert (Zpos p~1 mod 2 = 1 /\ Zpos p~1 / 2 = Zpos p) as [-> ->].
    { change (Zpos p~1) with (2 * Zpos p + 1) in *.
      split; [|symmetry; apply (Z.div_unique _ _ _ 1); lia].
      symmetry. apply (Z.mod_unique _ _ (Zpos p)); lia. }
    split; [done|]. rewrite Hrs. split; [|lia]. split; [lia|done].
  - assert (Zpos p~0 mod 2 = 0 /\ Zpos p~0 / 2 = Zpos p) as [-> ->].
    { change (Zpos p~0) with (2 * Zpos p) in *.
      split; [|symmetry; apply (Z.div_unique _ _ _ 0); lia].
      symmetry. apply (Z.mod_unique _ _ (Zpos p)); lia. }
    split; [done|]. rewrite Hrs. split; [|lia]. split; [done|lia].
  - change (1 mod 2) with 1. change (1 / 2) with 0.
    split; [done|]. rewrite Hrs. split; [|lia]. split; [lia|done].
Qed.

Lemma iter_shr_1_locates k :
  forall mrs N Dn,
    locates mrs N Dn ->
    locates (SpecFloat.iter_pos shr_1 k mrs) N (Dn * 2 ^ Zpos k).
Proof.
  induction k as [k IH|k IH|]; intros mrs N Dn H; cbn [SpecFloat.iter_pos].
  - replace (Dn * 2 ^ Zpos k~1) with (2 * Dn * 2 ^ Zpos k * 2 ^ Zpos k).
    + apply IH, IH, shr_1_locates, H.
    + replace (Zpos k~1) with (Zpos k + Zpos k + 1) by lia.
      rewrite !Z.pow_add_r by lia. change (2 ^ 1) with 2. ring.
  - replace (Dn * 2 ^ Zpos k~0) with (Dn * 2 ^ Zpos k * 2 ^ Zpos k).
    + apply IH, IH, H.
    + replace (Zpos k~0) with (Zpos k + Zpos k) by lia.
      rewrite !Z.pow_add_r by lia. ring.
  - change (2 ^ 1) with 2. rewrite Z.mul_comm. by apply shr_1_locates.
Qed.

Lemma shr_locates mrs e k N Dn :
  0 <= k -> locates mrs N Dn ->
  locates (fst (shr mrs e k)) N (Dn * 2 ^ k) /\ snd (shr mrs e k) = e + k.
Proof.
  intros Hk H. destruct k as [|k|k]; try lia; cbn [shr fst snd].
  - split; [|lia]. by rewrite Z.pow_0_r, Z.mul_1_r.
  - split; [|done]. by apply iter_shr_1_locates.
Qed.

Lemma round_nearest_even_locates mrs N Dn :
  locates mrs N Dn ->
  round_nearest_even (shr_m mrs) (loc_of_shr_record mrs) = rne N Dn.
Proof.
  intros (HD & HN & Hm & Hr & Hs). unfold rne. rewrite <- Hm.
  destruct mrs as [m r s]. cbn [shr_m shr_r shr_s] in *.
  destruct (Z.compare_spec (2 * (N mod Dn)) Dn) as [Heq|Hlt|Hgt].
  - assert (r = true) as -> by (apply Hr; lia).
    assert (s = false) as ->.
    { destruct s; [|done]. destruct Hs as [Hs _]. specialize (Hs eq_refl). lia. }
    reflexivity.
  - assert (r = false) as ->.
    { destruct r; [|done]. destruct Hr as [Hr _]. specialize (Hr eq_refl). lia. }
    by destruct s.
  - assert (r = true) as -> by (apply Hr; lia).
    assert (s = true) as -> by (apply Hs; lia).
    reflexivity.
Qed.

Lemma division_locates N D :
  0 <= N -> 0 < D ->
  locates (shr_record_of_loc (N / D) (new_location D (N mod D))) N D.
Proof.
  intros HN HD.
  pose proof (Z.mod_pos_bound N D HD) as Hmod.
  split; [done|]. split; [done|]. split; [apply shr_m_of_loc|].
  unfold new_location, new_location_even, new_location_odd.
  destruct (Z.even D) eqn:Hev; destruct (Z.eqb_spec (N mod D) 0) as [H0|H0];
    cbn [shr_record_of_loc shr_r shr_s]; try (split; split; [done|lia|done|lia]).
  - destruct (Z.compare_spec (2 * (N mod D)) D);
      cbn [shr_record_of_loc shr_r shr_s]; split; split; try done; try lia.
  - assert (2 * (N mod D) <> D) as Hodd.
    { intros Heq. rewrite <- Heq, Z.even_mul in Hev. done. }
    destruct (Z.compare_spec (2 * (N mod D) + 1) D);
      cbn [shr_record_of_loc shr_r shr_s]; split; split; try done; try lia.
Qed.

Lemma rne_cases N Dn :
  rne N Dn = N / Dn \/ rne N Dn = N / Dn + 1.
Proof.
  unfold rne. destruct (_ ?= _); [destruct (Z.even _)| |]; auto.
Qed.

(** Rounding a quotient that needs at least 53 bits, in the normal
    range: the mantissa is the nearest integer to [N / (Dn * 2 ^ k)],
    ties to even. *)
Lemma round_normal_nearest sx q e' loc N Dn :
  locates (shr_record_of_loc q loc) N Dn ->
  53 <= Zdigits2 q -> -1074 <= e' + Zdigits2 q - 53 ->
  let k := Zdigits2 q - 53 in
  2 ^ 52 * (Dn * 2 ^ k) <= N < 2 ^ 53 * (Dn * 2 ^ k) /\
  binary_round_aux 53 1024 sx q e' loc = pack sx (rne N (Dn * 2 ^ k)) (e' + k).
Proof.
  intros Hloc Hdq Hnorm k.
  pose proof (locates_truncates _ _ _ Hloc) as Htr.
  destruct (round_normal sx q e' loc N Dn Htr Hdq Hnorm) as [HM0 _].
  fold k in HM0.
  assert (0 <= k) as Hk by (unfold k; lia).
  assert (0 < 2 ^ k) as Hpk by (apply Z.pow_pos_nonneg; lia).
  assert (0 < Dn) as HD by apply Hloc.
  pose proof (Z.div_mod N (Dn * 2 ^ k) ltac:(nia)) as Hdm.
  pose proof (Z.mod_pos_bound N (Dn * 2 ^ k) ltac:(nia)) as Hmb.
  split; [nia|].
  unfold binary_round_aux.
  assert (shr_fexp 53 1024 q e' loc = shr (shr_record_of_loc q loc) e' k) as ->.
  { unfold shr_fexp, fexp, emin. f_equal. unfold k. lia. }
  destruct (shr_locates _ e' k N Dn Hk Hloc) as [Hloc1 He1].
  destruct (shr (shr_record_of_loc q loc) e' k) as [mrs1 E1].
  cbn [fst snd] in Hloc1, He1. subst E1.
  rewrite (round_nearest_even_locates mrs1 N _ Hloc1).
  set (M1 := rne N (Dn * 2 ^ k)).
  assert (2 ^ 52 <= M1 <= 2 ^ 53) as HM1.
  { unfold M1. destruct (rne_cases N (Dn * 2 ^ k)) as [-> | ->]; lia. }
  unfold pack. destruct (Z.ltb_spec M1 (2 ^ 53)) as [Hlt|Hge].
  - assert (Zdigits2 M1 = 53) as Hd by (apply Zdigits2_unique; lia).
    assert (shr_fexp 53 1024 M1 (e' + k) loc_Exact =
            (shr_record_of_loc M1 loc_Exact, e' + k)) as ->.
    { unfold shr_fexp, fexp, emin. rewrite Hd.
      replace (Z.max (53 + (e' + k) - 53) (3 - 1024 - 53) - (e' + k)) with 0
        by (unfold k; lia).
      reflexivity. }
    cbn [shr_record_of_loc shr_m].
    destruct M1 as [|m|m]; try lia. reflexivity.
  - assert (M1 = 2 ^ 53) as -> by lia.
    assert (shr_fexp 53 1024 (2 ^ 53) (e' + k) loc_Exact =
            (shr_1 (shr_record_of_loc (2 ^ 53) loc_Exact), e' + k + 1)) as ->.
    { unfold shr_fexp, fexp, emin.
      change (Zdigits2 (2 ^ 53)) with 54.
      replace (Z.max (54 + (e' + k) - 53) (3 - 1024 - 53) - (e' + k)) with 1
        by (unfold k; lia).
      reflexivity. }
    reflexivity.
Qed.

(** The quotient of two positive finite floats, in the normal range:
    the nearest 53-bit mantissa, ties to even, at the exponent that
    leaves 53 bits. *)
Lemma SFdiv_nearest m1 e1 m2 e2 :
  -1021 <= Zdigits2 (Zpos m1) + e1 - (Zdigits2 (Zpos m2) + e2) ->
  exists s k,
    0 <= s /\ 0 <= k /\
    2 ^ 52 * (Zpos m2 * 2 ^ k) <= Zpos m1 * 2 ^ s
      < 2 ^ 53 * (Zpos m2 * 2 ^ k) /\
    SFdiv 53 1024 (S754_finite false m1 e1) (S754_finite false m2 e2) =
      pack false (rne (Zpos m1 * 2 ^ s) (Zpos m2 * 2 ^ k)) (e1 - e2 - s + k).
Proof.
  intros Hnorm. unfold SFdiv.
  rewrite SFdiv_core_binary_eq. cbv zeta. cbn [xorb].
  destruct (Zdigits2_bounds (Zpos m1) ltac:(lia)) as [Hd1 [Hnlo Hnhi]].
  destruct (Zdigits2_bounds (Zpos m2) ltac:(lia)) as [Hd2 [HDlo HDhi]].
  set (d1 := Zdigits2 (Zpos m1)) in *. set (d2 := Zdigits2 (Zpos m2)) in *.
  set (e' := Z.min _ (e1 - e2)).
  assert (e' = Z.min (d1 + e1 - (d2 + e2) - 53) (e1 - e2)) as He.
  { unfold e', fexp, emin. lia. }
  set (s := e1 - e2 - e').
  assert (0 <= s) as Hs by (unfold s; lia).
  assert (0 < 2 ^ s) as Hps by (apply Z.pow_pos_nonneg; lia).
  pose proof (division_locates (Zpos m1 * 2 ^ s) (Zpos m2)
                ltac:(lia) ltac:(lia)) as Hloc.
  set (q := Zpos m1 * 2 ^ s / Zpos m2) in *.
  set (loc := new_location (Zpos m2) _) in *.
  assert (2 ^ (d2 + 52) <= Zpos m1 * 2 ^ s) as HN.
  { assert (2 ^ (d2 + 52) <= 2 ^ (d1 - 1 + s)) as H1.
    { apply Z.pow_le_mono_r; unfold s; lia. }
    rewrite (Z.pow_add_r 2 (d1 - 1) s) in H1 by lia. nia. }
  assert (2 ^ 52 <= q) as Hq.
  { unfold q. apply Z.div_le_lower_bound; [lia|].
    rewrite (Z.pow_add_r 2 d2 52) in HN by lia. nia. }
  destruct (Zdigits2_bounds q ltac:(lia)) as [Hdq [Hqlo Hqhi]].
  assert (53 <= Zdigits2 q) as Hdq53.
  { destruct (Z.le_gt_cases 53 (Zdigits2 q)) as [|Hlt]; [done|].
    assert (2 ^ Zdigits2 q <= 2 ^ 52) by (apply Z.pow_le_mono_r; lia). lia. }
  assert (-1074 <= e' + Zdigits2 q - 53) as Hrange.
  { destruct (Z.le_gt_cases (d1 + e1 - (d2 + e2) - 53) (e1 - e2)) as [Hc|Hc];
      [lia|].
    (* no scaling: the quotient has at least [d1 - d2] bits *)
    assert (s = 0) as Hs0 by (unfold s; lia).
    assert (2 ^ (d1 - d2 - 1) <= q) as Hq'.
    { unfold q. rewrite Hs0, Z.pow_0_r, Z.mul_1_r.
      apply Z.div_le_lower_bound; [lia|].
      assert (Zpos m2 * 2 ^ (d1 - d2 - 1) < 2 ^ d2 * 2 ^ (d1 - d2 - 1)) as H1.
      { apply Z.mul_lt_mono_pos_r; [apply Z.pow_pos_nonneg; lia|lia]. }
      rewrite <- Z.pow_add_r in H1 by lia.
      replace (d2 + (d1 - d2 - 1)) with (d1 - 1) in H1 by lia. lia. }
    assert (d1 - d2 - 1 < Zdigits2 q).
    { apply (Z.pow_lt_mono_r_iff 2); lia. }
    lia. }
  destruct (round_normal_nearest false q e' loc _ _ Hloc Hdq53 Hrange)
    as [Hb Hres].
  set (k := Zdigits2 q - 53) in *.
  exists s, k. split; [done|]. split; [lia|]. split; [exact Hb|].
  rewrite Hres. f_equal. unfold s. lia.
Qed.

Lemma rne_mono N Dn N' Dn' :
  0 <= N -> 0 < Dn -> 0 <= N' -> 0 < Dn' ->
  N * Dn' <= N' * Dn -> rne N Dn <= rne N' Dn'.
Proof.
  intros HN HD HN' HD' Hle.
  pose proof (Z.div_mod N Dn ltac:(lia)) as Hdm.
  pose proof (Z.mod_pos_bound N Dn HD) as Hmb.
  pose proof (Z.div_mod N' Dn' ltac:(lia)) as Hdm'.
  pose proof (Z.mod_pos_bound N' Dn' HD') as Hmb'.
  pose proof (rne_cases N Dn) as Hc. pose proof (rne_cases N' Dn') as Hc'.
  set (q := N / Dn) in *. set (r := N mod Dn) in *.
  set (q' := N' / Dn') in *. set (r' := N' mod Dn') in *.
  assert (q <= q') as Hq.
  { unfold q, q'. destruct (Z.le_gt_cases q q') as [|Hgt]; [done|].
    exfalso. assert (q' + 1 <= q) as H1 by lia.
    assert (N' * Dn < (q' + 1) * Dn' * Dn) by nia.
    assert ((q' + 1) * Dn' * Dn <= q * Dn * Dn') by nia.
    assert (q * Dn * Dn' <= N * Dn') by nia. lia. }
  destruct (Z.eq_dec q q') as [Heq|Hne].
  - assert (r * Dn' <= r' * Dn) as Hr by nia.
    clear Hc Hc'. unfold rne. fold q q' r r'. rewrite <- Heq.
    destruct (Z.compare_spec (2 * r) Dn) as [H1|H1|H1];
      destruct (Z.compare_spec (2 * r') Dn') as [H2|H2|H2];
      try destruct (Z.even q); try lia; exfalso; nia.
  - lia.
Qed.

Lemma rne_bounds N Dn :
  0 < Dn -> 2 ^ 52 * Dn <= N < 2 ^ 53 * Dn -> 2 ^ 52 <= rne N Dn <= 2 ^ 53.
Proof.
  intros HD HN.
  pose proof (Z.div_mod N Dn ltac:(lia)) as Hdm.
  pose proof (Z.mod_pos_bound N Dn HD) as Hmb.
  assert (2 ^ 52 <= N / Dn < 2 ^ 53) by nia.
  destruct (rne_cases N Dn); lia.
Qed.

(** The order of two rounded results, from their mantissas and
    exponents. *)
Lemma SFleb_finite m e m' e' :
  e < e' \/ (e = e' /\ Zpos m <= Zpos m') ->
  SFleb (S754_finite false m e) (S754_finite false m' e') = true.
Proof.
  intros H. unfold SFleb, SFcompare.
  change (Pos.compare_cont Eq m m') with (Pos.compare m m').
  destruct (Z.compare_spec e e'); [|done|lia].
  destruct (Pos.compare_spec m m'); [done|done|lia].
Qed.

Lemma pack_below M E :
  0 < M < 2 ^ 53 -> E <= 971 -> pack false M E = S754_finite false (Z.to_pos M) E.
Proof.
  intros HM HE. unfold pack.
  destruct (Z.ltb_spec M (2 ^ 53)); [|lia].
  by destruct (Z.leb_spec E 971); [|lia].
Qed.

Lemma pack_carry E :
  E + 1 <= 971 ->
  pack false (2 ^ 53) E = S754_finite false (2 ^ 52)%positive (E + 1).
Proof.
  intros HE. unfold pack. change (2 ^ 53 <? 2 ^ 53) with false. cbv iota.
  by destruct (Z.leb_spec (E + 1) 971); [|lia].
Qed.

Lemma pack_overflow M E :
  2 ^ 52 <= M <= 2 ^ 53 -> (971 < E \/ (M = 2 ^ 53 /\ 971 <= E)) ->
  pack false M E = S754_infinity false.
Proof.
  intros HM HE. unfold pack.
  destruct (Z.ltb_spec M (2 ^ 53)).
  - by destruct (Z.leb_spec E 971); [lia|].
  - by destruct (Z.leb_spec (E + 1) 971); [lia|].
Qed.

Lemma SFleb_infinity x :
  x <> S754_nan -> SFleb x (S754_infinity false) = true.
Proof. by destruct x as [[]|[]| |[] ? ?]. Qed.

Lemma pack_not_nan M E : pack false M E <> S754_nan.
Proof.
  unfold pack.
  by destruct (M <? 2 ^ 53), (E <=? 971), (E + 1 <=? 971).
Qed.

Lemma SFleb_pack M E M' E' :
  2 ^ 52 <= M <= 2 ^ 53 -> 2 ^ 52 <= M' <= 2 ^ 53 ->
  E < E' \/ (E = E' /\ M <= M') ->
  SFleb (pack false M E) (pack false M' E') = true.
Proof.
  intros HM HM' Hle.
  assert (0 < 2 ^ 52 < 2 ^ 53) as Hc by lia.
  destruct (Z.le_gt_cases E' 971) as [HE'|HE']; cycle 1.
  { rewrite (pack_overflow M' E') by lia.
    apply SFleb_infinity, pack_not_nan. }
  destruct (Z.eq_dec M' (2 ^ 53)) as [HM'53|HM'53].
  - subst M'. destruct (Z.eq_dec E' 971) as [->|HE'971].
    { rewrite (pack_overflow (2 ^ 53) 971) by lia.
      apply SFleb_infinity, pack_not_nan. }
    rewrite (pack_carry E') by lia.
    destruct (Z.eq_dec M (2 ^ 53)) as [->|HM53].
    + rewrite (pack_carry E) by lia. apply SFleb_finite. lia.
    + rewrite (pack_below M E) by lia. apply SFleb_finite. lia.
  - destruct (Z.eq_dec M (2 ^ 53)) as [->|HM53].
    + rewrite (pack_carry E) by lia. rewrite (pack_below M' E') by lia.
      apply SFleb_finite. rewrite Z2Pos.id by lia. lia.
    + rewrite (pack_below M E), (pack_below M' E') by lia.
      apply SFleb_finite. rewrite !Z2Pos.id by lia. lia.
Qed.

(** Rounding is monotone: of two positive values [N / Dn * 2 ^ E] in
    the normal range, the smaller does not round above the larger. *)
Lemma pack_rne_mono N Dn E N' Dn' E' :
  0 < Dn -> 0 < Dn' ->
  2 ^ 52 * Dn <= N < 2 ^ 53 * Dn -> 2 ^ 52 * Dn' <= N' < 2 ^ 53 * Dn' ->
  (E <= E' -> N * Dn' <= N' * Dn * 2 ^ (E' - E)) ->
  (E' <= E -> N * Dn' * 2 ^ (E - E') <= N' * Dn) ->
  SFleb (pack false (rne N Dn) E) (pack false (rne N' Dn') E') = true.
Proof.
  intros HD HD' HN HN' Hup Hdown.
  pose proof (rne_bounds N Dn HD HN) as HM.
  pose proof (rne_bounds N' Dn' HD' HN') as HM'.
  apply SFleb_pack; [done|done|].
  destruct (Z.lt_trichotomy E E') as [Hlt|[Heq|Hgt]]; [by left| |].
  - right. split; [done|]. apply rne_mono; try lia.
    specialize (Hup ltac:(lia)). rewrite Heq, Z.sub_diag, Z.pow_0_r in Hup. lia.
  - exfalso. specialize (Hdown ltac:(lia)).
    assert (2 ^ 1 <= 2 ^ (E - E')) as H2 by (apply Z.pow_le_mono_r; lia).
    change (2 ^ 1) with 2 in H2.
    assert (2 ^ 53 * Dn * Dn' <= N * Dn' * 2) as H3 by nia.
    assert (N * Dn' * 2 <= N * Dn' * 2 ^ (E - E')) as H4 by nia.
    assert (N' * Dn < 2 ^ 53 * Dn' * Dn) as H5 by nia.
    lia.
Qed.

Lemma dyadic_le_scaled m e m' e' c :
  dyadic_le m e m' e' -> 0 <= e + c -> 0 <= e' + c ->
  m * 2 ^ (e + c) <= m' * 2 ^ (e' + c).
Proof.
  unfold dyadic_le. intros H Hc Hc'.
  set (mn := Z.min e e') in *.
  assert (mn <= e /\ mn <= e' /\ (mn = e \/ mn = e')) as Hmn by (unfold mn; lia).
  clearbody mn.
  replace (e + c) with (e - mn + (c + mn)) by lia.
  replace (e' + c) with (e' - mn + (c + mn)) by lia.
  rewrite (Z.pow_add_r 2 (e - mn) (c + mn)) by lia.
  rewrite (Z.pow_add_r 2 (e' - mn) (c + mn)) by lia.
  assert (0 < 2 ^ (c + mn)) by (apply Z.pow_pos_nonneg; lia).
  rewrite !Z.mul_assoc. apply Z.mul_le_mono_nonneg_r; [lia|exact H].
Qed.

(** Dividing by the same positive float is monotone in the numerator,
    in the normal range. *)
Lemma SFdiv_mono_raw m1 e1 m1' e1' m2 e2 :
  -1021 <= Zdigits2 (Zpos m1) + e1 - (Zdigits2 (Zpos m2) + e2) ->
  -1021 <= Zdigits2 (Zpos m1') + e1' - (Zdigits2 (Zpos m2) + e2) ->
  dyadic_le (Zpos m1) e1 (Zpos m1') e1' ->
  SFleb (SFdiv 53 1024 (S754_finite false m1 e1) (S754_finite false m2 e2))
        (SFdiv 53 1024 (S754_finite false m1' e1') (S754_finite false m2 e2))
    = true.
Proof.
  intros Hn Hn' Hle.
  destruct (SFdiv_nearest m1 e1 m2 e2 Hn) as (s & k & Hs & Hk & Hb & ->).
  destruct (SFdiv_nearest m1' e1' m2 e2 Hn') as (s' & k' & Hs' & Hk' & Hb' & ->).
  assert (0 < 2 ^ k) by (apply Z.pow_pos_nonneg; lia).
  assert (0 < 2 ^ k') by (apply Z.pow_pos_nonneg; lia).
  apply pack_rne_mono; [lia|lia|done|done| |].
  - intros HE.
    pose proof (dyadic_le_scaled _ _ _ _ (s + k' - e1) Hle ltac:(lia) ltac:(lia))
      as H1.
    replace (e1 + (s + k' - e1)) with (s + k') in H1 by lia.
    replace (e1' + (s + k' - e1))
      with (s' + k + (e1' - e2 - s' + k' - (e1 - e2 - s + k))) in H1 by lia.
    rewrite !Z.pow_add_r in H1 by lia. nia.
  - intros HE.
    pose proof (dyadic_le_scaled _ _ _ _ (s' + k - e1') Hle ltac:(lia) ltac:(lia))
      as H1.
    replace (e1' + (s' + k - e1')) with (s' + k) in H1 by lia.
    replace (e1 + (s' + k - e1'))
      with (s + k' + (e1 - e2 - s + k - (e1' - e2 - s' + k'))) in H1 by lia.
    rewrite !Z.pow_add_r in H1 by lia. nia.
Qed.

Lemma ordinary_not_nan L x : ordinary L x -> x <> S754_nan.
Proof. by destruct x. Qed.

Lemma ordinary_weaken L L' x : L' <= L -> ordinary L x -> ordinary L' x.
Proof. destruct x as [[]|[]| |[] m e]; cbn; try done. lia. Qed.

Lemma pack_ordinary M E L :
  2 ^ 52 <= M <= 2 ^ 53 -> L <= E -> ordinary L (pack false M E).
Proof.
  intros HM HE.
  destruct (Z.le_gt_cases E 971) as [HE'|HE']; cycle 1.
  { by rewrite (pack_overflow M E) by lia. }
  destruct (Z.eq_dec M (2 ^ 53)) as [->|HM53].
  - destruct (Z.eq_dec E 971) as [->|HE971].
    + by rewrite (pack_overflow (2 ^ 53) 971) by lia.
    + rewrite (pack_carry E) by lia. cbn. lia.
  - rewrite (pack_below M E) by lia. cbn. rewrite Z2Pos.id by lia. lia.
Qed.

Lemma SFleb_zero_ordinary L x : ordinary L x -> SFleb (S754_zero false) x = true.
Proof. by destruct x as [[]|[]| |[] m e]. Qed.

(** The quotient of two positive floats is ordinary, in the normal
    range. *)
Lemma SFdiv_ordinary m1 e1 m2 e2 :
  -1021 <= Zdigits2 (Zpos m1) + e1 - (Zdigits2 (Zpos m2) + e2) ->
  ordinary (Zdigits2 (Zpos m1) + e1 - (Zdigits2 (Zpos m2) + e2) - 53)
    (SFdiv 53 1024 (S754_finite false m1 e1) (S754_finite false m2 e2)).
Proof.
  intros Hn.
  destruct (SFdiv_nearest m1 e1 m2 e2 Hn) as (s & k & Hs & Hk & Hb & ->).
  destruct (Zdigits2_bounds (Zpos m1) ltac:(lia)) as [Hd1 [Hnlo Hnhi]].
  destruct (Zdigits2_bounds (Zpos m2) ltac:(lia)) as [Hd2 [HDlo HDhi]].
  set (d1 := Zdigits2 (Zpos m1)) in *. set (d2 := Zdigits2 (Zpos m2)) in *.
  assert (0 < 2 ^ k) by (apply Z.pow_pos_nonneg; lia).
  assert (0 < 2 ^ s) by (apply Z.pow_pos_nonneg; lia).
  apply pack_ordinary; [apply rne_bounds; [lia|done]|].
  assert (d1 - 1 + s < 53 + d2 + k); [|lia].
  apply (Z.pow_lt_mono_r_iff 2); [lia|lia|].
  rewrite (Z.pow_add_r 2 (d1 - 1) s), (Z.pow_add_r 2 (53 + d2) k) by lia.
  rewrite (Z.pow_add_r 2 53 d2) by lia.
  assert (2 ^ (d1 - 1) * 2 ^ s <= Zpos m1 * 2 ^ s) by nia.
  assert (2 ^ 53 * (Zpos m2 * 2 ^ k) < 2 ^ 53 * (2 ^ d2 * 2 ^ k)) by nia.
  lia.
Qed.

(** On floats with full mantissas the float order is the order of the
    values. *)
Lemma SFleb_dyadic m e m' e' :
  2 ^ 52 <= Zpos m < 2 ^ 53 -> 2 ^ 52 <= Zpos m' < 2 ^ 53 ->
  SFleb (S754_finite false m e) (S754_finite false m' e') = true ->
  dyadic_le (Zpos m) e (Zpos m') e'.
Proof.
  intros Hm Hm'. unfold SFleb, SFcompare, dyadic_le.
  change (Pos.compare_cont Eq m m') with (Pos.compare m m').
  destruct (Z.compare_spec e e') as [->|Hlt|Hgt]; [| |done].
  - rewrite Z.min_id, Z.sub_diag, Z.pow_0_r.
    destruct (Pos.compare_spec m m'); [lia|lia|done].
  - intros _. rewrite Z.min_l by lia. rewrite Z.sub_diag, Z.pow_0_r.
    assert (2 ^ 1 <= 2 ^ (e' - e)) as H by (apply Z.pow_le_mono_r; lia).
    change (2 ^ 1) with 2 in H. nia.
Qed.

(** Dividing by a positive float is monotone on ordinary floats. *)
Lemma truediv_mono L x x' m2 e2 :
  -1021 <= 53 + L - (Zdigits2 (Zpos m2) + e2) ->
  ordinary L x -> ordinary L x' -> SFleb x x' = true ->
  SFleb (PyFloat.truediv x (S754_finite false m2 e2))
        (PyFloat.truediv x' (S754_finite false m2 e2)) = true.
Proof.
  intros HL Hx Hx' Hle. unfold PyFloat.truediv.
  destruct x as [[]|[]| |[] m e]; try done;
    destruct x' as [[]|[]| |[] m' e']; try done.
  - (* 0 and a positive float *)
    cbn in Hx'. destruct Hx' as [Hm' He'].
    assert (Zdigits2 (Zpos m') = 53) as Hd by (apply Zdigits2_unique; lia).
    eapply SFleb_zero_ordinary, (SFdiv_ordinary m' e' m2 e2). lia.
  - (* a positive float and +inf *)
    cbn in Hx. destruct Hx as [Hm He].
    assert (Zdigits2 (Zpos m) = 53) as Hd by (apply Zdigits2_unique; lia).
    apply SFleb_infinity. eapply ordinary_not_nan, (SFdiv_ordinary m e m2 e2).
    lia.
  - cbn in Hx, Hx'. destruct Hx as [Hm He], Hx' as [Hm' He'].
    assert (Zdigits2 (Zpos m) = 53) as Hd by (apply Zdigits2_unique; lia).
    assert (Zdigits2 (Zpos m') = 53) as Hd' by (apply Zdigits2_unique; lia).
    apply SFdiv_mono_raw; [lia|lia|by apply SFleb_dyadic].
Qed.

Lemma truediv_ordinary L x m2 e2 :
  -1021 <= 53 + L - (Zdigits2 (Zpos m2) + e2) ->
  ordinary L x ->
  ordinary (L - (Zdigits2 (Zpos m2) + e2))
    (PyFloat.truediv x (S754_finite false m2 e2)).
Proof.
  intros HL Hx. unfold PyFloat.truediv.
  destruct x as [[]|[]| |[] m e]; try done.
  cbn in Hx. destruct Hx as [Hm He].
  assert (Zdigits2 (Zpos m) = 53) as Hd by (apply Zdigits2_unique; lia).
  eapply ordinary_weaken; [|apply (SFdiv_ordinary m e m2 e2); lia]. lia.
Qed.

(** The true division of two integers is monotone in the numerator. *)
Lemma int_truediv_mono n n' D :
  Zdigits2 (Zpos D) <= 1000 -> 0 <= n <= n' ->
  SFleb (PyFloat.int_truediv n D) (PyFloat.int_truediv n' D) = true.
Proof.
  intros HD Hn. unfold PyFloat.int_truediv.
  destruct n as [|p|p]; [|  |lia]; destruct n' as [|p'|p']; try lia; try done.
  - destruct (Zdigits2_bounds (Zpos p') ltac:(lia)) as [Hd _].
    eapply SFleb_zero_ordinary, (SFdiv_ordinary p' 0 D 0). lia.
  - destruct (Zdigits2_bounds (Zpos p) ltac:(lia)) as [Hd _].
    destruct (Zdigits2_bounds (Zpos p') ltac:(lia)) as [Hd' _].
    apply SFdiv_mono_raw; [lia|lia|].
    unfold dyadic_le. rewrite Z.min_id, Z.sub_diag, Z.pow_0_r. lia.
Qed.

Lemma int_truediv_ordinary n D :
  Zdigits2 (Zpos D) <= 1000 -> 0 <= n ->
  ordinary (- Zdigits2 (Zpos D) - 52) (PyFloat.int_truediv n D).
Proof.
  intros HD Hn. unfold PyFloat.int_truediv.
  destruct n as [|p|p]; [done| |lia].
  destruct (Zdigits2_bounds (Zpos p) ltac:(lia)) as [Hd _].
  eapply ordinary_weaken; [|apply (SFdiv_ordinary p 0 D 0); lia]. lia.
Qed.

(** * The duration of a gap, in hours *)

Lemma gap_hours_of_eq prev cur :
  gap_hours_of prev cur =
    PyFloat.truediv
      (PyFloat.int_truediv (ordinal_us cur - ordinal_us prev) us_per_second)
      (S754_finite false 7916483719987200 (-41)).
Proof. reflexivity. Qed.

Lemma gap_hours_mono prev cur prev' cur' :
  0 <= ordinal_us cur - ordinal_us prev <= ordinal_us cur' - ordinal_us prev' ->
  SFleb (gap_hours_of prev cur) (gap_hours_of prev' cur') = true.
Proof.
  intros Hd. rewrite !gap_hours_of_eq.
  apply (truediv_mono (-72)).
  - by vm_compute.
  - apply (int_truediv_ordinary _ us_per_second); [by vm_compute|lia].
  - apply (int_truediv_ordinary _ us_per_second); [by vm_compute|lia].
  - apply int_truediv_mono; [by vm_compute|done].
Qed.

(** A gap that is not shorter has a duration in hours that is not
    smaller, and passes every threshold the shorter gap passes. *)
Theorem longer_gap_still_qualifies (prev cur prev' cur' : datetime) (G : float) :
  0 <= ordinal_us cur - ordinal_us prev <= ordinal_us cur' - ordinal_us prev' ->
  SFleb (gap_hours_of prev cur) (gap_hours_of prev' cur') = true /\
  (PyFloat.ge (gap_hours_of prev cur) G = true ->
   PyFloat.ge (gap_hours_of prev' cur') G = true).
Proof.
  intros Hd. pose proof (gap_hours_mono _ _ _ _ Hd) as Hm.
  split; [exact Hm|]. unfold PyFloat.ge. intros HG.
  by eapply SFleb_trans.
Qed.

Lemma default_gap_iff prev cur :
  PyFloat.ge (gap_hours_of prev cur) (PyFloat.of_int 3) = true <->
  3 * us_per_hour <= ordinal_us cur - ordinal_us prev.
Proof.
  unfold us_per_hour.
  destruct (Z.le_gt_cases 10800000000 (ordinal_us cur - ordinal_us prev))
    as [Hge|Hlt].
  - split; [lia|intros _].
    pose proof (gap_hours_mono (DateTime 0) (DateTime 10800000000) prev cur
                  ltac:(cbn; lia)) as Hm.
    unfold PyFloat.ge. eapply SFleb_trans; [|exact Hm]. by vm_compute.
  - split; [|lia]. intros HG. exfalso.
    destruct (Z.le_gt_cases 0 (ordinal_us cur - ordinal_us prev)) as [H0|H0].
    + pose proof (gap_hours_mono prev cur (DateTime 0) (DateTime 10799999999)
                    ltac:(cbn; lia)) as Hm.
      unfold PyFloat.ge in HG.
      pose proof (SFleb_trans _ _ _ HG Hm) as Hc. by vm_compute in Hc.
    + pose proof (gap_hours_not_positive prev cur ltac:(unfold dt_le; lia)) as Hnp.
      rewrite (ge_not_positive_pos _ (PyFloat.of_int 3) Hnp) in HG; [done|].
      by vm_compute.
Qed.

(** With the default minimum gap of 3 hours the float test is exact:
    the Periods are those of the consecutive pairs at least
    10 800 000 000 microseconds apart, whatever the timeline. *)
Theorem default_gap_is_exactly_three_hours (timeline : list datetime) :
  find_sleep_periods timeline (PyFloat.of_int 3) =
    Some (period_of <$>
            filter (λ pr, 3 * us_per_hour <= ordinal_us pr.2 - ordinal_us pr.1)
                   (consecutive_pairs timeline)).
Proof.
  rewrite find_sleep_periods_spec. unfold gap_periods. do 2 f_equal.
  apply list_filter_iff. intros [prev cur]. cbn [fst snd].
  unfold separation_at_least. cbn [fst snd].
  rewrite <- default_gap_iff. by rewrite Is_true_true.
Qed.

(** * Gap completeness *)

Lemma exactly_three_hours pr :
  exactly_at_least (PyFloat.of_int 3) pr = true <->
  3 * us_per_hour <= ordinal_us pr.2 - ordinal_us pr.1.
Proof.
  change (PyFloat.of_int 3) with (S754_finite false 6755399441055744 (-51)).
  unfold exactly_at_least, us_per_hour. cbv zeta.
  change (Z.max (-51) 0) with 0. change (Z.max (- -51) 0) with 51.
  rewrite Z.leb_le. lia.
Qed.

(** C2, as the code has it: on every ascending Timeline and for every
    threshold [G] the Gap Detector returns; the start/end pairs of its
    Periods are, in order and one for one, the consecutive Timeline
    pairs whose separation as the code computes it, the binary64 value
    of [gap.total_seconds() / 3600], is [>= G], so a pair whose computed
    separation equals [G] has a Period; the Periods are in ascending
    start order.  For the default threshold of 3 hours the computed test
    is the exact one: the Periods are those of the pairs at least
    3 hours apart, counted in microseconds, a gap of exactly 3 hours
    included. *)
Theorem C2_gap_completeness (timeline : list datetime) (G : float) :
  Sorted dt_le timeline ->
  (exists periods,
    find_sleep_periods timeline G = Some periods /\
    endpoints <$> periods =
      filter (λ pr, PyFloat.ge (gap_hours_of pr.1 pr.2) G)
             (consecutive_pairs timeline) /\
    (forall i a b,
        timeline !! i = Some a -> timeline !! S i = Some b ->
        gap_hours_of a b = G -> (a, b) ∈ endpoints <$> periods) /\
    Sorted dt_le (sleep_at <$> periods)) /\
  (exists periods,
    find_sleep_periods timeline (PyFloat.of_int 3) = Some periods /\
    endpoints <$> periods =
      filter (λ pr, exactly_at_least (PyFloat.of_int 3) pr)
             (consecutive_pairs timeline) /\
    (forall i a b,
        timeline !! i = Some a -> timeline !! S i = Some b ->
        ordinal_us b - ordinal_us a = 3 * us_per_hour ->
        (a, b) ∈ endpoints <$> periods)).
Proof.
  intros Hs. split.
  - exists (gap_periods timeline G).
    split; [apply find_sleep_periods_spec|].
    split; [apply endpoints_gap_periods|].
    split; [|by apply gap_periods_ascending].
    intros i a b Ha Hb HG. rewrite endpoints_gap_periods.
    apply list_elem_of_filter. split; [|by eapply elem_of_consecutive_pairs].
    unfold separation_at_least. cbn [fst snd]. rewrite HG.
    apply Is_true_true, ge_refl. rewrite <- HG. apply gap_hours_not_nan.
  - exists (gap_periods timeline (PyFloat.of_int 3)).
    split; [apply find_sleep_periods_spec|].
    assert (filter (λ pr, separation_at_least (PyFloat.of_int 3) pr)
                   (consecutive_pairs timeline)
            = filter (λ pr, exactly_at_least (PyFloat.of_int 3) pr)
                     (consecutive_pairs timeline)) as Hfilter.
    { apply list_filter_iff. intros [a b].
      rewrite !Is_true_true, exactly_three_hours. unfold separation_at_least.
      cbn [fst snd]. apply default_gap_iff. }
    split; [by rewrite endpoints_gap_periods|].
    intros i a b Ha Hb Hd. rewrite endpoints_gap_periods, Hfilter.
    apply list_elem_of_filter. split; [|by eapply elem_of_consecutive_pairs].
    apply Is_true_true, exactly_three_hours. cbn [fst snd]. lia.
Qed.

Lemma C2_witness :
  let t8 := at_time day_2024_01_01 8 0 0 in
  let t11 := at_time day_2024_01_01 11 0 0 in
  let t12 := at_time day_2024_01_01 12 0 0 in
  exists periods,
    find_sleep_periods [t8; t11; t12] (PyFloat.of_int 3) = Some periods /\
    endpoints <$> periods = [(t8, t11)] /\
    (t8, t11) ∈ endpoints <$> periods /\
    Sorted dt_le (sleep_at <$> periods).
Proof.
  intros t8 t11 t12.
  assert (Sorted dt_le [t8; t11; t12]) as Hs.
  { repeat constructor; vm_compute; discriminate. }
  destruct (C2_gap_completeness [t8; t11; t12] (PyFloat.of_int 3) Hs)
    as [(periods & Hfind & Hends & _ & Hord)
        (periods' & Hfind' & _ & Hat)].
  exists periods. split; [exact Hfind|]. split; [|split; [|exact Hord]].
  - rewrite Hends. vm_compute. reflexivity.
  - rewrite Hfind in Hfind'. injection Hfind' as <-.
    apply (Hat 0%nat); [reflexivity|reflexivity|vm_compute; reflexivity].
Defined.

(** Counted exactly, the separation does not decide for every
    threshold.  With [--gap 1.5343], a gap of 5 523 480 000 microseconds,
    exactly 1.5343 hours and not below the threshold, has no Period: the
    code computes 1.5342999999999998 for it.  With [--gap 1.1], a gap
    of 66 minutes, below the float [1.1], has a Period: the code computes
    the float [1.1] for it. *)
Lemma C2_counterexample :
  let a := at_time day_2024_01_01 22 0 0 in
  let b := DateTime (ordinal_us a + 5523480000) in
  let c := DateTime (ordinal_us a + 3960000000) in
  (exactly_at_least gap_1_5343 (a, b) = true /\
   find_sleep_periods [a; b] gap_1_5343 = Some []) /\
  (exactly_at_least gap_1_1 (a, c) = false /\
   find_sleep_periods [a; c] gap_1_1 = Some [period_of (a, c)]).
Proof. vm_compute. repeat split. Qed.


(** * Integers as floats *)

Lemma Pos_iter_xO p n : Zpos (Pos.iter xO p n) = Zpos p * 2 ^ Zpos n.
Proof.
  induction n as [|n IH] using Pos.peano_ind.
  - cbn [Pos.iter]. change (2 ^ 1) with 2. lia.
  - rewrite Pos.iter_succ, Pos2Z.inj_succ, Z.pow_succ_r by lia.
    rewrite Pos2Z.inj_xO, IH. lia.
Qed.

Lemma shl_align_spec p e e' :
  e' <= e ->
  snd (shl_align p e e') = e' /\
  Zpos (fst (shl_align p e e')) = Zpos p * 2 ^ (e - e').
Proof.
  intros He. unfold shl_align. destruct (e' - e) as [|n|n] eqn:Hd; [|lia|].
  - cbn [fst snd]. replace (e - e') with 0 by lia. lia.
  - cbn [fst snd]. split; [done|]. rewrite Pos_iter_xO. f_equal. f_equal. lia.
Qed.

Lemma rne_exact N : rne N 1 = N.
Proof.
  unfold rne. rewrite Z.mod_1_r, Z.div_1_r. reflexivity.
Qed.

(** A positive integer below [2 ^ 53] converts exactly: the mantissa is
    the integer shifted up to 53 bits. *)
Lemma of_int_exact p :
  Zpos p < 2 ^ 53 ->
  let d := Zdigits2 (Zpos p) in
  PyFloat.of_int (Zpos p) =
    S754_finite false (Z.to_pos (Zpos p * 2 ^ (53 - d))) (d - 53) /\
  2 ^ 52 <= Zpos p * 2 ^ (53 - d) < 2 ^ 53.
Proof.
  intros Hp d.
  destruct (Zdigits2_bounds (Zpos p) ltac:(lia)) as [Hd [Hlo Hhi]]. fold d in Hd, Hlo, Hhi.
  assert (d <= 53) as Hd53.
  { destruct (Z.le_gt_cases d 53) as [|Hgt]; [done|].
    assert (2 ^ 53 <= 2 ^ (d - 1)) by (apply Z.pow_le_mono_r; lia). lia. }
  assert (2 ^ 52 <= Zpos p * 2 ^ (53 - d) < 2 ^ 53) as Hb.
  { assert (2 ^ 52 = 2 ^ (d - 1) * 2 ^ (53 - d)) as ->.
    { rewrite <- Z.pow_add_r by lia. f_equal. lia. }
    assert (2 ^ 53 = 2 ^ d * 2 ^ (53 - d)) as ->.
    { rewrite <- Z.pow_add_r by lia. f_equal. lia. }
    assert (0 < 2 ^ (53 - d)) by (apply Z.pow_pos_nonneg; lia). nia. }
  split; [|exact Hb].
  unfold PyFloat.of_int, binary_normalize, binary_round.
  change (Zpos (digits2_pos p)) with d.
  assert (fexp PyFloat.prec PyFloat.emax (d + 0) = d - 53) as ->.
  { unfold fexp, emin, PyFloat.prec, PyFloat.emax. lia. }
  destruct (shl_align_spec p 0 (d - 53) ltac:(lia)) as [Hez Hmz].
  destruct (shl_align p 0 (d - 53)) as [mz ez]. cbn [fst snd] in Hez, Hmz.
  subst ez. replace (0 - (d - 53)) with (53 - d) in Hmz by lia.
  assert (Zdigits2 (Zpos mz) = 53) as Hdz by (apply Zdigits2_unique; lia).
  assert (locates (shr_record_of_loc (Zpos mz) loc_Exact) (Zpos mz) 1) as Hloc.
  { split; [lia|]. split; [lia|]. cbn [shr_record_of_loc shr_m shr_r shr_s].
    rewrite Z.div_1_r, Z.mod_1_r. split; [done|]. split; split; [done|lia|done|lia]. }
  destruct (round_normal_nearest false (Zpos mz) (d - 53) loc_Exact _ _ Hloc
              ltac:(rewrite Hdz; lia) ltac:(rewrite Hdz; lia)) as [_ Hres].
  unfold PyFloat.prec, PyFloat.emax. rewrite Hres, Hdz.
  change (53 - 53) with 0. rewrite Z.pow_0_r, Z.mul_1_r, rne_exact, Z.add_0_r.
  rewrite pack_below by lia. by rewrite Hmz.
Qed.

Lemma Zdigits2_mono p p' :
  Zpos p <= Zpos p' -> Zdigits2 (Zpos p) <= Zdigits2 (Zpos p').
Proof.
  intros Hle.
  destruct (Zdigits2_bounds (Zpos p) ltac:(lia)) as [Hd [Hlo Hhi]].
  destruct (Zdigits2_bounds (Zpos p') ltac:(lia)) as [Hd' [Hlo' Hhi']].
  destruct (Z.le_gt_cases (Zdigits2 (Zpos p)) (Zdigits2 (Zpos p'))) as [|Hgt];
    [done|].
  assert (2 ^ Zdigits2 (Zpos p') <= 2 ^ (Zdigits2 (Zpos p) - 1))
    by (apply Z.pow_le_mono_r; lia).
  lia.
Qed.

Lemma of_int_ordinary n :
  0 <= n < 2 ^ 53 -> ordinary (-52) (PyFloat.of_int n).
Proof.
  intros Hn. destruct n as [|p|p]; [done| |lia].
  destruct (of_int_exact p ltac:(lia)) as [-> Hb].
  destruct (Zdigits2_bounds (Zpos p) ltac:(lia)) as [Hd _].
  set (d := Zdigits2 (Zpos p)) in *. unfold ordinary.
  rewrite Z2Pos.id by lia. split; [exact Hb|lia].
Qed.

Lemma of_int_mono n n' :
  0 <= n <= n' -> n' < 2 ^ 53 ->
  SFleb (PyFloat.of_int n) (PyFloat.of_int n') = true.
Proof.
  intros Hn Hn'. destruct n as [|p|p]; [| |lia].
  { eapply SFleb_zero_ordinary, of_int_ordinary. lia. }
  destruct n' as [|p'|p']; [lia| |lia].
  destruct (of_int_exact p ltac:(lia)) as [-> Hb].
  destruct (of_int_exact p' ltac:(lia)) as [-> Hb'].
  pose proof (Zdigits2_mono p p' ltac:(lia)) as Hd.
  apply SFleb_finite. rewrite !Z2Pos.id by lia.
  destruct (Z.eq_dec (Zdigits2 (Zpos p)) (Zdigits2 (Zpos p'))) as [Heq|Hne];
    [right|left; lia].
  split; [lia|]. rewrite Heq.
  apply Z.mul_le_mono_nonneg_r; [apply Z.pow_nonneg|]; lia.
Qed.

(** * The idle time line *)

Lemma SFltb_SFleb x y :
  x <> S754_nan -> y <> S754_nan -> SFltb x y = negb (SFleb y x).
Proof.
  intros Hx Hy. unfold SFltb, SFleb, SFcompare.
  destruct x as [[]|[]| |[] m e]; try done;
    destruct y as [[]|[]| |[] m' e']; try done;
    change (Pos.compare_cont Eq ?a ?b) with (Pos.compare a b);
    rewrite (Z.compare_antisym e e'), (Pos.compare_antisym m m');
    destruct (e ?= e'); cbn; try done; by destruct (m ?= m')%positive.
Qed.

(** The idle time in minutes, from the milliseconds. *)
Lemma idle_mins_mono n n' :
  0 <= n <= n' -> n' < 2 ^ 53 ->
  SFleb
    (PyFloat.truediv
       (PyFloat.truediv (PyFloat.of_int n) (PyFloat.of_int 1000))
       (PyFloat.of_int 60))
    (PyFloat.truediv
       (PyFloat.truediv (PyFloat.of_int n') (PyFloat.of_int 1000))
       (PyFloat.of_int 60)) = true.
Proof.
  intros Hn Hn'.
  change (PyFloat.of_int 1000) with (S754_finite false 8796093022208000 (-43)).
  change (PyFloat.of_int 60) with (S754_finite false 8444249301319680 (-47)).
  apply (truediv_mono (-62)); [by vm_compute| | |].
  - apply (truediv_ordinary (-52) _ 8796093022208000 (-43)); [by vm_compute|].
    apply of_int_ordinary. lia.
  - apply (truediv_ordinary (-52) _ 8796093022208000 (-43)); [by vm_compute|].
    apply of_int_ordinary. lia.
  - apply (truediv_mono (-52)); [by vm_compute| | |].
    + apply of_int_ordinary. lia.
    + apply of_int_ordinary. lia.
    + by apply of_int_mono.
Qed.

Lemma idle_mins_not_nan n :
  0 <= n < 2 ^ 53 ->
  PyFloat.truediv (PyFloat.truediv (PyFloat.of_int n) (PyFloat.of_int 1000))
    (PyFloat.of_int 60) <> S754_nan.
Proof.
  intros Hn.
  change (PyFloat.of_int 1000) with (S754_finite false 8796093022208000 (-43)).
  change (PyFloat.of_int 60) with (S754_finite false 8444249301319680 (-47)).
  eapply ordinary_not_nan.
  apply (truediv_ordinary (-62) _ 8444249301319680 (-47)); [by vm_compute|].
  apply (truediv_ordinary (-52) _ 8796093022208000 (-43)); [by vm_compute|].
  by apply of_int_ordinary.
Qed.

Lemma idle_mins_below (c : Z) (limit : float) n :
  0 <= n <= c -> c < 2 ^ 53 -> limit <> S754_nan ->
  SFltb (PyFloat.truediv
           (PyFloat.truediv (PyFloat.of_int c) (PyFloat.of_int 1000))
           (PyFloat.of_int 60)) limit = true ->
  SFltb (PyFloat.truediv
           (PyFloat.truediv (PyFloat.of_int n) (PyFloat.of_int 1000))
           (PyFloat.of_int 60)) limit = true.
Proof.
  intros Hn Hc Hl Hlt.
  rewrite SFltb_SFleb in Hlt by (first [exact Hl|apply idle_mins_not_nan; lia]).
  rewrite SFltb_SFleb by (first [exact Hl|apply idle_mins_not_nan; lia]).
  apply negb_true_iff in Hlt. apply negb_true_iff.
  destruct (SFleb limit
              (PyFloat.truediv (PyFloat.truediv (PyFloat.of_int n) _) _))
    eqn:Hle; [|done].
  rewrite <- Hlt. symmetry. eapply SFleb_trans; [exact Hle|].
  by apply idle_mins_mono.
Qed.

Lemma idle_mins_not_below (c : Z) (limit : float) n :
  0 <= c <= n -> n < 2 ^ 53 -> limit <> S754_nan ->
  SFltb (PyFloat.truediv
           (PyFloat.truediv (PyFloat.of_int c) (PyFloat.of_int 1000))
           (PyFloat.of_int 60)) limit = false ->
  SFltb (PyFloat.truediv
           (PyFloat.truediv (PyFloat.of_int n) (PyFloat.of_int 1000))
           (PyFloat.of_int 60)) limit = false.
Proof.
  intros Hn Hc Hl Hlt.
  rewrite SFltb_SFleb in Hlt by (first [exact Hl|apply idle_mins_not_nan; lia]).
  rewrite SFltb_SFleb by (first [exact Hl|apply idle_mins_not_nan; lia]).
  apply negb_false_iff in Hlt. apply negb_false_iff.
  eapply SFleb_trans; [exact Hlt|]. by apply idle_mins_mono.
Qed.

Lemma idle_millis_range tick dwTime : 0 <= idle_millis tick dwTime < 2 ^ 32.
Proof. rewrite idle_millis_mod. apply Z.mod_pos_bound. lia. Qed.

(** The idle time is shown in seconds below one minute, in minutes from
    one minute to below one hour, in hours from one hour on: the two
    float tests switch exactly at 60 000 and 3 600 000 milliseconds. *)
Theorem idle_line_thresholds (tick dwTime : Z) :
  let millis := idle_millis tick dwTime in
  let idle_secs := get_idle_time tick dwTime in
  let idle_mins := PyFloat.truediv idle_secs (PyFloat.of_int 60) in
  idle_line idle_secs =
    if millis <? 60000 then IdleSeconds idle_secs
    else if millis <? 3600000 then IdleMinutes idle_mins
    else IdleHours (PyFloat.truediv idle_mins (PyFloat.of_int 60)).
Proof.
  intros millis idle_secs idle_mins.
  pose proof (idle_millis_range tick dwTime) as Hr. fold millis in Hr.
  unfold idle_line. fold idle_mins.
  unfold idle_mins, idle_secs, get_idle_time. fold millis.
  destruct (Z.ltb_spec millis 60000) as [H1|H1].
  { rewrite (idle_mins_below 59999 (PyFloat.of_int 1) millis);
      [done|lia|lia|by vm_compute|by vm_compute]. }
  rewrite (idle_mins_not_below 60000 (PyFloat.of_int 1) millis);
    [|lia|lia|by vm_compute|by vm_compute].
  destruct (Z.ltb_spec millis 3600000) as [H2|H2].
  { rewrite (idle_mins_below 3599999 (PyFloat.of_int 60) millis);
      [done|lia|lia|by vm_compute|by vm_compute]. }
  rewrite (idle_mins_not_below 3600000 (PyFloat.of_int 60) millis);
    [done|lia|lia|by vm_compute|by vm_compute].
Qed.

(** * Multiplication rounds to nearest and is monotone *)

Lemma SFmul_nearest m1 e1 m2 e2 :
  2 ^ 52 <= Zpos m1 < 2 ^ 53 -> 2 ^ 52 <= Zpos m2 < 2 ^ 53 ->
  -1126 <= e1 + e2 ->
  exists k,
    0 <= k /\
    2 ^ 52 * 2 ^ k <= Zpos m1 * Zpos m2 < 2 ^ 53 * 2 ^ k /\
    SFmul 53 1024 (S754_finite false m1 e1) (S754_finite false m2 e2) =
      pack false (rne (Zpos m1 * Zpos m2) (2 ^ k)) (e1 + e2 + k).
Proof.
  intros Hm1 Hm2 He. unfold SFmul. cbn [xorb].
  rewrite Pos2Z.inj_mul.
  set (q := Zpos m1 * Zpos m2).
  assert (2 ^ 104 <= q) as Hq by (unfold q; nia).
  destruct (Zdigits2_bounds q ltac:(lia)) as [Hdq [Hlo Hhi]].
  assert (105 <= Zdigits2 q) as Hd.
  { destruct (Z.le_gt_cases 105 (Zdigits2 q)) as [|Hlt]; [done|].
    assert (2 ^ Zdigits2 q <= 2 ^ 104) by (apply Z.pow_le_mono_r; lia). lia. }
  assert (locates (shr_record_of_loc q loc_Exact) q 1) as Hloc.
  { split; [lia|]. split; [lia|]. cbn [shr_record_of_loc shr_m shr_r shr_s].
    rewrite Z.div_1_r, Z.mod_1_r.
    split; [done|]. split; split; [done|lia|done|lia]. }
  destruct (round_normal_nearest false q (e1 + e2) loc_Exact _ _ Hloc
              ltac:(lia) ltac:(lia)) as [Hb Hres].
  exists (Zdigits2 q - 53). split; [lia|].
  rewrite Z.mul_1_l in Hb, Hres. split; [exact Hb|exact Hres].
Qed.

Lemma SFmul_ordinary m1 e1 m2 e2 :
  2 ^ 52 <= Zpos m1 < 2 ^ 53 -> 2 ^ 52 <= Zpos m2 < 2 ^ 53 ->
  -1126 <= e1 + e2 ->
  ordinary (e1 + e2)
    (SFmul 53 1024 (S754_finite false m1 e1) (S754_finite false m2 e2)).
Proof.
  intros Hm1 Hm2 He.
  destruct (SFmul_nearest m1 e1 m2 e2 Hm1 Hm2 He) as (k & Hk & Hb & ->).
  assert (0 < 2 ^ k) by (apply Z.pow_pos_nonneg; lia).
  apply pack_ordinary; [apply rne_bounds; [lia|done]|lia].
Qed.

(** Multiplying by a positive float is monotone on ordinary floats. *)
Lemma float_mul_mono L x x' m2 e2 :
  2 ^ 52 <= Zpos m2 < 2 ^ 53 -> -1126 <= L + e2 ->
  ordinary L x -> ordinary L x' -> SFleb x x' = true ->
  SFleb (float_mul x (S754_finite false m2 e2))
        (float_mul x' (S754_finite false m2 e2)) = true.
Proof.
  intros Hm2 HL Hx Hx' Hle. unfold float_mul, PyFloat.prec, PyFloat.emax.
  destruct x as [[]|[]| |[] m e]; try done;
    destruct x' as [[]|[]| |[] m' e']; try done.
  - cbn in Hx'. destruct Hx' as [Hm' He'].
    eapply SFleb_zero_ordinary, (SFmul_ordinary m' e' m2 e2); [done|done|lia].
  - cbn in Hx. destruct Hx as [Hm He].
    apply SFleb_infinity. eapply ordinary_not_nan, (SFmul_ordinary m e m2 e2);
      [done|done|lia].
  - cbn in Hx, Hx'. destruct Hx as [Hm He], Hx' as [Hm' He'].
    destruct (SFmul_nearest m e m2 e2 Hm Hm2 ltac:(lia)) as (k & Hk & Hb & ->).
    destruct (SFmul_nearest m' e' m2 e2 Hm' Hm2 ltac:(lia))
      as (k' & Hk' & Hb' & ->).
    pose proof (SFleb_dyadic m e m' e' Hm Hm' Hle) as Hdy.
    assert (0 < 2 ^ k) by (apply Z.pow_pos_nonneg; lia).
    assert (0 < 2 ^ k') by (apply Z.pow_pos_nonneg; lia).
    apply pack_rne_mono; [lia|lia|lia|lia| |].
    + intros HE.
      pose proof (dyadic_le_scaled _ _ _ _ (k' - e) Hdy ltac:(lia) ltac:(lia))
        as H1.
      replace (e + (k' - e)) with k' in H1 by lia.
      replace (e' + (k' - e)) with (k + (e' + e2 + k' - (e + e2 + k)))
        in H1 by lia.
      rewrite (Z.pow_add_r 2 k) in H1 by lia. nia.
    + intros HE.
      pose proof (dyadic_le_scaled _ _ _ _ (k - e') Hdy ltac:(lia) ltac:(lia))
        as H1.
      replace (e' + (k - e')) with k in H1 by lia.
      replace (e + (k - e')) with (k' + (e + e2 + k - (e' + e2 + k')))
        in H1 by lia.
      rewrite (Z.pow_add_r 2 k') in H1 by lia. nia.
Qed.

Lemma float_mul_ordinary L x m2 e2 :
  2 ^ 52 <= Zpos m2 < 2 ^ 53 -> -1126 <= L + e2 ->
  ordinary L x -> ordinary (L + e2) (float_mul x (S754_finite false m2 e2)).
Proof.
  intros Hm2 HL Hx. unfold float_mul, PyFloat.prec, PyFloat.emax.
  destruct x as [[]|[]| |[] m e]; try done.
  cbn in Hx. destruct Hx as [Hm He].
  eapply ordinary_weaken; [|apply (SFmul_ordinary m e m2 e2); [done|done|lia]].
  lia.
Qed.

(** * The integer part of a float *)

Lemma shiftl_scaled m e c :
  0 <= m -> 0 <= c -> 0 <= e + c ->
  Z.shiftl m e = m * 2 ^ (e + c) / 2 ^ c.
Proof.
  intros Hm Hc Hec.
  assert (0 < 2 ^ c) by (apply Z.pow_pos_nonneg; lia).
  destruct (Z.le_gt_cases 0 e) as [He|He].
  - rewrite Z.shiftl_mul_pow2 by lia. rewrite Z.pow_add_r by lia.
    rewrite Z.mul_assoc, Z.div_mul by lia. done.
  - rewrite Z.shiftl_div_pow2 by lia.
    assert (2 ^ c = 2 ^ (- e) * 2 ^ (e + c)) as ->.
    { rewrite <- Z.pow_add_r by lia. f_equal. lia. }
    assert (0 < 2 ^ (e + c)) by (apply Z.pow_pos_nonneg; lia).
    assert (0 < 2 ^ (- e)) by (apply Z.pow_pos_nonneg; lia).
    rewrite Z.div_mul_cancel_r by lia. done.
Qed.

Lemma shiftl_mono m e m' e' :
  0 <= m -> 0 <= m' -> dyadic_le m e m' e' -> Z.shiftl m e <= Z.shiftl m' e'.
Proof.
  intros Hm Hm' Hdy.
  set (c := Z.max 0 (Z.max (- e) (- e'))).
  assert (0 <= c /\ 0 <= e + c /\ 0 <= e' + c) as (Hc & Hec & Hec')
    by (unfold c; lia).
  clearbody c.
  rewrite (shiftl_scaled m e c), (shiftl_scaled m' e' c) by lia.
  apply Z.div_le_mono; [apply Z.pow_pos_nonneg; lia|].
  by apply dyadic_le_scaled.
Qed.

(** The integer part of an ordinary float that is not above a finite
    one is not above its integer part. *)
Lemma float_to_int_mono L x m' e' :
  ordinary L x -> 2 ^ 52 <= Zpos m' < 2 ^ 53 ->
  SFleb x (S754_finite false m' e') = true ->
  exists n, float_to_int x = Ok n /\ 0 <= n <= Z.shiftl (Zpos m') e'.
Proof.
  intros Hx Hm' Hle. destruct x as [[]|[]| |[] m e]; try done.
  - exists 0. split; [done|]. split; [done|]. apply Z.shiftl_nonneg. lia.
  - cbn in Hx. destruct Hx as [Hm He].
    exists (Z.shiftl (Zpos m) e). split; [done|].
    split; [apply Z.shiftl_nonneg; lia|].
    apply shiftl_mono; [lia|lia|]. by apply SFleb_dyadic.
Qed.

(** * The length of a heatmap bar *)

(** An integer divided by itself is [1.0]. *)
Lemma int_truediv_self n :
  Zdigits2 (Zpos n) <= 1000 ->
  PyFloat.int_truediv (Zpos n) n = S754_finite false (2 ^ 52)%positive (-52).
Proof.
  intros Hd. unfold PyFloat.int_truediv, PyFloat.prec, PyFloat.emax.
  destruct (SFdiv_nearest n 0 n 0 ltac:(lia)) as (s & k & Hs & Hk & Hb & ->).
  assert (0 < 2 ^ k) as Hpk by (apply Z.pow_pos_nonneg; lia).
  assert (s = 52 + k) as ->.
  { assert (2 ^ (52 + k) <= 2 ^ s < 2 ^ (53 + k)) as [H1 H2].
    { rewrite !Z.pow_add_r by lia. nia. }
    apply Z.pow_le_mono_r_iff in H1; [|lia|lia].
    apply Z.pow_lt_mono_r_iff in H2; [|lia|lia]. lia. }
  assert (rne (Zpos n * 2 ^ (52 + k)) (Zpos n * 2 ^ k) = 2 ^ 52) as ->.
  { unfold rne.
    replace (Zpos n * 2 ^ (52 + k)) with (2 ^ 52 * (Zpos n * 2 ^ k))
      by (rewrite Z.pow_add_r by lia; ring).
    rewrite Z.mod_mul, Z.div_mul by lia.
    by destruct (Z.compare_spec (2 * 0) (Zpos n * 2 ^ k)); [lia| |lia]. }
  replace (0 - 0 - (52 + k) + k) with (-52) by lia.
  by rewrite pack_below by lia.
Qed.

(** A proper fraction of integers below [2 ^ 53] does not round up to
    [1.0]: it is at most the float just below. *)
Lemma int_truediv_below_one p n :
  Zpos p < Zpos n -> Zpos n < 2 ^ 53 ->
  SFleb (PyFloat.int_truediv (Zpos p) n)
        (S754_finite false (2 ^ 53 - 1)%positive (-53)) = true.
Proof.
  intros Hlt Hn. unfold PyFloat.int_truediv, PyFloat.prec, PyFloat.emax.
  destruct (Zdigits2_bounds (Zpos p) ltac:(lia)) as [Hdp _].
  assert (Zdigits2 (Zpos n) <= 53) as Hdn.
  { destruct (Zdigits2_bounds (Zpos n) ltac:(lia)) as [_ [Hlo _]].
    destruct (Z.le_gt_cases (Zdigits2 (Zpos n)) 53) as [|Hgt]; [done|].
    assert (2 ^ 53 <= 2 ^ (Zdigits2 (Zpos n) - 1))
      by (apply Z.pow_le_mono_r; lia). lia. }
  destruct (SFdiv_nearest p 0 n 0 ltac:(lia)) as (s & k & Hs & Hk & Hb & ->).
  assert (0 < 2 ^ k) as Hpk by (apply Z.pow_pos_nonneg; lia).
  assert (0 < 2 ^ s) as Hps by (apply Z.pow_pos_nonneg; lia).
  assert (53 + k <= s) as Hsk.
  { assert (2 ^ (52 + k) < 2 ^ s) as H1.
    { rewrite Z.pow_add_r by lia. nia. }
    apply Z.pow_lt_mono_r_iff in H1; lia. }
  pose proof (rne_bounds (Zpos p * 2 ^ s) (Zpos n * 2 ^ k) ltac:(nia) Hb) as HM.
  change (S754_finite false (2 ^ 53 - 1)%positive (-53))
    with (pack false (2 ^ 53 - 1) (-53)).
  apply SFleb_pack; [done|lia|].
  destruct (Z.eq_dec s (53 + k)) as [->|Hne]; [right|left; lia].
  split; [lia|].
  set (N := Zpos p * 2 ^ (53 + k)) in *. set (Dt := Zpos n * 2 ^ k) in *.
  pose proof (Z.div_mod N Dt ltac:(lia)) as Hdm.
  pose proof (Z.mod_pos_bound N Dt ltac:(lia)) as Hmb.
  assert (N / Dt <= 2 ^ 53 - 1) as Hq by nia.
  destruct (Z.eq_dec (N / Dt) (2 ^ 53 - 1)) as [Heq|Hneq];
    [|destruct (rne_cases N Dt); lia].
  (* the quotient is the largest mantissa: the remainder is below half *)
  assert (2 * (N mod Dt) < Dt) as Hhalf.
  { assert (N * 2 ^ 1 = Zpos p * 2 ^ 54 * 2 ^ k) as HN2.
    { unfold N. rewrite Z.pow_add_r by lia. change (2 ^ 54) with (2 ^ 53 * 2 ^ 1).
      ring. }
    change (2 ^ 1) with 2 in HN2.
    assert (Zpos p * 2 ^ 54 <= (Zpos n - 1) * 2 ^ 54) as H1 by lia.
    assert (2 * N <= (Zpos n - 1) * 2 ^ 54 * 2 ^ k) as H2 by nia.
    assert ((Zpos n - 1) * 2 ^ 54 < (2 ^ 54 - 1) * Zpos n) as H3 by lia.
    assert (2 * N < (2 ^ 54 - 1) * Dt) as H4 by (unfold Dt; nia).
    rewrite Heq in Hdm. lia. }
  unfold rne. rewrite (proj2 (Z.compare_lt_iff _ _) Hhalf). lia.
Qed.

Lemma bar_full :
  float_to_int
    (float_mul (S754_finite false (2 ^ 52)%positive (-52)) (PyFloat.of_int 40))
  = Ok 40.
Proof. by vm_compute. Qed.

Lemma bar_nearly_full :
  exists m e,
    float_mul (S754_finite false (2 ^ 53 - 1)%positive (-53)) (PyFloat.of_int 40)
    = S754_finite false m e /\
    2 ^ 52 <= Zpos m < 2 ^ 53 /\ Z.shiftl (Zpos m) e = 39.
Proof. eexists _, _. split; [by vm_compute|]. by vm_compute. Qed.

(** A heatmap bar is never longer than 40: it is 40 exactly for the
    hours with the largest count, at most 39 for the others, and empty
    for an hour without events. *)
Theorem bar_len_full_iff_busiest (count max_count : Z) :
  0 <= count <= max_count -> 0 < max_count < 2 ^ 53 ->
  exists n,
    bar_len count max_count = Ok n /\ 0 <= n <= 40 /\
    (n = 40 <-> count = max_count) /\ (count = 0 -> n = 0).
Proof.
  intros Hc Hmax. unfold bar_len.
  rewrite (proj2 (Z.ltb_lt 0 max_count)) by lia.
  destruct max_count as [|mx|mx]; try lia. cbn [Z.to_pos].
  assert (Zdigits2 (Zpos mx) <= 1000) as Hd.
  { destruct (Zdigits2_bounds (Zpos mx) ltac:(lia)) as [_ [Hlo _]].
    destruct (Z.le_gt_cases (Zdigits2 (Zpos mx)) 1000) as [|Hgt]; [done|].
    assert (2 ^ 53 <= 2 ^ (Zdigits2 (Zpos mx) - 1))
      by (apply Z.pow_le_mono_r; lia). lia. }
  destruct (Z.eq_dec count (Zpos mx)) as [->|Hne].
  { exists 40. rewrite int_truediv_self by done.
    split; [exact bar_full|]. split; [lia|]. split; [done|lia]. }
  destruct (bar_nearly_full) as (m & e & HY & Hm & H39).
  assert (SFleb (float_mul (PyFloat.int_truediv count mx) (PyFloat.of_int 40))
                (S754_finite false m e) = true) as Hle.
  { rewrite <- HY.
    change (PyFloat.of_int 40) with (S754_finite false 5629499534213120 (-47)).
    apply (float_mul_mono (-1052)); [by vm_compute|by vm_compute| | |].
    - eapply ordinary_weaken; [|apply int_truediv_ordinary; [done|lia]]. lia.
    - cbn. split; [by vm_compute|lia].
    - destruct count as [|p|p]; [done| |lia].
      apply int_truediv_below_one; lia. }
  assert (ordinary (-1099)
            (float_mul (PyFloat.int_truediv count mx) (PyFloat.of_int 40)))
    as Hord.
  { change (PyFloat.of_int 40) with (S754_finite false 5629499534213120 (-47)).
    apply (float_mul_ordinary (-1052)); [by vm_compute|by vm_compute|].
    eapply ordinary_weaken; [|apply int_truediv_ordinary; [done|lia]]. lia. }
  destruct (float_to_int_mono _ _ m e Hord Hm Hle) as (n & Hn & Hb).
  exists n. split; [exact Hn|]. split; [lia|]. split; [lia|].
  intros ->. cbn in Hn. by injection Hn as <-.
Qed.

Lemma bar_value_ordinary count (mx : positive) :
  0 <= count -> Zdigits2 (Zpos mx) <= 1000 ->
  ordinary (-1099)
    (float_mul (PyFloat.int_truediv count mx) (PyFloat.of_int 40)).
Proof.
  intros Hc Hd.
  change (PyFloat.of_int 40) with (S754_finite false 5629499534213120 (-47)).
  apply (float_mul_ordinary (-1052)); [by vm_compute|by vm_compute|].
  eapply ordinary_weaken; [|apply int_truediv_ordinary; [done|lia]]. lia.
Qed.

(** An hour with more events never gets a shorter bar. *)
Theorem bar_len_monotone (count count' max_count : Z) :
  0 <= count <= count' -> count' <= max_count -> 0 < max_count < 2 ^ 53 ->
  exists n n',
    bar_len count max_count = Ok n /\ bar_len count' max_count = Ok n' /\
    n <= n'.
Proof.
  intros Hc Hc' Hmax. unfold bar_len.
  rewrite (proj2 (Z.ltb_lt 0 max_count)) by lia.
  destruct max_count as [|mx|mx]; try lia. cbn [Z.to_pos].
  assert (Zdigits2 (Zpos mx) <= 1000) as Hd.
  { destruct (Zdigits2_bounds (Zpos mx) ltac:(lia)) as [_ [Hlo _]].
    destruct (Z.le_gt_cases (Zdigits2 (Zpos mx)) 1000) as [|Hgt]; [done|].
    assert (2 ^ 53 <= 2 ^ (Zdigits2 (Zpos mx) - 1))
      by (apply Z.pow_le_mono_r; lia). lia. }
  pose proof (bar_value_ordinary count mx ltac:(lia) Hd) as Hy.
  pose proof (bar_value_ordinary count' mx ltac:(lia) Hd) as Hy'.
  assert (SFleb (float_mul (PyFloat.int_truediv count mx) (PyFloat.of_int 40))
                (float_mul (PyFloat.int_truediv count' mx) (PyFloat.of_int 40))
          = true) as Hle.
  { change (PyFloat.of_int 40) with (S754_finite false 5629499534213120 (-47)).
    apply (float_mul_mono (-1052)); [by vm_compute|by vm_compute| | |].
    - eapply ordinary_weaken; [|apply int_truediv_ordinary; [done|lia]]. lia.
    - eapply ordinary_weaken; [|apply int_truediv_ordinary; [done|lia]]. lia.
    - apply int_truediv_mono; [done|lia]. }
  (* the larger value is finite: it is at most 40.0 *)
  assert (SFleb (float_mul (PyFloat.int_truediv count' mx) (PyFloat.of_int 40))
                (S754_finite false 5629499534213120 (-47)) = true) as Hle40.
  { assert (float_mul (PyFloat.int_truediv (Zpos mx) mx) (PyFloat.of_int 40)
            = S754_finite false 5629499534213120 (-47)) as H40
      by (rewrite int_truediv_self by done; by vm_compute).
    rewrite <- H40.
    change (PyFloat.of_int 40) with (S754_finite false 5629499534213120 (-47)).
    apply (float_mul_mono (-1052)); [by vm_compute|by vm_compute| | |].
    - eapply ordinary_weaken; [|apply int_truediv_ordinary; [done|lia]]. lia.
    - eapply ordinary_weaken; [|apply int_truediv_ordinary; [done|lia]]. lia.
    - apply int_truediv_mono; [done|lia]. }
  destruct (float_mul (PyFloat.int_truediv count' mx) (PyFloat.of_int 40))
    as [[]|[]| |[] m' e'] eqn:Hv'; try done.
  - (* the larger value is +0, so is the smaller *)
    destruct (float_mul (PyFloat.int_truediv count mx) (PyFloat.of_int 40))
      as [[]|[]| |[] m e]; try done.
    exists 0, 0. by repeat split.
  - cbn in Hy'. destruct Hy' as [Hm' He'].
    destruct (float_to_int_mono _ _ m' e' Hy Hm' Hle) as (n & Hn & Hb).
    exists n, (Z.shiftl (Zpos m') e'). split; [exact Hn|]. split; [done|lia].
Qed.

(** * Subtracting the integer part *)

(** A mantissa below [2 ^ 53] is normalised without rounding. *)
Lemma binary_round_exact p e :
  Zpos p < 2 ^ 53 ->
  let d := Zdigits2 (Zpos p) in
  -1074 <= d + e - 53 -> d + e - 53 <= 971 ->
  binary_round 53 1024 false p e =
    S754_finite false (Z.to_pos (Zpos p * 2 ^ (53 - d))) (d + e - 53) /\
  2 ^ 52 <= Zpos p * 2 ^ (53 - d) < 2 ^ 53.
Proof.
  intros Hp d Hlo' Hhi'.
  destruct (Zdigits2_bounds (Zpos p) ltac:(lia)) as [Hd [Hlo Hhi]].
  fold d in Hd, Hlo, Hhi.
  assert (d <= 53) as Hd53.
  { destruct (Z.le_gt_cases d 53) as [|Hgt]; [done|].
    assert (2 ^ 53 <= 2 ^ (d - 1)) by (apply Z.pow_le_mono_r; lia). lia. }
  assert (2 ^ 52 <= Zpos p * 2 ^ (53 - d) < 2 ^ 53) as Hb.
  { assert (2 ^ 52 = 2 ^ (d - 1) * 2 ^ (53 - d)) as ->.
    { rewrite <- Z.pow_add_r by lia. f_equal. lia. }
    assert (2 ^ 53 = 2 ^ d * 2 ^ (53 - d)) as ->.
    { rewrite <- Z.pow_add_r by lia. f_equal. lia. }
    assert (0 < 2 ^ (53 - d)) by (apply Z.pow_pos_nonneg; lia). nia. }
  split; [|exact Hb].
  unfold binary_round.
  change (Zpos (digits2_pos p)) with d.
  assert (fexp 53 1024 (d + e) = d + e - 53) as ->.
  { unfold fexp, emin. lia. }
  destruct (shl_align_spec p e (d + e - 53) ltac:(lia)) as [Hez Hmz].
  destruct (shl_align p e (d + e - 53)) as [mz ez]. cbn [fst snd] in Hez, Hmz.
  subst ez. replace (e - (d + e - 53)) with (53 - d) in Hmz by lia.
  assert (Zdigits2 (Zpos mz) = 53) as Hdz by (apply Zdigits2_unique; lia).
  assert (locates (shr_record_of_loc (Zpos mz) loc_Exact) (Zpos mz) 1) as Hloc.
  { split; [lia|]. split; [lia|]. cbn [shr_record_of_loc shr_m shr_r shr_s].
    rewrite Z.div_1_r, Z.mod_1_r. split; [done|]. split; split; [done|lia|done|lia]. }
  destruct (round_normal_nearest false (Zpos mz) (d + e - 53) loc_Exact _ _ Hloc
              ltac:(rewrite Hdz; lia) ltac:(rewrite Hdz; lia)) as [_ Hres].
  rewrite Hres, Hdz.
  change (53 - 53) with 0. rewrite Z.pow_0_r, Z.mul_1_r, rne_exact, Z.add_0_r.
  rewrite pack_below by lia. by rewrite Hmz.
Qed.

(** The integer part of a float between 1 and [2 ^ 52], as a float: the
    same exponent, the mantissa with its fraction bits cleared. *)
Lemma of_int_integer_part m e :
  2 ^ 52 <= Zpos m < 2 ^ 53 -> -52 <= e < 0 ->
  let r := Zpos m mod 2 ^ (- e) in
  PyFloat.of_int (Z.shiftl (Zpos m) e) =
    S754_finite false (Z.to_pos (Zpos m - r)) e /\
  0 < Zpos m - r.
Proof.
  intros Hm He r.
  assert (0 < 2 ^ (- e)) as Hp by (apply Z.pow_pos_nonneg; lia).
  assert (2 ^ (- e) <= 2 ^ 52) as Hp52 by (apply Z.pow_le_mono_r; lia).
  pose proof (Z.div_mod (Zpos m) (2 ^ (- e)) ltac:(lia)) as Hdm.
  pose proof (Z.mod_pos_bound (Zpos m) (2 ^ (- e)) Hp) as Hmb. fold r in Hdm, Hmb.
  rewrite Z.shiftl_div_pow2 by lia.
  set (h := Zpos m / 2 ^ (- e)) in *.
  assert (2 ^ 52 = 2 ^ (- e) * 2 ^ (52 + e)) as H52.
  { rewrite <- Z.pow_add_r by lia. f_equal. lia. }
  assert (2 ^ 53 = 2 ^ (- e) * 2 ^ (53 + e)) as H53.
  { rewrite <- Z.pow_add_r by lia. f_equal. lia. }
  assert (0 < 2 ^ (52 + e)) by (apply Z.pow_pos_nonneg; lia).
  assert (2 ^ (53 + e) = 2 * 2 ^ (52 + e)) as Hsucc.
  { replace (53 + e) with (Z.succ (52 + e)) by lia.
    rewrite Z.pow_succ_r by lia. done. }
  assert (2 ^ (52 + e) <= h < 2 ^ (53 + e)) as Hh.
  { split.
    - apply Z.div_le_lower_bound; [lia|]. lia.
    - apply Z.div_lt_upper_bound; [lia|]. lia. }
  assert (Zdigits2 h = 53 + e) as Hdh.
  { apply Zdigits2_unique; [lia|].
    replace (53 + e - 1) with (52 + e) by lia. done. }
  destruct h as [|ph|ph] eqn:Hheq; [lia| |lia].
  destruct (of_int_exact ph) as [Hof Hb].
  { assert (2 ^ (53 + e) <= 2 ^ 53) by (apply Z.pow_le_mono_r; lia). lia. }
  rewrite Hdh in Hof, Hb.
  replace (53 - (53 + e)) with (- e) in Hof, Hb by lia.
  replace (53 + e - 53) with e in Hof by lia.
  assert (Zpos ph * 2 ^ (- e) = Zpos m - r) as Heq by lia.
  rewrite Heq in Hof. split; [exact Hof|lia].
Qed.

Lemma shl_align_same p e : shl_align p e e = (p, e).
Proof. unfold shl_align. by rewrite Z.sub_diag. Qed.

(** Subtracting its integer part from a float between 1 and [2 ^ 52]
    is exact and leaves at most [1 - 2 ^ -52]. *)
Lemma float_sub_integer_part m e :
  2 ^ 52 <= Zpos m < 2 ^ 53 -> -52 <= e < 0 ->
  let x := S754_finite false m e in
  ordinary (-105) (float_sub x (PyFloat.of_int (Z.shiftl (Zpos m) e))) /\
  SFleb (float_sub x (PyFloat.of_int (Z.shiftl (Zpos m) e)))
        (S754_finite false (2 ^ 53 - 2)%positive (-53)) = true.
Proof.
  intros Hm He x.
  destruct (of_int_integer_part m e Hm He) as [-> Hpos].
  set (r := Zpos m mod 2 ^ (- e)) in *.
  assert (0 < 2 ^ (- e)) as Hp by (apply Z.pow_pos_nonneg; lia).
  assert (2 ^ (- e) <= 2 ^ 52) as Hp52 by (apply Z.pow_le_mono_r; lia).
  pose proof (Z.mod_pos_bound (Zpos m) (2 ^ (- e)) Hp) as Hmb. fold r in Hmb.
  unfold x, float_sub, SFsub, PyFloat.prec, PyFloat.emax.
  rewrite Z.min_id, !shl_align_same. cbn [fst cond_Zopp].
  rewrite Z2Pos.id by lia.
  replace (Zpos m - (Zpos m - r)) with r by lia.
  destruct r as [|pr|pr] eqn:Hr; [done| |lia].
  cbn [binary_normalize].
  destruct (Zdigits2_bounds (Zpos pr) ltac:(lia)) as [Hd [Hlo Hhi]].
  set (d := Zdigits2 (Zpos pr)) in *.
  assert (d <= - e) as Hde.
  { destruct (Z.le_gt_cases d (- e)) as [|Hgt]; [done|].
    assert (2 ^ (- e) <= 2 ^ (d - 1)) by (apply Z.pow_le_mono_r; lia). lia. }
  destruct (binary_round_exact pr e ltac:(lia)) as [-> Hb]; fold d; [lia|lia|].
  fold d in Hb. split.
  - unfold ordinary. rewrite Z2Pos.id by lia. split; [exact Hb|lia].
  - apply SFleb_finite. rewrite Z2Pos.id by lia.
    destruct (Z.eq_dec d (- e)) as [Heq|Hne]; [|left; lia].
    right. split; [lia|]. rewrite Heq.
    replace (53 - - e) with (53 + e) by lia.
    assert (2 ^ 53 = 2 ^ (- e) * 2 ^ (53 + e)) as H53.
    { rewrite <- Z.pow_add_r by lia. f_equal. lia. }
    assert (2 ^ 1 <= 2 ^ (53 + e)) as H1 by (apply Z.pow_le_mono_r; lia).
    change (2 ^ 1) with 2 in H1.
    change (Zpos (2 ^ 53 - 2)) with (2 ^ 53 - 2). nia.
Qed.

(** * The duration as it is printed *)

Lemma SFleb_finite_inv m e m' e' :
  SFleb (S754_finite false m e) (S754_finite false m' e') = true ->
  e < e' \/ (e = e' /\ Zpos m <= Zpos m').
Proof.
  unfold SFleb, SFcompare.
  change (Pos.compare_cont Eq m m') with (Pos.compare m m').
  destruct (Z.compare_spec e e'); [|lia|done].
  destruct (Pos.compare_spec m m'); [lia|lia|done].
Qed.

Lemma shiftl_of_int g :
  0 < g < 2 ^ 53 ->
  exists m e,
    PyFloat.of_int g = S754_finite false m e /\
    2 ^ 52 <= Zpos m < 2 ^ 53 /\ Z.shiftl (Zpos m) e = g.
Proof.
  intros Hg. destruct g as [|p|p]; try lia.
  destruct (of_int_exact p ltac:(lia)) as [Hof Hb].
  destruct (Zdigits2_bounds (Zpos p) ltac:(lia)) as [Hd [Hlo Hhi]].
  set (d := Zdigits2 (Zpos p)) in *.
  assert (d <= 53) as Hd53.
  { destruct (Z.le_gt_cases d 53) as [|Hgt]; [done|].
    assert (2 ^ 53 <= 2 ^ (d - 1)) by (apply Z.pow_le_mono_r; lia). lia. }
  eexists _, _. split; [exact Hof|]. rewrite Z2Pos.id by lia.
  split; [exact Hb|].
  destruct (Z.eq_dec d 53) as [Heq|Hne].
  - rewrite Heq. change (53 - 53) with 0. rewrite Z.pow_0_r, Z.mul_1_r.
    apply Z.shiftl_0_r.
  - rewrite Z.shiftl_div_pow2 by lia.
    replace (- (d - 53)) with (53 - d) by lia.
    apply Z.div_mul. apply Z.pow_nonzero; lia.
Qed.

Lemma minutes_below_sixty L frac :
  -1000 <= L -> ordinary L frac ->
  SFleb frac (S754_finite false (2 ^ 53 - 1)%positive (-53)) = true ->
  exists mins,
    float_to_int (float_mul frac (PyFloat.of_int 60)) = Ok mins /\
    0 <= mins <= 59.
Proof.
  intros HL Hf Hle.
  assert (exists m e,
            float_mul (S754_finite false (2 ^ 53 - 1)%positive (-53))
                      (PyFloat.of_int 60) = S754_finite false m e /\
            2 ^ 52 <= Zpos m < 2 ^ 53 /\ Z.shiftl (Zpos m) e = 59)
    as (m & e & HY & Hm & H59).
  { eexists _, _. split; [by vm_compute|]. by vm_compute. }
  change (PyFloat.of_int 60) with (S754_finite false 8444249301319680 (-47)) in *.
  assert (ordinary (-1000) frac) as Hf' by (by eapply ordinary_weaken).
  destruct (float_to_int_mono (-1047)
              (float_mul frac (S754_finite false 8444249301319680 (-47))) m e)
    as (mins & Hmins & Hb); [|done| |].
  - apply (float_mul_ordinary (-1000)); [by vm_compute|by vm_compute|done].
  - rewrite <- HY.
    apply (float_mul_mono (-1000)); [by vm_compute|by vm_compute|done| |done].
    unfold ordinary. split; [by vm_compute|lia].
  - exists mins. split; [done|lia].
Qed.

(** The duration shown for a float below [2 ^ 52] hours: whole hours
    that are not negative and not below any integer threshold the
    duration reaches, and minutes between 0 and 59. *)
Lemma duration_display_range d :
  ordinary (-1000) d ->
  SFleb d (S754_finite false (2 ^ 53 - 1)%positive (-1)) = true ->
  exists hours mins,
    duration_display d = Ok (hours, mins) /\
    0 <= hours /\ 0 <= mins <= 59 /\
    forall g, 0 <= g < 2 ^ 53 ->
      PyFloat.ge d (PyFloat.of_int g) = true -> g <= hours.
Proof.
  intros Hd Hbig. unfold duration_display.
  destruct d as [[]|[]| |[] m e]; try done.
  - (* +0 *)
    exists 0, 0. split; [by vm_compute|]. split; [lia|]. split; [lia|].
    intros g Hg Hge. destruct (Z.eq_dec g 0) as [->|Hne]; [lia|].
    destruct (shiftl_of_int g ltac:(lia)) as (mg & eg & Hof & _).
    rewrite Hof in Hge. done.
  - cbn in Hd. destruct Hd as [Hm He].
    apply SFleb_finite_inv in Hbig.
    assert (e < 0) as He0 by lia.
    cbn [float_to_int mbind result_bind].
    assert (forall g, 0 <= g < 2 ^ 53 ->
              PyFloat.ge (S754_finite false m e) (PyFloat.of_int g) = true ->
              g <= Z.shiftl (Zpos m) e) as Hthr.
    { intros g Hg Hge. destruct (Z.eq_dec g 0) as [->|Hne];
        [apply Z.shiftl_nonneg; lia|].
      destruct (shiftl_of_int g ltac:(lia)) as (mg & eg & Hof & Hmg & <-).
      rewrite Hof in Hge. unfold PyFloat.ge in Hge.
      apply shiftl_mono; [lia|lia|]. by apply SFleb_dyadic. }
    destruct (Z.le_gt_cases (-52) e) as [Hhi|Hlo].
    + destruct (float_sub_integer_part m e Hm ltac:(lia)) as [Hord Hle].
      destruct (minutes_below_sixty (-105) _ ltac:(lia) Hord) as (mins & -> & Hb).
      { eapply SFleb_trans; [exact Hle|]. by vm_compute. }
      exists (Z.shiftl (Zpos m) e), mins. split; [done|].
      split; [apply Z.shiftl_nonneg; lia|]. split; [done|exact Hthr].
    + (* below one hour *)
      assert (Z.shiftl (Zpos m) e = 0) as H0.
      { rewrite Z.shiftl_div_pow2 by lia. apply Z.div_small.
        assert (2 ^ 53 <= 2 ^ (- e)) by (apply Z.pow_le_mono_r; lia). lia. }
      rewrite H0 in *. change (PyFloat.of_int 0) with (S754_zero false).
      change (float_sub (S754_finite false m e) (S754_zero false))
        with (S754_finite false m e).
      destruct (minutes_below_sixty (-1000) (S754_finite false m e) ltac:(lia))
        as (mins & -> & Hb).
      { unfold ordinary. lia. }
      { apply SFleb_finite. change (Zpos (2 ^ 53 - 1)) with (2 ^ 53 - 1). lia. }
      exists 0, mins. split; [done|]. split; [lia|]. split; [done|exact Hthr].
Qed.

(** The duration [main] prints for a gap between two datetimes: the
    conversions do not raise, the minutes are between 0 and 59, and the
    whole hours reach every whole-hour threshold the gap passes.  *)
Theorem duration_display_minutes (prev cur : datetime) :
  0 <= ordinal_us cur - ordinal_us prev < max_ordinal_us ->
  exists hours mins,
    duration_display (gap_hours_of prev cur) = Ok (hours, mins) /\
    0 <= hours /\ 0 <= mins <= 59 /\
    forall g, 0 <= g < 2 ^ 53 ->
      PyFloat.ge (gap_hours_of prev cur) (PyFloat.of_int g) = true ->
      g <= hours.
Proof.
  intros Hn. apply duration_display_range.
  - rewrite gap_hours_of_eq.
    eapply ordinary_weaken;
      [|apply (truediv_ordinary (-72) _ 7916483719987200 (-41));
        [by vm_compute|]].
    + by vm_compute.
    + apply (int_truediv_ordinary _ us_per_second); [by vm_compute|lia].
  - pose proof (gap_hours_mono prev cur (DateTime 0) (DateTime max_ordinal_us)
                  ltac:(cbn [ordinal_us]; lia)) as Hm.
    eapply SFleb_trans; [exact Hm|]. by vm_compute.
Qed.

(** * The properties above at concrete inputs *)

Lemma periods_do_not_overlap_witness :
  exists periods,
    find_sleep_periods (scenario_timeline day_2024_01_01) (PyFloat.of_int 3)
      = Some periods /\
    Forall (λ p, dt_le (sleep_at p) (wake_at p)) periods /\
    forall i j p q,
      (i < j)%nat -> periods !! i = Some p -> periods !! j = Some q ->
      dt_le (wake_at p) (sleep_at q).
Proof.
  apply (periods_do_not_overlap (scenario_timeline day_2024_01_01)
           (PyFloat.of_int 3)).
  repeat constructor; vm_compute; discriminate.
Defined.

Lemma larger_threshold_fewer_periods_witness :
  exists periods periods',
    find_sleep_periods (scenario_timeline day_2024_01_01) (PyFloat.of_int 3)
      = Some periods /\
    find_sleep_periods (scenario_timeline day_2024_01_01) (PyFloat.of_int 8)
      = Some periods' /\
    sublist periods' periods.
Proof.
  apply (larger_threshold_fewer_periods (scenario_timeline day_2024_01_01)
           (PyFloat.of_int 3) (PyFloat.of_int 8)).
  vm_compute. reflexivity.
Defined.

Lemma deduplicate_idempotent_witness :
  deduplicate (scenario_timeline day_2024_01_01)
    = Some (scenario_timeline day_2024_01_01).
Proof.
  apply (deduplicate_idempotent (scenario_events day_2024_01_01)
           (scenario_timeline day_2024_01_01)).
  vm_compute. reflexivity.
Defined.

Lemma deduplicate_covers_witness :
  exists timeline,
    deduplicate (scenario_events day_2024_01_01) = Some timeline /\
    sublist timeline (scenario_events day_2024_01_01) /\
    forall t, t ∈ scenario_events day_2024_01_01 ->
      exists k, k ∈ timeline /\
                ordinal_us k <= ordinal_us t <= ordinal_us k + 60000000.
Proof.
  apply (deduplicate_covers (scenario_events day_2024_01_01)).
  - repeat constructor; vm_compute; discriminate.
  - discriminate.
Defined.

Lemma run_reports_observed_activity_witness :
  let sources := scenario_events day_2024_01_01 ++ [] ++ [] ++ [] in
  (forall t, t ∈ scenario_timeline day_2024_01_01 -> t ∈ sources) /\
  (forall p,
     p ∈ [away_period day_2024_01_01; sleep_period day_2024_01_01] ->
     sleep_at p ∈ sources /\ wake_at p ∈ sources) /\
  (forall t, t ∈ sources ->
     exists k, k ∈ scenario_timeline day_2024_01_01 /\
               ordinal_us k <= ordinal_us t <= ordinal_us k + 60000000).
Proof.
  apply (run_reports_observed_activity (scenario_events day_2024_01_01)
           [] [] [] (PyFloat.of_int 3) (scenario_timeline day_2024_01_01)
           [away_period day_2024_01_01; sleep_period day_2024_01_01]
           (LastSleep (sleep_period day_2024_01_01))).
  vm_compute. reflexivity.
Defined.

Lemma run_idle_fallback_witness :
  let left_at := at_time day_2024_01_01 8 0 0 in
  let back_at := at_time day_2024_01_01 15 0 0 in
  let away := mkPeriod left_at back_at (gap_hours_of left_at back_at) false in
  Forall (λ p, is_likely_sleep p = false) [away] /\
  last [away] = Some away /\
  forall p, p ∈ [away] -> dt_le (sleep_at p) (sleep_at away).
Proof.
  apply (run_idle_fallback
           [at_time day_2024_01_01 8 0 0] [at_time day_2024_01_01 15 0 0]
           [] [] (PyFloat.of_int 3)
           [at_time day_2024_01_01 8 0 0; at_time day_2024_01_01 15 0 0]).
  vm_compute. reflexivity.
Defined.

Lemma idle_time_wraparound_witness :
  idle_millis 400 ((2 ^ 32 - 100) mod 2 ^ 32) = 2 ^ 32 + 400 - (2 ^ 32 - 100) /\
  get_idle_time 400 ((2 ^ 32 - 100) mod 2 ^ 32) =
    PyFloat.truediv (PyFloat.of_int (2 ^ 32 + 400 - (2 ^ 32 - 100)))
      (PyFloat.of_int 1000).
Proof.
  apply (idle_time_wraparound (2 ^ 32 - 100) (2 ^ 32 + 400) 400).
  - lia.
  - lia.
  - left. reflexivity.
Defined.

Lemma prefetch_activity_in_window_witness :
  let d := {| dir_exists := Ok true;
              iterdir := Ok [Ok (at_time day_2024_01_01 9 0 0);
                             Raise OSError;
                             Ok (at_time (day_2024_01_01 - 5) 9 0 0)] |} in
  exists timestamps,
    get_prefetch_activity d (at_time day_2024_01_01 12 30 0) 2
      = Ok timestamps /\
    Sorted dt_le timestamps /\
    timestamps ≡ₚ dir_contribution (at_time (day_2024_01_01 - 2) 12 30 0) d /\
    Forall (dt_lt (at_time (day_2024_01_01 - 2) 12 30 0)) timestamps.
Proof.
  apply (prefetch_activity_in_window
           {| dir_exists := Ok true;
              iterdir := Ok [Ok (at_time day_2024_01_01 9 0 0);
                             Raise OSError;
                             Ok (at_time (day_2024_01_01 - 5) 9 0 0)] |}
           (at_time day_2024_01_01 12 30 0) 2
           (at_time (day_2024_01_01 - 2) 12 30 0)).
  - vm_compute. reflexivity.
  - left. simpl. repeat constructor.
Defined.

Lemma recent_files_activity_in_window_witness :
  let d := {| dir_exists := Ok true;
              iterdir := Ok [Ok (at_time day_2024_01_01 9 0 0);
                             Raise PermissionError] |} in
  exists timestamps,
    get_recent_files_activity (Some d) (at_time day_2024_01_01 12 30 0) 2
      = Ok timestamps /\
    Sorted dt_le timestamps /\
    timestamps ≡ₚ dir_contribution (at_time (day_2024_01_01 - 2) 12 30 0) d /\
    Forall (dt_lt (at_time (day_2024_01_01 - 2) 12 30 0)) timestamps.
Proof.
  apply (recent_files_activity_in_window
           {| dir_exists := Ok true;
              iterdir := Ok [Ok (at_time day_2024_01_01 9 0 0);
                             Raise PermissionError] |}
           (at_time day_2024_01_01 12 30 0) 2
           (at_time (day_2024_01_01 - 2) 12 30 0)).
  - vm_compute. reflexivity.
  - simpl. repeat constructor.
Defined.

Lemma user_dir_activity_in_window_witness :
  let downloads := {| dir_exists := Ok true;
                      iterdir := Ok [Ok (at_time day_2024_01_01 9 0 0)] |} in
  let documents := {| dir_exists := Ok true;
                      iterdir := Raise PermissionError |} in
  let desktop := {| dir_exists := Ok false; iterdir := Raise OSError |} in
  exists timestamps,
    get_user_dir_activity (Some [downloads; documents; desktop])
      (at_time day_2024_01_01 12 30 0) 2 = Ok timestamps /\
    Sorted dt_le timestamps /\
    timestamps ≡ₚ
      concat (dir_contribution (at_time (day_2024_01_01 - 2) 12 30 0)
                <$> [downloads; documents; desktop]) /\
    Forall (dt_lt (at_time (day_2024_01_01 - 2) 12 30 0)) timestamps.
Proof.
  apply (user_dir_activity_in_window
           [ {| dir_exists := Ok true;
                iterdir := Ok [Ok (at_time day_2024_01_01 9 0 0)] |};
             {| dir_exists := Ok true; iterdir := Raise PermissionError |};
             {| dir_exists := Ok false; iterdir := Raise OSError |} ]
           (at_time day_2024_01_01 12 30 0) 2
           (at_time (day_2024_01_01 - 2) 12 30 0)).
  - vm_compute. reflexivity.
  - apply Forall_cons_2; [|apply Forall_cons_2; [|apply Forall_cons_2]].
    + left. simpl. repeat constructor.
    + right. split; reflexivity.
    + left. simpl. exact I.
    + apply Forall_nil_2.
Defined.

Lemma listing_failure_witness :
  let d := {| dir_exists := Ok true; iterdir := Raise PermissionError |} in
  let now := at_time day_2024_01_01 12 30 0 in
  get_recent_files_activity (Some d) now 2 = Raise PermissionError /\
  get_prefetch_activity d now 2 =
    (if caught_as_PermissionError PermissionError then Ok []
     else Raise PermissionError) /\
  get_user_dir_activity (Some [d]) now 2 =
    (if caught_as_PermissionError PermissionError
     then get_user_dir_activity (Some []) now 2 else Raise PermissionError).
Proof.
  apply (listing_failure
           {| dir_exists := Ok true; iterdir := Raise PermissionError |} []
           (at_time day_2024_01_01 12 30 0) 2
           (at_time (day_2024_01_01 - 2) 12 30 0) PermissionError).
  - vm_compute. reflexivity.
  - reflexivity.
  - reflexivity.
Defined.

Lemma unreadable_timestamp_escapes_witness :
  let d := {| dir_exists := Ok true;
              iterdir := Ok ([Ok (at_time day_2024_01_01 9 0 0)]
                             ++ Raise ValueError
                             :: [Ok (at_time day_2024_01_01 10 0 0)]) |} in
  let now := at_time day_2024_01_01 12 30 0 in
  get_recent_files_activity (Some d) now 2 = Raise ValueError /\
  get_prefetch_activity d now 2 = Raise ValueError /\
  forall rest, get_user_dir_activity (Some (d :: rest)) now 2 = Raise ValueError.
Proof.
  apply (unreadable_timestamp_escapes
           {| dir_exists := Ok true;
              iterdir := Ok ([Ok (at_time day_2024_01_01 9 0 0)]
                             ++ Raise ValueError
                             :: [Ok (at_time day_2024_01_01 10 0 0)]) |}
           [Ok (at_time day_2024_01_01 9 0 0)]
           [Ok (at_time day_2024_01_01 10 0 0)] ValueError
           (at_time day_2024_01_01 12 30 0) 2
           (at_time (day_2024_01_01 - 2) 12 30 0)).
  - vm_compute. reflexivity.
  - reflexivity.
  - reflexivity.
  - repeat constructor.
  - reflexivity.
Defined.

Lemma heatmap_one_row_per_hour_witness :
  let now := at_time day_2024_01_01 12 30 0 in
  heatmap_hours [now] now 2 =
    Some (Ok ((λ i : nat,
                 DateTime (ordinal_us (floor_hour now) - 2 * us_per_day
                           + Z.of_nat i * us_per_hour))
                <$> seq 0 (Z.to_nat (24 * 2 + 1)))).
Proof.
  apply (heatmap_one_row_per_hour [at_time day_2024_01_01 12 30 0]
           (at_time day_2024_01_01 12 30 0) 2).
  - discriminate.
  - lia.
  - vm_compute. discriminate.
  - vm_compute. reflexivity.
Defined.

Lemma nonpositive_days_no_file_activity_witness :
  let d := {| dir_exists := Ok true;
              iterdir := Ok [Ok (at_time day_2024_01_01 9 0 0)] |} in
  let now := at_time day_2024_01_01 12 30 0 in
  get_recent_files_activity (Some d) now 0 = Ok [] /\
  get_prefetch_activity d now 0 = Ok [] /\
  get_user_dir_activity (Some [d]) now 0 = Ok [].
Proof.
  apply (nonpositive_days_no_file_activity
           {| dir_exists := Ok true;
              iterdir := Ok [Ok (at_time day_2024_01_01 9 0 0)] |}
           {| dir_exists := Ok true;
              iterdir := Ok [Ok (at_time day_2024_01_01 9 0 0)] |}
           [ {| dir_exists := Ok true;
                iterdir := Ok [Ok (at_time day_2024_01_01 9 0 0)] |} ]
           (at_time day_2024_01_01 12 30 0) 0
           (at_time day_2024_01_01 12 30 0)).
  - lia.
  - vm_compute. reflexivity.
  - simpl. repeat constructor.
  - left. simpl. repeat constructor.
  - apply Forall_cons_2; [|apply Forall_nil_2].
    left. simpl. repeat constructor.
  - repeat (apply Forall_cons_2; [|try apply Forall_nil_2]);
      simpl; intros t Ht;
      apply list_elem_of_singleton in Ht; injection Ht as ->;
      vm_compute; discriminate.
Defined.


Lemma longer_gap_still_qualifies_witness :
  let left_at := at_time day_2024_01_01 23 0 0 in
  SFleb (gap_hours_of left_at (at_time (day_2024_01_01 + 1) 6 0 0))
        (gap_hours_of left_at (at_time (day_2024_01_01 + 1) 7 30 0)) = true /\
  (PyFloat.ge (gap_hours_of left_at (at_time (day_2024_01_01 + 1) 6 0 0))
     (PyFloat.of_int 3) = true ->
   PyFloat.ge (gap_hours_of left_at (at_time (day_2024_01_01 + 1) 7 30 0))
     (PyFloat.of_int 3) = true).
Proof.
  apply (longer_gap_still_qualifies
           (at_time day_2024_01_01 23 0 0) (at_time (day_2024_01_01 + 1) 6 0 0)
           (at_time day_2024_01_01 23 0 0) (at_time (day_2024_01_01 + 1) 7 30 0)
           (PyFloat.of_int 3)).
  vm_compute. split; discriminate.
Defined.

Lemma bar_len_full_iff_busiest_witness :
  exists n,
    bar_len 3 7 = Ok n /\ 0 <= n <= 40 /\
    (n = 40 <-> 3 = 7) /\ (3 = 0 -> n = 0).
Proof.
  apply (bar_len_full_iff_busiest 3 7).
  - lia.
  - lia.
Defined.

Lemma bar_len_monotone_witness :
  exists n n', bar_len 3 7 = Ok n /\ bar_len 6 7 = Ok n' /\ n <= n'.
Proof.
  apply (bar_len_monotone 3 6 7).
  - lia.
  - lia.
  - lia.
Defined.

Lemma duration_display_minutes_witness :
  let left_at := at_time day_2024_01_01 23 0 0 in
  let back_at := at_time (day_2024_01_01 + 1) 6 59 59 in
  exists hours mins,
    duration_display (gap_hours_of left_at back_at) = Ok (hours, mins) /\
    0 <= hours /\ 0 <= mins <= 59 /\
    forall g, 0 <= g < 2 ^ 53 ->
      PyFloat.ge (gap_hours_of left_at back_at) (PyFloat.of_int g) = true ->
      g <= hours.
Proof.
  apply (duration_display_minutes (at_time day_2024_01_01 23 0 0)
           (at_time (day_2024_01_01 + 1) 6 59 59)).
  vm_compute. split; [discriminate|reflexivity].
Defined.

Lemma heatmap_no_row_for_negative_days_witness :
  let now := at_time day_2024_01_01 12 30 0 in
  heatmap_hours [now] now (-2) = Some (Ok []).
Proof.
  apply (heatmap_no_row_for_negative_days [at_time day_2024_01_01 12 30 0]
           (at_time day_2024_01_01 12 30 0) (-2)
           (at_time (day_2024_01_01 + 2) 12 30 0)).
  - lia.
  - vm_compute. reflexivity.
Defined.
